(** * premise: the electricity transformation ([premise/electricity.py])

    A shallow embedding of the loss model, the production-weighted
    allocation, the three market builders (high, medium and low voltage),
    the photovoltaic and power-plant efficiency updates and the CHP CCS
    adjustment of region-specific power plants.

    Conventions of the embedding.
    - Python [float] and numpy [float64] values are rationals ([Q]):
      rounding is not modelled, equalities between amounts are stated
      with [==].  Python's [/] on floats raises [ZeroDivisionError] on a
      zero divisor, which [py_truediv] reproduces; numpy's division does
      not raise (it yields inf or nan), so theorems about numpy quotients
      carry the side condition that the divisor is not zero.
    - A Python exception is a value [Raise e] of the type [result].
    - [dict] objects with string keys read by the code are [gmap]s; the
      insertion-ordered dictionaries the code iterates over are lists.
    - The attributes of the transformation and the collaborators of
      [BaseTransformation] that the code calls are the fields of the
      record [Electricity], which stands for [self]; the database and the
      ledger of created datasets, which the code modifies, are threaded
      through the functions as a [state]. *)

From Stdlib Require Import QArith Qminmax Lqa Lia Ascii String.
From stdpp Require Import base strings list gmap fin_maps pretty.

Local Open Scope string_scope.
Local Open Scope list_scope.
Local Open Scope Q_scope.

(** ** Exceptions *)

Inductive exn : Type :=
| ZeroDivisionError
| IndexError
| KeyError (key : string)
| NoResults
| MultipleResults.

Inductive result (A : Type) : Type :=
| Ok (a : A)
| Raise (e : exn).

Arguments Ok {A} a.
Arguments Raise {A} e.

#[global] Instance result_ret : MRet result := fun _ a => Ok a.

#[global] Instance result_bind : MBind result := fun _ _ f m =>
  match m with
  | Ok a => f a
  | Raise e => Raise e
  end.

Definition is_Ok {A} (r : result A) : Prop :=
  match r with Ok _ => True | Raise _ => False end.

(** [for x in l: acc = body(acc, x)] where the body may raise. *)
Fixpoint for_each {A S} (body : S -> A -> result S) (l : list A) (acc : S)
  : result S :=
  match l with
  | [] => Ok acc
  | x :: l' => acc' ← body acc x; for_each body l' acc'
  end.

(** ** Numbers *)

(** [x / y] on Python floats (and [int / int]). *)
Definition py_truediv (x y : Q) : result Q :=
  if Qeq_bool y 0 then Raise ZeroDivisionError else Ok (x / y).

(** [x != y] and [x > y]. *)
Definition Qneb (x y : Q) : bool := negb (Qeq_bool x y).
Definition Qgtb (x y : Q) : bool := negb (Qle_bool x y).

(** [np.clip(x, lo, hi)], which is [minimum(hi, maximum(x, lo))]. *)
Definition np_clip (x lo hi : Q) : Q := Qmin hi (Qmax x lo).

(** [sum(l)]: the fold starts from the integer [0]. *)
Definition py_sum (l : list Q) : Q := fold_left Qplus l 0.

(** ** Strings *)

Definition lower_ascii (c : ascii) : ascii :=
  let n := N_of_ascii c in
  if ((65 <=? n) && (n <=? 90))%N then ascii_of_N (n + 32) else c.

(** [s.lower()], on ASCII. *)
Fixpoint lower (s : string) : string :=
  match s with
  | EmptyString => EmptyString
  | String c s' => String (lower_ascii c) (lower s')
  end.

(** [needle in hay]. *)
Fixpoint contains (needle hay : string) : bool :=
  String.prefix needle hay ||
  match hay with
  | EmptyString => false
  | String _ hay' => contains needle hay'
  end.

(** [s.startswith(p)]. *)
Definition startswith (s p : string) : bool := String.prefix p s.

(** [d[k]] on a dictionary with string keys. *)
Definition getitem {V} (d : gmap string V) (k : string) : result V :=
  match d !! k with
  | Some v => Ok v
  | None => Raise (KeyError k)
  end.

(** ** The loss model *)

Module Losses.

Record tier_loss : Type := TierLoss { transf_loss : Q; distr_loss : Q }.

Record network_loss : Type :=
  NetworkLoss { high : tier_loss; medium : tier_loss; low : tier_loss }.

(** The record [losses.get] falls back on, per voltage level. *)
Definition default_high : gmap string Q :=
  {[ "Transformation loss high voltage" := 0; "Production volume" := 0 ]}.

Definition default_medium : gmap string Q :=
  {[ "Transformation loss medium voltage" := 0;
     "Transmission loss to medium voltage" := 0;
     "Production volume" := 0 ]}.

Definition default_low : gmap string Q :=
  {[ "Transformation loss low voltage" := 0;
     "Transmission loss to low voltage" := 0;
     "Production volume" := 0 ]}.

(** Body of the first loop: the state is [(cumul_prod, transf_loss)]. *)
Definition high_step (losses : gmap string (gmap string Q))
    (acc : Q * Q) (loc : string) : result (Q * Q) :=
  let '(cumul_prod, transf_loss) := acc in
  let dict_loss := default default_high (losses !! loc) in
  t ← getitem dict_loss "Transformation loss high voltage";
  p ← getitem dict_loss "Production volume";
  Ok (cumul_prod + p, transf_loss + t * p).

(** Body of the second and third loops, which differ by their column
    names and default record only: the state is
    [(cumul_prod, transf_loss, distr_loss)]. *)
Definition tier_step (transf_key distr_key : string)
    (dflt : gmap string Q) (losses : gmap string (gmap string Q))
    (acc : Q * Q * Q) (loc : string) : result (Q * Q * Q) :=
  let '(cumul_prod, transf_loss, distr_loss) := acc in
  let dict_loss := default dflt (losses !! loc) in
  t ← getitem dict_loss transf_key;
  p ← getitem dict_loss "Production volume";
  d ← getitem dict_loss distr_key;
  Ok (cumul_prod + p, transf_loss + t * p, distr_loss + d * p).

Definition tier_losses (transf_key distr_key : string)
    (dflt : gmap string Q) (losses : gmap string (gmap string Q))
    (locs : list string) : result tier_loss :=
  '(cumul_prod, transf_loss, distr_loss) ←
    for_each (tier_step transf_key distr_key dflt losses) locs (0, 0, 0);
  transf_loss ← py_truediv transf_loss cumul_prod;
  distr_loss ← py_truediv distr_loss cumul_prod;
  Ok (TierLoss transf_loss distr_loss).

Definition get_production_weighted_losses
    (losses : gmap string (gmap string Q)) (locs : list string)
  : result network_loss :=
  '(cumul_prod, transf_loss) ← for_each (high_step losses) locs (0, 0);
  transf_loss ← py_truediv transf_loss cumul_prod;
  let high := TierLoss transf_loss 0 in
  medium ← tier_losses "Transformation loss medium voltage"
             "Transmission loss to medium voltage" default_medium losses locs;
  low ← tier_losses "Transformation loss low voltage"
          "Transmission loss to low voltage" default_low losses locs;
  Ok (NetworkLoss high medium low).

End Losses.


(** ** The inventory database *)

Inductive exchange_type : Type := production | technosphere | biosphere.

Definition exchange_type_eqb (a b : exchange_type) : bool :=
  match a, b with
  | production, production | technosphere, technosphere
  | biosphere, biosphere => true
  | _, _ => false
  end.

(** The value stored under ["loc"]: an amount or, for the suppliers that
    [select_multiple_suppliers] returns, the location of the supplier. *)
Inductive pyval : Type := PNum (q : Q) | PStr (s : string).

(** An exchange, with the keys the code reads or writes; [None] is an
    absent key. *)
Record exchange : Type := Exchange {
  e_type : exchange_type;
  e_name : string;
  e_product : option string;
  e_location : option string;
  e_unit : string;
  e_amount : Q;
  e_loc : option pyval;
  e_uncertainty_type : option Z;
  e_production_volume : option Q;
  e_input : option (string * string);
  e_categories : option (list string)
}.

Definition set_amount (exc : exchange) (amount : Q) : exchange :=
  Exchange (e_type exc) (e_name exc) (e_product exc) (e_location exc)
    (e_unit exc) amount (e_loc exc) (e_uncertainty_type exc)
    (e_production_volume exc) (e_input exc) (e_categories exc).

(** A dataset.  The keys ["code"] (a fresh [uuid4]) and ["comment"] (free
    text) are read by none of the functions below and are left out. *)
Record dataset : Type := Dataset {
  ds_name : string;
  ds_reference_product : string;
  ds_location : string;
  ds_unit : string;
  ds_database : string;
  ds_exchanges : list exchange;
  ds_log_parameters : gmap string Q
}.

Definition set_exchanges (ds : dataset) (excs : list exchange) : dataset :=
  Dataset (ds_name ds) (ds_reference_product ds) (ds_location ds)
    (ds_unit ds) (ds_database ds) excs (ds_log_parameters ds).

Definition update_log_parameters (ds : dataset) (upd : list (string * Q))
  : dataset :=
  Dataset (ds_name ds) (ds_reference_product ds) (ds_location ds)
    (ds_unit ds) (ds_database ds) (ds_exchanges ds)
    (fold_left (fun m kv => <[kv.1 := kv.2]> m) upd (ds_log_parameters ds)).

(** A supplier as [select_multiple_suppliers] keys it:
    [(name, location, reference product, unit)]. *)
Definition supplier_key : Type := string * string * string * string.

(** The mutable part of the transformation: [self.database] and
    [self.modified_datasets[(model, scenario, year)]["created"]]. *)
Record state : Type := State {
  database : list dataset;
  created : list supplier_key
}.

(** [l[i]]. *)
Definition py_index {A} (l : list A) (i : nat) : result A :=
  match l !! i with
  | Some x => Ok x
  | None => Raise IndexError
  end.

(** *** Insertion-ordered dictionaries *)

(** [d[k] = v]: a key that is present keeps its position. *)
Fixpoint dict_set {V} (k : string) (v : V) (d : list (string * V))
  : list (string * V) :=
  match d with
  | [] => [(k, v)]
  | (k', v') :: d' =>
      if String.eqb k k' then (k', v) :: d' else (k', v') :: dict_set k v d'
  end.

(** [dict(items)]. *)
Definition py_dict {V} (items : list (string * V)) : list (string * V) :=
  fold_left (fun d kv => dict_set kv.1 kv.2 d) items [].

Fixpoint dict_lookup {V} (d : list (string * V)) (k : string) : option V :=
  match d with
  | [] => None
  | (k', v) :: d' => if String.eqb k k' then Some v else dict_lookup d' k
  end.

(** [d[k]]. *)
Definition dict_get {V} (d : list (string * V)) (k : string) : result V :=
  match dict_lookup d k with
  | Some v => Ok v
  | None => Raise (KeyError k)
  end.

(** *** The searching helpers of [wurst] *)

Module ws.

(** [ws.technosphere(ds)], [ws.biosphere(ds)], [ws.production(ds)]. *)
Definition of_type (t : exchange_type) (ds : dataset) : list exchange :=
  filter (fun exc => exchange_type_eqb (e_type exc) t = true)
    (ds_exchanges ds).

(** [ws.get_many(data, *funcs)]. *)
Definition get_many (data : list dataset) (p : dataset -> bool)
  : list dataset :=
  filter (fun ds => p ds = true) data.

(** [ws.get_one(data, *funcs)]. *)
Definition get_one (data : list dataset) (p : dataset -> bool)
  : result dataset :=
  match get_many data p with
  | [] => Raise NoResults
  | [ds] => Ok ds
  | _ => Raise MultipleResults
  end.

End ws.

(** ** The transformation object *)

(** An entry of [technologies_map], the result of [get_iam_mapping]:
    [IAM_eff_func variable location] is the change of efficiency that the
    scenario gives, [current_eff_func dataset fuel_filters energy] the
    efficiency that the dataset implies. *)
Record technology_entry : Type := {
  IAM_eff_func : string -> string -> Q;
  current_eff_func : dataset -> list string -> Q -> Q;
  technology_filters : list string;
  fuel_filters : list string
}.

(** The attributes of [self] that the functions read and do not modify,
    and the collaborators they call.
    - [electricity_markets_sel region v] is
      [electricity_markets.sel(region=region, year=self.year)] at the
      variable [v]; [electricity_markets_mean region period v] is the mean
      over the years [self.year .. self.year + period] of the interpolated
      array, at [v].
    - [get_suppliers_of_a_region], [select_multiple_suppliers] and
      [fetch_proxies] take the database they search as their first
      argument.
    - [module_eff pv_tech] is the projected module efficiency of
      [get_efficiency_solar_photovoltaics()] interpolated at [self.year].
    - [findall_numbers name] lists the numbers that [re.findall] matches
      in [name], converted by [float]. *)
Record Electricity : Type := {
  regions : list string;
  system_model : string;
  variables : list string;
  electricity_markets_sel : string -> string -> Q;
  electricity_markets_mean : string -> nat -> string -> Q;
  powerplant_map : gmap string (list string);
  powerplant_map_rev : gmap string string;
  production_per_tech : gmap (string * string) Q;
  network_loss : gmap string Losses.network_loss;
  iam_to_ecoinvent_location : string -> list string;
  get_suppliers_of_a_region :
    list dataset -> list string -> list string -> string -> string ->
    list dataset;
  select_multiple_suppliers :
    list dataset -> list string -> string -> list (supplier_key * Q);
  biosphere_dict : gmap supplier_key string;
  fetch_proxies :
    list dataset -> string -> string -> option string ->
    list (string * dataset);
  technologies_map : list (string * technology_entry);
  ecoinvent_to_iam_location : string -> string;
  update_ecoinvent_efficiency_parameter : dataset -> Q -> Q -> dataset;
  module_eff : string -> Q;
  findall_numbers : string -> list Q
}.

(** [__init__]: the losses of every region, computed once. *)
Definition init_network_loss (losses : gmap string (gmap string Q))
    (geo : string -> list string) (regions : list string)
  : result (gmap string Losses.network_loss) :=
  for_each (fun m loc =>
      l ← Losses.get_production_weighted_losses losses (geo loc);
      Ok (<[loc := l]> m))
    regions ∅.

(** ** The allocation engine *)

Definition indexed_volume (self : Electricity) (ds : dataset) : Q :=
  default 0 (production_per_tech self !! (ds_name ds, ds_location ds)).

Definition get_production_weighted_share (self : Electricity)
    (supplier : dataset) (suppliers : list dataset) : result Q :=
  let loc_production := indexed_volume self supplier in
  let total_production :=
    fold_left (fun total loc => total + indexed_volume self loc) suppliers 0 in
  if Qneb total_production 0
  then py_truediv loc_production total_production
  else py_truediv 1 (inject_Z (Z.of_nat (length suppliers))).

(** [[x for x in l if p(x)]] where the test may raise. *)
Fixpoint filter_result {A} (p : A -> result bool) (l : list A)
  : result (list A) :=
  match l with
  | [] => Ok []
  | x :: l' =>
      b ← p x;
      r ← filter_result p l';
      Ok (if b : bool then x :: r else r)
  end.

Definition check_for_production_volume (self : Electricity)
    (suppliers : list dataset) : result (list dataset) :=
  filter_result (fun supplier =>
      share ← get_production_weighted_share self supplier suppliers;
      Ok (Qneb share 0))
    suppliers.

(** ** The supplier resolver *)

(** The loop [while len(suppliers) == 0], entered with
    [possible_locations[counter:]]: indexing past the last scope raises
    [IndexError]. *)
Fixpoint find_suppliers (self : Electricity) (db : list dataset)
    (possible_locations : list (list string)) (names : list string)
  : result (list dataset) :=
  match possible_locations with
  | [] => Raise IndexError
  | locations :: rest =>
      match get_suppliers_of_a_region self db locations names
              "electricity" "kilowatt hour" with
      | [] => find_suppliers self db rest names
      | suppliers => Ok suppliers
      end
  end.

Definition possible_locations (self : Electricity) (region : string)
  : list (list string) :=
  [[region]; iam_to_ecoinvent_location self region; ["RER"]; ["RoW"]; ["CH"]].

(** The statements that follow the loop, the same in the high and in the
    low voltage builder: suppliers without production are removed, each
    supplier gets its share, shares of at most 0.1% are dropped and the
    remaining ones are rescaled. *)
Definition supplier_shares (self : Electricity) (suppliers : list dataset)
  : result (list (dataset * Q)) :=
  suppliers ← check_for_production_volume self suppliers;
  shares ← mapM (fun supplier =>
      share ← get_production_weighted_share self supplier suppliers;
      Ok (supplier, share)) suppliers;
  let kept := filter (fun supplier => Qgtb supplier.2 (1 # 1000) = true)
                shares in
  let total_share := py_sum (map snd kept) in
  mapM (fun supplier =>
      share ← py_truediv supplier.2 total_share;
      Ok (supplier.1, share)) kept.

Definition resolve_technology (self : Electricity) (db : list dataset)
    (region : string) (names : list string) : result (list (dataset * Q)) :=
  suppliers ← find_suppliers self db (possible_locations self region) names;
  supplier_shares self suppliers.

(** [tech_suppliers[technology]] on the [defaultdict(list)]. *)
Definition tech_suppliers_get (tech_suppliers : list (string * list (dataset * Q)))
    (technology : string) : list (dataset * Q) :=
  default [] (dict_lookup tech_suppliers technology).

(** ** The market builders *)

Definition consequential (self : Electricity) : bool :=
  String.eqb (system_model self) "consequential".

Definition periods (self : Electricity) : list nat :=
  if consequential self then [0%nat] else [0; 20; 40; 60]%nat.

(** [base if period == 0 else f"{base}, {period}-year period"]. *)
Definition market_name (base : string) (period : nat) : string :=
  if (period =? 0)%nat then base
  else base +:+ ", " +:+ pretty period +:+ "-year period".

Definition electricity_mix (self : Electricity) (region : string)
    (period : nat) : list (string * Q) :=
  py_dict (zip (variables self)
    (if consequential self
     then map (electricity_markets_sel self region) (variables self)
     else map (electricity_markets_mean self region period) (variables self))).

(** [{technology: self.powerplant_map[technology] for technology in ...}]. *)
Definition ecoinvent_technologies (self : Electricity)
    (technologies : list string) : result (list (string * list string)) :=
  items ← mapM (fun technology =>
      names ← getitem (powerplant_map self) technology;
      Ok (technology, names)) technologies;
  Ok (py_dict items).

Definition is_residential_solar (tech : string) : bool :=
  contains "solar pv residential" (lower tech).

(** An exchange created by a market builder. *)
Definition market_exchange (type : exchange_type) (name product location
    unit : string) (amount : Q) (loc : pyval) : exchange :=
  Exchange type name (Some product) (Some location) unit amount (Some loc)
    (Some 0%Z) (Some 0) None None.

(** The exchanges built from [select_multiple_suppliers]. *)
Definition supply_exchanges (self : Electricity) (db : list dataset)
    (possible_names : list string) (region : string) (coefficient : Q)
  : list exchange :=
  map (fun '((name, location, product, unit), share) =>
      market_exchange technosphere name product location unit
        (coefficient * share) (PStr location))
    (select_multiple_suppliers self db possible_names region).

Definition sf6_key : supplier_key :=
  ("Sulfur hexafluoride", "air", "non-urban air or from high stacks",
   "kilogram").

Definition sf6_emission (self : Electricity) (amount : Q) : result exchange :=
  code ← match biosphere_dict self !! sf6_key with
         | Some code => Ok code
         | None => Raise (KeyError "Sulfur hexafluoride")
         end;
  Ok (Exchange biosphere "Sulfur hexafluoride" None None "kilogram" amount
        (Some (PNum amount)) (Some 0%Z) None (Some ("biosphere3", code))
        (Some ["air"; "non-urban air or from high stacks"])).

Definition ledger_entry (ds : dataset) : supplier_key :=
  (ds_name ds, ds_reference_product ds, ds_location ds, ds_unit ds).

(** [self.database.append(new_dataset)] and the entry in the ledger of
    created datasets. *)
Definition append_dataset (st : state) (ds : dataset) : state :=
  State (database st ++ [ds]) (created st ++ [ledger_entry ds]).

(** *** High voltage *)

Definition renewable_techs : list string :=
  ["solar"; "wind"; "geothermal"; "hydro"; "biomass"; "biogas"; "wave"].

(** The residential solar share of the mix: the loop over the keys of
    [electricity_mix], which adds [electricity_mix[tech]]. *)
Definition solar_amount_of (mix : list (string * Q)) : Q :=
  fold_left (fun solar_amount kv =>
      if is_residential_solar kv.1 then solar_amount + kv.2
      else solar_amount) mix 0.

Definition renewable_share_of (mix : list (string * Q)) : Q :=
  fold_left (fun renewable_share kv =>
      if existsb (fun x => contains x (lower kv.1)) renewable_techs
      then renewable_share + kv.2 else renewable_share) mix 0.

(** The loop [for technology in technologies] of the high voltage
    builder: the exchanges it appends. *)
Definition high_voltage_supply (mix : list (string * Q))
    (tech_suppliers : list (string * list (dataset * Q)))
    (solar_amount : Q) (technologies : list string) : result (list exchange) :=
  for_each (fun new_exchanges technology =>
      amount ← dict_get mix technology;
      if Qgtb amount 0
      then Ok (new_exchanges ++
             map (fun '(supplier, share) =>
                 market_exchange technosphere (ds_name supplier)
                   (ds_reference_product supplier) (ds_location supplier)
                   (ds_unit supplier)
                   (amount * share / (1 - solar_amount))
                   (PNum (amount * share / (1 - solar_amount))))
               (tech_suppliers_get tech_suppliers technology))
      else Ok new_exchanges)
    technologies [].

Definition high_voltage_market (self : Electricity) (db : list dataset)
    (region : string) (transf_loss : Q)
    (tech_suppliers : list (string * list (dataset * Q)))
    (technologies : list string) (period : nat) : result dataset :=
  let electricity_mix := electricity_mix self region period in
  second ← py_index db 1;
  let name := market_name "market group for electricity, high voltage" period in
  let new_exchanges :=
    [ market_exchange production name "electricity, high voltage" region
        "kilowatt hour" 1 (PNum 1);
      market_exchange technosphere name "electricity, high voltage" region
        "kilowatt hour" transf_loss (PNum 1) ] in
  let solar_amount := solar_amount_of electricity_mix in
  let renewable_share := renewable_share_of electricity_mix in
  supply ← high_voltage_supply electricity_mix tech_suppliers solar_amount
             technologies;
  Ok (Dataset name "electricity, high voltage" region "kilowatt hour"
        (ds_database second) (new_exchanges ++ supply)
        (list_to_map
           [ ("distribution loss", 0);
             ("transformation loss", transf_loss);
             ("renewable share",
              (renewable_share - solar_amount)
              / py_sum (map snd electricity_mix)) ])).

(** The body of [for technology in ecoinvent_technologies], inside
    [try: ... except IndexError]. *)
Definition high_voltage_resolve (self : Electricity) (db : list dataset)
    (region : string) (tech_suppliers : list (string * list (dataset * Q)))
    (entry : string * list string)
  : result (list (string * list (dataset * Q))) :=
  match resolve_technology self db region entry.2 with
  | Ok shares => Ok (dict_set entry.1 shares tech_suppliers)
  | Raise IndexError =>
      if consequential self then Ok tech_suppliers else Raise IndexError
  | Raise e => Raise e
  end.

Definition high_voltage_region (self : Electricity)
    (technologies : list string) (ecoinvent_technologies : list (string * list string))
    (st : state) (region : string) : result state :=
  loss ← getitem (network_loss self) region;
  let transf_loss := Losses.transf_loss (Losses.high loss) in
  tech_suppliers ← for_each (high_voltage_resolve self (database st) region)
                     ecoinvent_technologies [];
  for_each (fun st period =>
      new_dataset ← high_voltage_market self (database st) region transf_loss
                      tech_suppliers technologies period;
      Ok (append_dataset st new_dataset))
    (periods self) st.

Definition create_new_markets_high_voltage (self : Electricity) (st : state)
  : result state :=
  let technologies :=
    filter (fun tech => is_residential_solar tech = false) (variables self) in
  ecoinvent_technologies ← ecoinvent_technologies self technologies;
  for_each (high_voltage_region self technologies ecoinvent_technologies)
    (regions self) st.

(** *** Medium voltage *)

Definition medium_voltage_market (self : Electricity) (db : list dataset)
    (region : string) (transf_loss distr_loss : Q) (period : nat)
  : result dataset :=
  second ← py_index db 1;
  let name :=
    market_name "market group for electricity, medium voltage" period in
  let new_exchanges :=
    [ market_exchange production name "electricity, medium voltage" region
        "kilowatt hour" 1 (PNum 1);
      market_exchange technosphere
        (market_name "market group for electricity, high voltage" period)
        "electricity, high voltage" region "kilowatt hour"
        (1 + distr_loss) (PNum 0);
      market_exchange technosphere
        (market_name "market group for electricity, medium voltage" period)
        "electricity, medium voltage" region "kilowatt hour"
        transf_loss (PNum 0) ] in
  let sf6_supply :=
    supply_exchanges self db ["market for sulfur hexafluoride, liquid"]
      region (54 # 1000000000) in
  emission ← sf6_emission self (54 # 1000000000);
  let network :=
    supply_exchanges self db
      ["transmission network construction, electricity, medium voltage"]
      region (18628 # 1000000000000) in
  Ok (Dataset name "electricity, medium voltage" region "kilowatt hour"
        (ds_database second)
        (new_exchanges ++ sf6_supply ++ [emission] ++ network)
        (list_to_map
           [ ("distribution loss", distr_loss);
             ("transformation loss", transf_loss);
             ("renewable share", 0) ])).

Definition medium_voltage_region (self : Electricity) (st : state)
    (region : string) : result state :=
  loss ← getitem (network_loss self) region;
  let transf_loss := Losses.transf_loss (Losses.medium loss) in
  let distr_loss := Losses.distr_loss (Losses.medium loss) in
  for_each (fun st period =>
      new_dataset ← medium_voltage_market self (database st) region
                      transf_loss distr_loss period;
      Ok (append_dataset st new_dataset))
    (periods self) st.

Definition create_new_markets_medium_voltage (self : Electricity)
    (st : state) : result state :=
  for_each (medium_voltage_region self) (regions self) st.

(** *** Low voltage *)

(** The loop [for technology in technologies] of the low voltage builder:
    the state is [(new_exchanges, solar_amount)]. *)
Definition low_voltage_solar (mix : list (string * Q))
    (tech_suppliers : list (string * list (dataset * Q)))
    (technologies : list string) (new_exchanges : list exchange)
  : result (list exchange * Q) :=
  for_each (fun '(new_exchanges, solar_amount) technology =>
      amount ← dict_get mix technology;
      if Qgtb amount 0
      then Ok (new_exchanges ++
                 map (fun '(supplier, share) =>
                     market_exchange technosphere (ds_name supplier)
                       (ds_reference_product supplier) (ds_location supplier)
                       (ds_unit supplier) (amount * share)
                       (PNum (amount * share)))
                   (tech_suppliers_get tech_suppliers technology),
               solar_amount + amount)
      else Ok (new_exchanges, solar_amount))
    technologies (new_exchanges, 0).

Definition low_voltage_market (self : Electricity) (db : list dataset)
    (region : string) (transf_loss distr_loss : Q)
    (tech_suppliers : list (string * list (dataset * Q)))
    (technologies : list string) (period : nat) : result dataset :=
  let electricity_mix := electricity_mix self region period in
  second ← py_index db 1;
  let name := market_name "market group for electricity, low voltage" period in
  let new_exchanges :=
    [ market_exchange production name "electricity, low voltage" region
        "kilowatt hour" 1 (PNum 1) ] in
  let sf6_supply :=
    supply_exchanges self db ["market for sulfur hexafluoride, liquid"]
      region (299 # 100000000000) in
  emission ← sf6_emission self (299 # 100000000000);
  let network :=
    supply_exchanges self db
      ["distribution network construction, electricity, low voltage"]
      region (874 # 10000000000) in
  '(new_exchanges, solar_amount) ←
    low_voltage_solar electricity_mix tech_suppliers technologies
      (new_exchanges ++ sf6_supply ++ [emission] ++ network);
  let medium_input :=
    market_exchange technosphere
      (market_name "market group for electricity, medium voltage" period)
      "electricity, medium voltage" region "kilowatt hour"
      ((1 - solar_amount) * (1 + distr_loss)) (PNum 0) in
  let self_loop :=
    market_exchange technosphere
      (market_name "market group for electricity, low voltage" period)
      "electricity, low voltage" region "kilowatt hour"
      transf_loss (PNum 0) in
  Ok (Dataset name "electricity, low voltage" region "kilowatt hour"
        (ds_database second)
        (new_exchanges ++ [medium_input; self_loop])
        (list_to_map
           [ ("distribution loss", distr_loss);
             ("transformation loss", transf_loss);
             ("renewable share", solar_amount / (1 + distr_loss)) ])).

(** The body of [for technology in ecoinvent_technologies]: here no
    exception is caught. *)
Definition low_voltage_resolve (self : Electricity) (db : list dataset)
    (region : string) (tech_suppliers : list (string * list (dataset * Q)))
    (entry : string * list string)
  : result (list (string * list (dataset * Q))) :=
  shares ← resolve_technology self db region entry.2;
  Ok (dict_set entry.1 shares tech_suppliers).

Definition low_voltage_region (self : Electricity)
    (technologies : list string) (ecoinvent_technologies : list (string * list string))
    (st : state) (region : string) : result state :=
  loss ← getitem (network_loss self) region;
  let transf_loss := Losses.transf_loss (Losses.low loss) in
  let distr_loss := Losses.distr_loss (Losses.low loss) in
  tech_suppliers ← for_each (low_voltage_resolve self (database st) region)
                     ecoinvent_technologies [];
  for_each (fun st period =>
      new_dataset ← low_voltage_market self (database st) region transf_loss
                      distr_loss tech_suppliers technologies period;
      Ok (append_dataset st new_dataset))
    (periods self) st.

Definition create_new_markets_low_voltage (self : Electricity) (st : state)
  : result state :=
  let technologies :=
    filter (fun tech => is_residential_solar tech = true) (variables self) in
  ecoinvent_technologies ← ecoinvent_technologies self technologies;
  for_each (low_voltage_region self technologies ecoinvent_technologies)
    (regions self) st.

(** ** Efficiency of photovoltaic panels *)

Definition possible_techs : list string :=
  ["micro-Si"; "single-Si"; "multi-Si"; "CIGS"; "CIS"; "CdTe"].

(** The body of the loop over the panel exchanges of a dataset.  The
    second component is [(current_eff, new_eff)] when the amount was
    changed.  The amounts are exact rationals: after a change the rated
    power divided by the new amount is the new efficiency exactly, which
    rounding does not guarantee on floats, so nothing is stated here about
    a second run of the pass. *)
Definition update_pv_exchange (self : Electricity) (power : Q)
    (exc : exchange) : result (exchange * option (Q * Q)) :=
  let surface := e_amount exc in
  let max_power := surface in
  current_eff ← py_truediv power max_power;
  match filter (fun i => contains (lower i) (lower (e_name exc)) = true)
          possible_techs with
  | [] => Ok (exc, None)
  | pv_tech :: _ =>
      let new_eff := np_clip (module_eff self pv_tech) (1 # 10) (27 # 100) in
      if Qgtb new_eff current_eff
      then Ok (set_amount exc (e_amount exc * (current_eff / new_eff)),
               Some (current_eff, new_eff))
      else Ok (exc, None)
  end.

(** The exchanges [ws.technosphere(dataset, contains("name",
    "photovoltaic"), equals("unit", "square meter"))] iterates over. *)
Definition is_panel_surface (exc : exchange) : bool :=
  exchange_type_eqb (e_type exc) technosphere
  && contains "photovoltaic" (e_name exc)
  && String.eqb (e_unit exc) "square meter".

Definition update_pv_dataset (self : Electricity) (ds : dataset)
  : result dataset :=
  power ← py_index (findall_numbers self (ds_name ds)) 0;
  let power :=
    if contains "mwp" (lower (ds_name ds)) then power * 1000
    else power in
  '(exchanges, log_parameters) ←
    for_each (fun '(exchanges, log_parameters) exc =>
        if is_panel_surface exc
        then
          '(exc', change) ← update_pv_exchange self power exc;
          Ok (exchanges ++ [exc'],
              match change with
              | Some (current_eff, new_eff) =>
                  <["new efficiency" := new_eff]>
                    (<["old efficiency" := current_eff]> log_parameters)
              | None => log_parameters
              end)
        else Ok (exchanges ++ [exc], log_parameters))
      (ds_exchanges ds) ([], ds_log_parameters ds);
  Ok (Dataset (ds_name ds) (ds_reference_product ds)
        (ds_location ds) (ds_unit ds) (ds_database ds)
        exchanges log_parameters).

Definition is_pv_installation (ds : dataset) : bool :=
  contains "photovoltaic" (ds_name ds)
  && (contains "installation" (ds_name ds)
      || contains "construction" (ds_name ds))
  && negb (existsb (fun x => contains x (ds_name ds))
             ["market"; "factory"; "module"])
  && String.eqb (ds_unit ds) "unit".

Definition update_efficiency_of_solar_pv (self : Electricity) (st : state)
  : result state :=
  db ← mapM (fun ds =>
      if is_pv_installation ds then update_pv_dataset self ds else Ok ds)
    (database st);
  Ok (State db (created st)).

(** ** Region-specific power plants *)

Definition techs : list string :=
  [ "Biomass CHP CCS"; "Biomass ST"; "Biomass IGCC CCS"; "Biomass IGCC";
    "Coal IGCC"; "Coal PC CCS"; "Coal CHP CCS"; "Coal IGCC CCS";
    "Gas CHP CCS"; "Gas CC CCS"; "Oil CC CCS" ].

(** [name in [y for k, v in self.powerplant_map.items() for y in v
    if k in techs]]. *)
Definition is_plant_of_techs (self : Electricity) (name : string) : bool :=
  existsb (fun k =>
      match powerplant_map self !! k with
      | Some v => existsb (String.eqb name) v
      | None => false
      end) techs.

Definition list_datasets_to_duplicate (self : Electricity)
    (db : list dataset) : list string :=
  map ds_name (filter (fun ds => is_plant_of_techs self (ds_name ds) = true) db)
  ++ [ "Wood chips, burned in power plant"; "Natural gas, in ATR ";
       "Hard coal, burned"; "Lignite, burned"; "CO2 storage/";
       "CO2 capture/" ].

(** [exc[key]] for a key that may be absent. *)
Definition exc_key {A} (key : string) (v : option A) : result A :=
  match v with
  | Some x => Ok x
  | None => Raise (KeyError key)
  end.

Definition is_electricity_provider (e : exchange) : bool :=
  exchange_type_eqb (e_type e) technosphere
  && String.eqb (e_unit e) "kilowatt hour".

(** [ws.biosphere(provider_ds, ws.contains("name", "Carbon dioxide"))]. *)
Definition carbon_dioxide_of (provider_ds : dataset) : list exchange :=
  filter (fun f => contains "Carbon dioxide" (e_name f) = true)
    (ws.of_type biosphere provider_ds).

(** [sum(f["amount"] * provider["amount"] for f in ws.biosphere(...))]. *)
Definition released_by (provider : exchange) (provider_ds : dataset) : Q :=
  py_sum (map (fun f => e_amount f * e_amount provider)
            (carbon_dioxide_of provider_ds)).

(** The dataset of a provider: the call of [ws.get_one]. *)
Definition find_provider (db : list dataset) (provider : exchange)
  : result dataset :=
  location ← exc_key "location" (e_location provider);
  product ← exc_key "product" (e_product provider);
  ws.get_one db (fun ds =>
      String.eqb (ds_name ds) (e_name provider)
      && String.eqb (ds_location ds) location
      && String.eqb (ds_reference_product ds) product
      && String.eqb (ds_unit ds) (e_unit provider)).

(** The carbon dioxide released by one provider, per unit of the plant. *)
Definition provider_co2 (db : list dataset) (provider : exchange)
  : result Q :=
  provider_ds ← find_provider db provider;
  Ok (released_by provider provider_ds).

Definition co2_amount_of (db : list dataset) (plant : dataset) : result Q :=
  let providers :=
    filter (fun e => is_electricity_provider e = true) (ds_exchanges plant) in
  for_each (fun co2_amount provider =>
      released ← provider_co2 db provider;
      Ok (co2_amount + released))
    providers 0.

Definition is_co2_capture (exc : exchange) : bool :=
  exchange_type_eqb (e_type exc) technosphere
  && String.eqb (e_unit exc) "kilogram"
  && startswith (e_name exc) "CO2 capture".

Definition is_co2_emission (exc : exchange) : bool :=
  exchange_type_eqb (e_type exc) biosphere
  && String.eqb (e_unit exc) "kilogram"
  && startswith (e_name exc) "Carbon dioxide".

(** The body of [for exc in plant["exchanges"]]. *)
Definition adjust_ccs_exchange (co2_amount : Q) (exc : exchange) : exchange :=
  let exc :=
    if is_co2_capture exc then set_amount exc (co2_amount * (9 # 10))
    else exc in
  if is_co2_emission exc then set_amount exc (co2_amount * (9 # 10))
  else exc.

(** The body of [for plant in new_plants.values()]. *)
Definition adjust_ccs_plant (db : list dataset) (plant : dataset)
  : result dataset :=
  co2_amount ← co2_amount_of db plant;
  Ok (set_exchanges plant
        (map (adjust_ccs_exchange co2_amount) (ds_exchanges plant))).

Definition create_region_specific_power_plants (self : Electricity)
    (st : state) : result state :=
  let db := database st in
  let names := list_datasets_to_duplicate self db in
  all_plants ←
    for_each (fun all_plants dataset =>
        let technology := powerplant_map_rev self !! ds_name dataset in
        let new_plants :=
          fetch_proxies self db (ds_name dataset)
            (ds_reference_product dataset) technology in
        new_plants ←
          (if contains "CHP CCS" (default "" technology)
           then mapM (fun '(region, plant) =>
                    plant ← adjust_ccs_plant db plant; Ok (region, plant))
                  new_plants
           else Ok new_plants);
        Ok (all_plants ++ map snd new_plants))
      (ws.get_many db (fun ds =>
           existsb (fun name => contains name (ds_name ds)) names))
      [];
  Ok (State (db ++ all_plants) (created st ++ map ledger_entry all_plants)).

(** ** Efficiency of power plants *)

(** [wurst.change_exchanges_by_constant_factor(ds, value)]: the amount of
    every technosphere and of every biosphere exchange is multiplied by
    [value].  (The uncertainty keys that [wurst] resets with it are not
    modelled.) *)
Definition change_exchanges_by_constant_factor (ds : dataset) (value : Q)
  : dataset :=
  set_exchanges ds
    (map (fun exc =>
        match e_type exc with
        | production => exc
        | _ => set_amount exc (e_amount exc * value)
        end) (ds_exchanges ds)).

(** The body of the loop over the datasets of a technology. *)
Definition rescale_dataset (self : Electricity) (technology : string)
    (dict_technology : technology_entry) (ds : dataset)
  : result dataset :=
  let ei_eff :=
    current_eff_func dict_technology ds (fuel_filters dict_technology)
      (36 # 10) in
  scaling_factor ←
    py_truediv 1
      (IAM_eff_func dict_technology technology
         (ecoinvent_to_iam_location self (ds_location ds)));
  target ← py_truediv (ei_eff * 1) scaling_factor;
  let new_efficiency := np_clip target 0 1 in
  let dataset :=
    update_log_parameters ds
      [("old efficiency", ei_eff); ("new efficiency", new_efficiency)] in
  let dataset :=
    update_ecoinvent_efficiency_parameter self dataset ei_eff new_efficiency in
  Ok (change_exchanges_by_constant_factor dataset scaling_factor).

Definition is_rescaled (dict_technology : technology_entry) (ds : dataset)
  : bool :=
  String.eqb (ds_unit ds) "kilowatt hour"
  && existsb (fun n => contains n (ds_name ds))
       (technology_filters dict_technology).

Definition update_electricity_efficiency (self : Electricity) (st : state)
  : result state :=
  db ← for_each (fun db '(technology, dict_technology) =>
      mapM (fun ds =>
          if is_rescaled dict_technology ds
          then rescale_dataset self technology dict_technology ds
          else Ok ds) db)
    (technologies_map self) (database st);
  Ok (State db (created st)).

(** ** Construction of the transformation *)

(** [self.powerplant_map_rev]: the loops of [__init__] over the items of
    the powerplant map, given in the order of the dictionary. *)
Definition reverse_powerplant_map (items : list (string * list string))
  : gmap string string :=
  fold_left (fun rev kv =>
      fold_left (fun rev pp => <[pp := kv.1]> rev) kv.2 rev)
    items ∅.

(** [max(float(exc.get("production volume", 1e-9)), 1e-9)]. *)
Definition production_volume_of (exc : exchange) : Q :=
  Qmax (default (1 # 1000000000) (e_production_volume exc)) (1 # 1000000000).

(** [get_production_per_tech_dict]; [values] is
    [self.powerplant_map.values()], in the order of the dictionary. *)
Definition get_production_per_tech_dict (values : list (list string))
    (db : list dataset) : gmap (string * string) Q :=
  fold_left (fun production_vols dataset_names =>
      fold_left (fun production_vols name =>
          fold_left (fun production_vols dataset =>
              fold_left (fun production_vols exc =>
                  <[(ds_name dataset, ds_location dataset)
                    := production_volume_of exc]> production_vols)
                (ws.of_type production dataset) production_vols)
            (ws.get_many db (fun ds => String.eqb (ds_name ds) name))
            production_vols)
        dataset_names production_vols)
    values ∅.

(** ** Natural gas extraction *)

#[global] Instance exchange_type_eq_dec : EqDecision exchange_type.
Proof. solve_decision. Defined.

(** [(e["name"], e.get("product"), e.get("location"), e["type"])]. *)
Definition exchange_key (e : exchange)
  : string * option string * option string * exchange_type :=
  (e_name e, e_product e, e_location e, e_type e).

(** The body of the loop over the exchanges of a dataset; the test on the
    name is [matches_name], the state is [(amount, to_remove)]. *)
Definition collect_gas (matches_name : string -> bool)
    (countries : list string)
    (acc : list (string * Q)
           * list (string * option string * option string * exchange_type))
    (exc : exchange)
  : result (list (string * Q)
            * list (string * option string * option string * exchange_type)) :=
  let '(amount, to_remove) := acc in
  if matches_name (e_name exc)
  then
    location ← exc_key "location" (e_location exc);
    if existsb (String.eqb location) countries
       && exchange_type_eqb (e_type exc) technosphere
    then
      let amount :=
        match dict_lookup amount location with
        | Some a => dict_set location (a + e_amount exc) amount
        | None => dict_set location (e_amount exc) amount
        end in
      product ← exc_key "product" (e_product exc);
      Ok (amount,
          to_remove ++ [(e_name exc, Some product, Some location, e_type exc)])
    else Ok acc
  else Ok acc.

(** The body of a loop of [update_ng_production_ds] over the datasets. *)
Definition relink_gas (matches_name : string -> bool)
    (countries : list string) (new_name new_product : string) (ds : dataset)
  : result dataset :=
  '(amount, to_remove) ←
    for_each (collect_gas matches_name countries) (ds_exchanges ds) ([], []);
  match amount with
  | [] => Ok ds
  | _ =>
      Ok (set_exchanges ds
            (filter (fun e => exchange_key e ∉ to_remove) (ds_exchanges ds)
             ++ map (fun '(loc, a) =>
                    Exchange technosphere new_name (Some new_product)
                      (Some loc) "cubic meter" a None None None None None)
                  amount))
  end.

Definition is_gas_market (name : string) : bool :=
  String.eqb name "market for natural gas, high pressure".

(** [any(i in exc["name"] for i in names) and "natural gas, high pressure"]:
    the second operand is a non-empty string, which is true. *)
Definition is_gas_production (name : string) : bool :=
  existsb (fun i => contains i name)
    ["natural gas production"; "petroleum and gas production"].

Definition update_ng_production_ds (st : state) : result state :=
  db ← mapM (relink_gas is_gas_market ["NL"; "DE"; "FR"; "RER"; "IT"; "CH"]
               "natural gas, high pressure, at consumer"
               "natural gas, high pressure, at consumer") (database st);
  db ← mapM (relink_gas is_gas_production
               ["DE"; "DZ"; "GB"; "NG"; "NL"; "NO"; "RU"; "US"]
               "natural gas, at production" "natural gas, high pressure") db;
  Ok (State db (created st)).

(** ** The cascade of markets *)

Definition list_to_empty : list string :=
  [ "market group for electricity"; "market for electricity";
    "electricity, high voltage, import";
    "electricity, high voltage, production mix" ].

Definition list_to_preserve : list string :=
  [ "cobalt industry"; "aluminium industry"; "coal mining";
    "label-certified"; "renewable energy products";
    "for reuse in municipal waste incineration"; "Swiss Federal Railways" ].

Definition is_emptied (ds : dataset) : bool :=
  existsb (fun n => contains n (ds_name ds)) list_to_empty
  && String.eqb (ds_unit ds) "kilowatt hour"
  && negb (existsb (fun n => contains n (ds_name ds)) list_to_preserve).

Definition voltage_of (name : string) : string :=
  if contains "high voltage" name then "high voltage"
  else if contains "medium voltage" name then "medium voltage"
  else "low voltage".

(** The body of the loop over [datasets_to_empty]; [ecoinvent_to_iam_loc]
    is the dictionary of that name of [BaseTransformation].  The key
    ["has_downstream_consumer"] and the cache that
    [add_new_entry_to_cache] fills, which no function here reads, are
    left out. *)
Definition empty_dataset (ecoinvent_to_iam_loc : gmap string string)
    (ds : dataset) : result dataset :=
  let voltage := voltage_of (ds_name ds) in
  location ← getitem ecoinvent_to_iam_loc (ds_location ds);
  Ok (set_exchanges ds
        (filter (fun e => e_type e = production) (ds_exchanges ds)
         ++ [ Exchange technosphere
                ("market group for electricity, " +:+ voltage)
                (Some ("electricity, " +:+ voltage)) (Some location)
                "kilowatt hour" 1 None (Some 0%Z) None None None ])).

(** [update_electricity_markets]: the second component of the result is
    what the function adds to the ledger of emptied datasets. *)
Definition update_electricity_markets (self : Electricity)
    (ecoinvent_to_iam_loc : gmap string string) (st : state)
  : result (state * list supplier_key) :=
  db ← mapM (fun ds =>
      if is_emptied ds then empty_dataset ecoinvent_to_iam_loc ds else Ok ds)
    (database st);
  let emptied :=
    map ledger_entry (filter (fun ds => is_emptied ds = true) (database st)) in
  st ← create_new_markets_high_voltage self (State db (created st));
  st ← create_new_markets_medium_voltage self st;
  st ← create_new_markets_low_voltage self st;
  Ok (st, emptied).

(** ** Biomass markets *)

(** An entry of the file of biomass variables: the names and the
    reference products of its datasets. *)
Record biomass_act : Type := {
  alias_names : list string;
  alias_products : list string
}.

(** What [create_biomass_markets] reads besides [self]:
    - [biomass_map] is the content of the file of biomass variables, in
      its order;
    - [production_volumes region variable] is
      [self.iam_data.production_volumes] interpolated at [self.year];
    - [get_shares_from_production_volume] is the function of that name of
      [premise/transformation.py];
    - [biomass_to_iam_loc] is [self.ecoinvent_to_iam_loc];
    - [eidb_label] is the label of the database. *)
Record Biomass : Type := {
  biomass_map : list (string * biomass_act);
  production_volumes : string -> string -> Q;
  get_shares_from_production_volume : list dataset -> list (supplier_key * Q);
  biomass_to_iam_loc : gmap string string;
  eidb_label : string
}.

(** The share of a type of biomass in the market of a region. *)
Definition biomass_share (b : Biomass) (region biomass_type : string) : Q :=
  let total_prod_vol :=
    Qmax (py_sum (map (production_volumes b region) (map fst (biomass_map b))))
      (1 # 1000000) in
  let share :=
    np_clip (production_volumes b region biomass_type / total_prod_vol) 0 1 in
  if Qeq_bool share 0
  then if String.eqb biomass_type "biomass - residual" then 1 else 0
  else share.

Definition is_biomass_supplier (act : biomass_act) (location : string)
    (ds : dataset) : bool :=
  existsb (fun sup => contains sup (ds_name ds)) (alias_names act)
  && String.eqb (ds_location ds) location
  && existsb (fun prod => contains prod (ds_reference_product ds))
       (alias_products act)
  && String.eqb (ds_unit ds) "kilogram"
  && negb (existsb (fun x => contains x (ds_name ds))
             ["willow"; "post-consumer"]).

(** The loop [while not suppliers], entered with
    [possible_locations[counter:]]. *)
Fixpoint find_biomass_suppliers (db : list dataset) (act : biomass_act)
    (possible_locations : list string) : result (list dataset) :=
  match possible_locations with
  | [] => Raise IndexError
  | location :: rest =>
      match ws.get_many db (is_biomass_supplier act location) with
      | [] => find_biomass_suppliers db act rest
      | suppliers => Ok suppliers
      end
  end.

(** The market of a region: the loop over the types of biomass, whose
    state is the exchanges and the log parameters of the dataset. *)
Definition biomass_market (self : Electricity) (b : Biomass)
    (db : list dataset) (region : string) : result dataset :=
  '(exchanges, log_parameters) ←
    for_each (fun '(exchanges, log_parameters) '(biomass_type, act) =>
        let share := biomass_share b region biomass_type in
        exchanges ←
          (if Qgtb share 0
           then
             suppliers ←
               find_biomass_suppliers db act
                 ([region] ++ iam_to_ecoinvent_location self region
                  ++ ["RER"; "Europe without Switzerland"; "RoW"; "GLO"]);
             Ok (exchanges ++
                   map (fun '((name, location, product, unit), supply_share) =>
                       Exchange technosphere name (Some product)
                         (Some location) unit (supply_share * share * 1)
                         None (Some 0%Z) None None None)
                     (get_shares_from_production_volume b suppliers))
           else Ok exchanges);
        Ok (exchanges, <["biomass share" := share]> log_parameters))
      (biomass_map b)
      ([ Exchange production "market for biomass, used as fuel"
           (Some "biomass, used as fuel") (Some region) "kilogram" 1
           None (Some 0%Z) None None None ], ∅);
  Ok (Dataset "market for biomass, used as fuel" "biomass, used as fuel"
        region "kilogram" (eidb_label b) exchanges log_parameters).

Definition uses_biomass (ds : dataset) : bool :=
  existsb (String.eqb (ds_unit ds)) ["kilowatt hour"; "megajoule"]
  && existsb (fun name => contains name (ds_name ds))
       ["electricity"; "heat"; "power"].

Definition is_wood_chips (exc : exchange) : bool :=
  exchange_type_eqb (e_type exc) technosphere
  && contains "market for wood chips" (e_name exc)
  && String.eqb (e_unit exc) "kilogram".

(** The last loop of [create_biomass_markets], for one dataset. *)
Definition replace_biomass_inputs (b : Biomass) (ds : dataset)
  : result dataset :=
  if uses_biomass ds
  then
    exchanges ← mapM (fun exc =>
        if is_wood_chips exc
        then
          location ← getitem (biomass_to_iam_loc b) (ds_location ds);
          Ok (Exchange (e_type exc) "market for biomass, used as fuel"
                (Some "biomass, used as fuel") (Some location) (e_unit exc)
                (e_amount exc) (e_loc exc) (e_uncertainty_type exc)
                (e_production_volume exc) (e_input exc) (e_categories exc))
        else Ok exc) (ds_exchanges ds);
    Ok (set_exchanges ds exchanges)
  else Ok ds.

(** [create_biomass_markets]; the new [powerplant_fuels_map] that the
    function stores at its end is an attribute that nothing here reads. *)
Definition create_biomass_markets (self : Electricity) (b : Biomass)
    (st : state) : result state :=
  residual ← dict_get (biomass_map b) "biomass - residual";
  name ← py_index (alias_names residual) 0;
  ref_prod ← py_index (alias_products residual) 0;
  let forest_residues_ds :=
    fetch_proxies self (database st) name ref_prod
      (Some "biomass - residual") in
  let st := fold_left append_dataset (map snd forest_residues_ds) st in
  st ← for_each (fun st region =>
      dataset ← biomass_market self b (database st) region;
      Ok (append_dataset st dataset)) (regions self) st;
  db ← mapM (replace_biomass_inputs b) (database st);
  Ok (State db (created st)).

(** ** Notions used by the statements *)

(** The value of the scenario array that [electricity_mix] stores for a
    variable. *)
Definition mix_value (self : Electricity) (region : string) (period : nat)
    (v : string) : Q :=
  if consequential self then electricity_markets_sel self region v
  else electricity_markets_mean self region period v.

(** Every value the loss table holds for the locations is nonnegative. *)
Definition nonneg_rows (losses : gmap string (gmap string Q))
    (locs : list string) : Prop :=
  forall loc row key v,
    loc ∈ locs -> losses !! loc = Some row -> row !! key = Some v -> 0 <= v.

(** No scope of the fallback chain has a supplier with one of [names]. *)
Definition exhausted (self : Electricity) (db : list dataset)
    (region : string) (names : list string) : Prop :=
  Forall (fun locations =>
      get_suppliers_of_a_region self db locations names
        "electricity" "kilowatt hour" = [])
    (possible_locations self region).


(** The exchanges that the loop over the technologies of a market builder
    appends for one technology, the amount of an exchange being
    [flow amount share]: none unless the share of the technology in the
    mix is positive. *)
Definition supply_of (flow : Q -> Q -> Q) (mix : list (string * Q))
    (tech_suppliers : list (string * list (dataset * Q)))
    (technology : string) : list exchange :=
  match dict_lookup mix technology with
  | Some amount =>
      if Qgtb amount 0
      then map (fun '(supplier, share) =>
               market_exchange technosphere (ds_name supplier)
                 (ds_reference_product supplier) (ds_location supplier)
                 (ds_unit supplier) (flow amount share)
                 (PNum (flow amount share)))
             (tech_suppliers_get tech_suppliers technology)
      else []
  | None => []
  end.


(** The inputs of a market that come from the high voltage market. *)
Definition from_high_voltage (exc : exchange) : bool :=
  exchange_type_eqb (e_type exc) technosphere
  && bool_decide (e_product exc = Some "electricity, high voltage").

(** The shares of every entry of a dictionary sum to one, unless the
    entry is empty. *)
Definition normalized (tech_suppliers : list (string * list (dataset * Q)))
  : Prop :=
  forall technology,
    tech_suppliers_get tech_suppliers technology = []
    \/ py_sum (map snd (tech_suppliers_get tech_suppliers technology)) == 1.

(** *** Notions for the loss model *)

(** The columns that the loss model reads. *)
Definition loss_columns : list string :=
  [ "Transformation loss high voltage";
    "Transformation loss medium voltage";
    "Transmission loss to medium voltage";
    "Transformation loss low voltage";
    "Transmission loss to low voltage";
    "Production volume" ].

(** The value of a column for a location: zero for a location that the
    table does not have, as in the records that the code falls back on. *)
Definition cell (losses : gmap string (gmap string Q)) (key loc : string)
  : Q :=
  default 0 (losses !! loc ≫= fun row => row !! key).

(** Every row that the table has for the locations has every column. *)
Definition complete_rows (losses : gmap string (gmap string Q))
    (locs : list string) : Prop :=
  forall loc row key,
    loc ∈ locs -> losses !! loc = Some row -> key ∈ loss_columns ->
    is_Some (row !! key).

(** The production volume of the locations, and a column weighted by it. *)
Definition total_volume (losses : gmap string (gmap string Q))
    (locs : list string) : Q :=
  py_sum (map (cell losses "Production volume") locs).

Definition weighted (losses : gmap string (gmap string Q)) (key : string)
    (locs : list string) : Q :=
  py_sum (map (fun loc => cell losses key loc
                          * cell losses "Production volume" loc) locs).

(** *** Notions for the production index *)

(** The supplier has an entry in the index of production volumes. *)
Definition indexed (self : Electricity) (ds : dataset) : bool :=
  bool_decide (is_Some (production_per_tech self !! (ds_name ds, ds_location ds))).

(** The successive assignments [d[k] = v] over a list of pairs. *)
Definition assign_all {K V : Type} `{Countable K} (l : list (K * V))
    (m : gmap K V) : gmap K V :=
  fold_left (fun m kv => <[kv.1 := kv.2]> m) l m.

(** The assignments of [get_production_per_tech_dict], in their order. *)
Definition index_entries (values : list (list string)) (db : list dataset)
  : list (string * string * Q) :=
  concat (map (fun dataset_names =>
    concat (map (fun name =>
      concat (map (fun ds =>
          map (fun exc => ((ds_name ds, ds_location ds), production_volume_of exc))
            (ws.of_type production ds))
        (ws.get_many db (fun ds => String.eqb (ds_name ds) name))))
      dataset_names)) values).

(** *** Notions for the natural gas inputs *)

(** The exchange passes the test of a loop of [update_ng_production_ds]. *)
Definition gas_input (matches_name : string -> bool) (countries : list string)
    (exc : exchange) : bool :=
  matches_name (e_name exc)
  && match e_location exc with
     | Some location => existsb (String.eqb location) countries
     | None => false
     end
  && exchange_type_eqb (e_type exc) technosphere.

Definition located (location : string) (exc : exchange) : bool :=
  bool_decide (e_location exc = Some location).

(** The exchange does not pass the test, and the test reads no key that
    the exchange lacks. *)
Definition gas_free (matches_name : string -> bool) (countries : list string)
    (exc : exchange) : Prop :=
  gas_input matches_name countries exc = false
  /\ (matches_name (e_name exc) = true -> is_Some (e_location exc)).

(** The summed amount of the exchanges of a list that pass the test and
    are located in [location]. *)
Definition gas_amount (matches_name : string -> bool) (countries : list string)
    (location : string) (exchanges : list exchange) : Q :=
  py_sum (map e_amount
    (filter (fun e =>
        gas_input matches_name countries e && located location e = true)
      exchanges)).

(** *** Notions for the cascade of markets *)

(** The entries that a market builder adds to the ledger of created
    datasets: for each region, in the order of the regions, one market per
    period. *)
Definition market_entries (base product : string) (regions : list string)
    (periods : list nat) : list supplier_key :=
  flat_map (fun region =>
      map (fun period =>
          (market_name base period, product, region, "kilowatt hour"))
        periods)
    regions.

(** *** Notions for the markets of the three tiers *)

(** The labels of the mix: the variables of the scenario, each once, in
    the order of their first occurrence. *)
Definition mix_labels (self : Electricity) : list string :=
  fold_left (fun seen v => if decide (v ∈ seen) then seen else seen ++ [v])
    (variables self) [].









(** The exchange is a technosphere input from the dataset that the
    ledger lists under [entry]. *)
Definition input_of (exc : exchange) (entry : supplier_key) : Prop :=
  e_type exc = technosphere
  /\ (e_name exc, e_product exc, e_location exc, e_unit exc)
     = (entry.1.1.1, Some entry.1.1.2, Some entry.1.2, entry.2).

(** The ledger entry of the market of a tier for a region and a period. *)
Definition market_entry (tier : string) (region : string) (period : nat)
  : supplier_key :=
  (market_name ("market group for electricity, " +:+ tier) period,
   "electricity, " +:+ tier, region, "kilowatt hour").

(** The datasets [new] are the markets that a builder appends to the
    database [db]: for each region in turn, one market per period, in the
    order of the periods.  [P db region period market] holds of the market
    of a region and a period, [db] being the database as the builder finds
    it when it comes to the region, that is with the markets of the
    regions before. *)
Fixpoint markets_of (P : list dataset -> string -> nat -> dataset -> Prop)
    (periods : list nat) (regions : list string) (db new : list dataset)
  : Prop :=
  match regions with
  | [] => new = []
  | region :: regions' =>
      exists group rest,
        new = group ++ rest
        /\ Forall2 (P db region) periods group
        /\ markets_of P periods regions' (db ++ group) rest
  end.

(** ** Scenarios *)

Module Scenario.

(** Modelled from the spec: [get_suppliers_of_a_region] of
    [premise/transformation.py], which is not among the sources.  It
    returns the datasets of the database located in one of [locations],
    named as one of [names], whose reference product contains
    [reference_prod] and whose unit is [unit]. *)
Definition suppliers_of_a_region (db : list dataset)
    (locations names : list string) (reference_prod unit : string)
  : list dataset :=
  filter (fun ds =>
      existsb (String.eqb (ds_location ds)) locations
      && existsb (String.eqb (ds_name ds)) names
      && contains reference_prod (ds_reference_product ds)
      && String.eqb (ds_unit ds) unit = true) db.

(** Modelled from the spec: [select_multiple_suppliers] of
    [premise/transformation.py], which is not among the sources and of
    which the specification only says that it gives the suppliers of the
    insulation gas and of the network.  In the scenarios it finds one
    supplier per name, in the rest of the world, with a share of one. *)
Definition multiple_suppliers (db : list dataset)
    (possible_names : list string) (location : string)
  : list (supplier_key * Q) :=
  map (fun name => ((name, "RoW", name, "unit"), 1)) possible_names.

Definition plant (name location : string) (volume : Q) : dataset :=
  Dataset name "electricity, high voltage" location "kilowatt hour"
    "ecoinvent"
    [ Exchange production name (Some "electricity, high voltage")
        (Some location) "kilowatt hour" 1 None None (Some volume) None None ]
    ∅.

Definition coal_DE : dataset := plant "electricity production, hard coal" "DE" 80.
Definition coal_FR : dataset := plant "electricity production, hard coal" "FR" 20.
Definition gas_DE : dataset := plant "electricity production, natural gas" "DE" 50.
Definition hydro_CH : dataset := plant "electricity production, hydro" "CH" 10.

Definition inventory : list dataset := [coal_DE; coal_FR; gas_DE; hydro_CH].

Definition plants : gmap string (list string) :=
  {[ "Coal" := ["electricity production, hard coal"];
     "Gas" := ["electricity production, natural gas"];
     "Hydro" := ["electricity production, hydro"];
     "Solar PV Residential" := ["electricity production, photovoltaic"] ]}.

Definition volumes : gmap (string * string) Q :=
  {[ ("electricity production, hard coal", "DE") := 80;
     ("electricity production, hard coal", "FR") := 20;
     ("electricity production, natural gas", "DE") := 50;
     ("electricity production, hydro", "CH") := 10 ]}.

Definition loss_table : gmap string (gmap string Q) :=
  {[ "DE" := {[ "Transformation loss high voltage" := 1 # 100;
                "Transformation loss medium voltage" := 2 # 100;
                "Transmission loss to medium voltage" := 5 # 100;
                "Transformation loss low voltage" := 3 # 100;
                "Transmission loss to low voltage" := 4 # 100;
                "Production volume" := 100 ]} ]}.

(** Transformation loss 0.02 and distribution loss 0.05 at medium
    voltage. *)
Definition EUR_loss : Losses.network_loss :=
  Losses.NetworkLoss (Losses.TierLoss (1 # 100) 0)
    (Losses.TierLoss (2 # 100) (5 # 100))
    (Losses.TierLoss (3 # 100) (4 # 100)).

(** A transformation over the region EUR, whose mix does not change with
    the years. *)
Definition electricity (model : string) (labels : list string)
    (mix : string -> Q) : Electricity :=
  {| regions := ["EUR"];
     system_model := model;
     variables := labels;
     electricity_markets_sel := fun _ v => mix v;
     electricity_markets_mean := fun _ _ v => mix v;
     powerplant_map := plants;
     powerplant_map_rev := ∅;
     production_per_tech := volumes;
     network_loss := {[ "EUR" := EUR_loss ]};
     iam_to_ecoinvent_location := fun _ => ["DE"; "FR"; "CH"];
     get_suppliers_of_a_region := suppliers_of_a_region;
     select_multiple_suppliers := multiple_suppliers;
     biosphere_dict := {[ sf6_key := "sf6" ]};
     fetch_proxies := fun _ _ _ _ => [];
     technologies_map := [];
     ecoinvent_to_iam_location := fun _ => "EUR";
     update_ecoinvent_efficiency_parameter := fun ds _ _ => ds;
     module_eff := fun _ => 2 # 10;
     findall_numbers := fun _ => [3] |}.

(** The mix of the scenario of the specification: coal 0.3, gas 0.2 and
    hydro 0.5. *)
Definition EUR_mix (v : string) : Q :=
  if String.eqb v "Coal" then 3 # 10
  else if String.eqb v "Gas" then 2 # 10
  else if String.eqb v "Hydro" then 5 # 10
  else 0.

Definition EUR : Electricity :=
  electricity "cutoff" ["Coal"; "Gas"; "Hydro"] EUR_mix.

(** A mix with a residential solar share of 0.1. *)
Definition solar_mix (v : string) : Q :=
  if String.eqb v "Coal" then 4 # 10
  else if String.eqb v "Hydro" then 5 # 10
  else if String.eqb v "Solar PV Residential" then 1 # 10
  else 0.

Definition rooftop_CH : dataset :=
  plant "electricity production, photovoltaic" "CH" 5.

Definition EUR_solar (model : string) : Electricity :=
  electricity model ["Coal"; "Hydro"; "Solar PV Residential"] solar_mix.

(** A photovoltaic installation of 3 kWp with 20 square meters of
    panels, that is a current efficiency of 0.15; the projected module
    efficiency of the scenario is 0.2. *)
Definition panel (surface : Q) : exchange :=
  Exchange technosphere "photovoltaic panel, multi-Si wafer"
    (Some "photovoltaic panel, multi-Si wafer") (Some "RER") "square meter"
    surface None None None None None.

Definition installation (surface : Q) : dataset :=
  Dataset "photovoltaic slanted-roof installation, 3kWp, multi-Si, on roof"
    "photovoltaic slanted-roof installation, 3kWp, multi-Si, on roof"
    "CH" "unit" "ecoinvent"
    [ Exchange production
        "photovoltaic slanted-roof installation, 3kWp, multi-Si, on roof"
        (Some "photovoltaic slanted-roof installation, 3kWp, multi-Si, on roof")
        (Some "CH") "unit" 1 None None None None None;
      panel surface ]
    ∅.

(** A gas power plant of efficiency [current] in a scenario whose
    efficiency changes by the ratio [change]. *)
Definition gas_entry (current change : Q) : technology_entry :=
  Build_technology_entry (fun _ _ => change) (fun _ _ _ => current)
    ["natural gas"] ["natural gas, high pressure"].

Definition gas_plant : dataset :=
  Dataset "electricity production, natural gas" "electricity, high voltage"
    "DE" "kilowatt hour" "ecoinvent"
    [ Exchange production "electricity production, natural gas"
        (Some "electricity, high voltage") (Some "DE") "kilowatt hour" 1
        None None (Some 50) None None;
      Exchange technosphere "market for natural gas, high pressure"
        (Some "natural gas, high pressure") (Some "DE") "cubic meter" 4
        None None None None None;
      Exchange biosphere "Carbon dioxide, fossil" None None "kilogram" 2
        None None None None None ]
    ∅.

(** A CHP plant with carbon capture, copied to the region EUR, which
    takes 2 kWh from a grid that releases 0.5 and 0.1 kg of carbon
    dioxide per kWh. *)
Definition grid : dataset :=
  Dataset "market group for electricity, low voltage"
    "electricity, low voltage" "EUR" "kilowatt hour" "ecoinvent"
    [ Exchange production "market group for electricity, low voltage"
        (Some "electricity, low voltage") (Some "EUR") "kilowatt hour" 1
        None None None None None;
      Exchange biosphere "Carbon dioxide, fossil" None None "kilogram"
        (5 # 10) None None None None None;
      Exchange biosphere "Carbon dioxide, non-fossil" None None "kilogram"
        (1 # 10) None None None None None;
      Exchange biosphere "Methane, fossil" None None "kilogram"
        (2 # 10) None None None None None ]
    ∅.

Definition grid_input : exchange :=
  Exchange technosphere "market group for electricity, low voltage"
    (Some "electricity, low voltage") (Some "EUR") "kilowatt hour" 2
    None None None None None.

Definition capture : exchange :=
  Exchange technosphere "CO2 capture/at wood burning power plant"
    (Some "CO2, captured") (Some "RER") "kilogram" 1 None None None None None.

Definition emission : exchange :=
  Exchange biosphere "Carbon dioxide, non-fossil" None None "kilogram"
    (3 # 10) None None None None None.

Definition chp (location : string) : dataset :=
  Dataset "heat and power co-generation, wood chips, CCS"
    "electricity, high voltage" location "kilowatt hour" "ecoinvent"
    [ Exchange production "heat and power co-generation, wood chips, CCS"
        (Some "electricity, high voltage") (Some location) "kilowatt hour" 1
        None None None None None;
      grid_input; capture; emission ]
    ∅.

(** The transformation of the passes over the power plants: the template
    of the CHP plant is native to RER and copied to EUR. *)
Definition plants_pass (entries : list (string * technology_entry))
  : Electricity :=
  {| regions := ["EUR"];
     system_model := "cutoff";
     variables := ["Biomass CHP CCS"];
     electricity_markets_sel := fun _ _ => 1;
     electricity_markets_mean := fun _ _ _ => 1;
     powerplant_map :=
       {[ "Biomass CHP CCS" :=
            ["heat and power co-generation, wood chips, CCS"] ]};
     powerplant_map_rev :=
       {[ "heat and power co-generation, wood chips, CCS" :=
            "Biomass CHP CCS" ]};
     production_per_tech := ∅;
     network_loss := {[ "EUR" := EUR_loss ]};
     iam_to_ecoinvent_location := fun _ => ["DE"; "FR"; "CH"];
     get_suppliers_of_a_region := suppliers_of_a_region;
     select_multiple_suppliers := multiple_suppliers;
     biosphere_dict := {[ sf6_key := "sf6" ]};
     fetch_proxies := fun _ _ _ _ => [("EUR", chp "EUR")];
     technologies_map := entries;
     ecoinvent_to_iam_location := fun _ => "EUR";
     update_ecoinvent_efficiency_parameter := fun ds _ _ => ds;
     module_eff := fun _ => 2 # 10;
     findall_numbers := fun _ => [3] |}.


End Scenario.

(** ** Further cases *)

Module Cases.

(** A table with a row for DE and for FR. *)
Definition loss_row (th tm dm tl dl volume : Q) : gmap string Q :=
  {[ "Transformation loss high voltage" := th;
     "Transformation loss medium voltage" := tm;
     "Transmission loss to medium voltage" := dm;
     "Transformation loss low voltage" := tl;
     "Transmission loss to low voltage" := dl;
     "Production volume" := volume ]}.

Definition table : gmap string (gmap string Q) :=
  {[ "DE" := loss_row (1 # 100) (2 # 100) (5 # 100) (3 # 100) (4 # 100) 300;
     "FR" := loss_row (3 # 100) (4 # 100) (1 # 100) (5 # 100) (8 # 100) 100 ]}.

(** A table whose row for IT has no production volume. *)
Definition short_table : gmap string (gmap string Q) :=
  {[ "IT" := {[ "Transformation loss high voltage" := 1 # 100 ]} ]}.

(** Two regions over the rows of [table]. *)
Definition locations_of (region : string) : list string :=
  if String.eqb region "EUR" then ["DE"; "FR"; "XX"] else ["FR"].

Definition network : gmap string Losses.network_loss :=
  match init_network_loss table locations_of ["EUR"; "WEU"] with
  | Ok network => network
  | Raise _ => ∅
  end.

(** A boiler that takes gas from the markets of DE, twice, of FR and of
    the US, and from a field in NO. *)
Definition gas_from (name location : string) (amount : Q) : exchange :=
  Exchange technosphere name (Some "natural gas, high pressure")
    (Some location) "cubic meter" amount None None None None None.

Definition boiler : dataset :=
  Dataset "heat production, natural gas" "heat" "DE" "megajoule" "ecoinvent"
    [ Exchange production "heat production, natural gas" (Some "heat")
        (Some "DE") "megajoule" 1 None None None None None;
      gas_from "market for natural gas, high pressure" "DE" 2;
      gas_from "market for natural gas, high pressure" "FR" 1;
      gas_from "petroleum and gas production, on-shore" "NO" 4;
      gas_from "market for natural gas, high pressure" "DE" 3;
      gas_from "market for natural gas, high pressure" "US" 7 ]
    ∅.

(** An old market of DE, which the cascade empties, beside the plants of
    the scenario. *)
Definition old_market : dataset :=
  Dataset "market for electricity, low voltage" "electricity, low voltage"
    "DE" "kilowatt hour" "ecoinvent"
    [ Exchange production "market for electricity, low voltage"
        (Some "electricity, low voltage") (Some "DE") "kilowatt hour" 1
        None None None None None;
      Exchange technosphere "electricity production, hard coal"
        (Some "electricity, high voltage") (Some "DE") "kilowatt hour" 1
        None None None None None ]
    ∅.

Definition old_inventory : list dataset := old_market :: Scenario.inventory.

(** Two types of biomass in the region EUR, with production volumes 30
    and 10; the shares of the suppliers of a type are equal, in place of
    those that [get_shares_from_production_volume] of
    [premise/transformation.py] computes. *)
Definition residues : dataset :=
  Dataset "Supply of forest residue" "Supply of forest residue" "RER"
    "kilogram" "ecoinvent"
    [ Exchange production "Supply of forest residue"
        (Some "Supply of forest residue") (Some "RER") "kilogram" 1
        None None None None None ]
    ∅.

Definition wood_chips : dataset :=
  Dataset "market for wood chips, wet, measured as dry mass" "wood chips"
    "RER" "kilogram" "ecoinvent"
    [ Exchange production "market for wood chips, wet, measured as dry mass"
        (Some "wood chips") (Some "RER") "kilogram" 1
        None None None None None ]
    ∅.

(** A plant that burns 2 kg of wood chips per kilowatt hour. *)
Definition wood_plant : dataset :=
  Dataset "electricity production, wood" "electricity, high voltage" "DE"
    "kilowatt hour" "ecoinvent"
    [ Exchange production "electricity production, wood"
        (Some "electricity, high voltage") (Some "DE") "kilowatt hour" 1
        None None None None None;
      Exchange technosphere "market for wood chips, wet, measured as dry mass"
        (Some "wood chips") (Some "RER") "kilogram" 2
        None None None None None ]
    ∅.

Definition biomass : Biomass :=
  {| biomass_map :=
       [ ("biomass - residual",
          {| alias_names := ["Supply of forest residue"];
             alias_products := ["Supply of forest residue"] |});
         ("biomass crops - purpose grown",
          {| alias_names := ["market for wood chips"];
             alias_products := ["wood chips"] |}) ];
     production_volumes := fun _ variable =>
       if String.eqb variable "biomass - residual" then 30
       else if String.eqb variable "biomass crops - purpose grown" then 10
       else 0;
     get_shares_from_production_volume := fun suppliers =>
       map (fun ds =>
           ((ds_name ds, ds_location ds, ds_reference_product ds, ds_unit ds),
            1 / inject_Z (Z.of_nat (length suppliers)))) suppliers;
     biomass_to_iam_loc := {[ "DE" := "EUR"; "RER" := "EUR" ]};
     eidb_label := "ecoinvent" |}.

(** The transformation of the scenario, with the index of production
    volumes that the construction builds over a database. *)
Definition indexed_over (values : list (list string)) (db : list dataset)
  : Electricity :=
  {| regions := regions Scenario.EUR;
     system_model := system_model Scenario.EUR;
     variables := variables Scenario.EUR;
     electricity_markets_sel := electricity_markets_sel Scenario.EUR;
     electricity_markets_mean := electricity_markets_mean Scenario.EUR;
     powerplant_map := powerplant_map Scenario.EUR;
     powerplant_map_rev := powerplant_map_rev Scenario.EUR;
     production_per_tech := get_production_per_tech_dict values db;
     network_loss := network_loss Scenario.EUR;
     iam_to_ecoinvent_location := iam_to_ecoinvent_location Scenario.EUR;
     get_suppliers_of_a_region := get_suppliers_of_a_region Scenario.EUR;
     select_multiple_suppliers := select_multiple_suppliers Scenario.EUR;
     biosphere_dict := biosphere_dict Scenario.EUR;
     fetch_proxies := fetch_proxies Scenario.EUR;
     technologies_map := technologies_map Scenario.EUR;
     ecoinvent_to_iam_location := ecoinvent_to_iam_location Scenario.EUR;
     update_ecoinvent_efficiency_parameter :=
       update_ecoinvent_efficiency_parameter Scenario.EUR;
     module_eff := module_eff Scenario.EUR;
     findall_numbers := findall_numbers Scenario.EUR |}.

(** The allocation of the plants of the scenario to its technologies. *)
Definition allocation : list (string * list (dataset * Q)) :=
  [ ("Coal", [(Scenario.coal_DE, 8 # 10); (Scenario.coal_FR, 2 # 10)]);
    ("Gas", [(Scenario.gas_DE, 1)]);
    ("Hydro", [(Scenario.hydro_CH, 1)]) ].

Definition biomass_inventory : list dataset :=
  [residues; wood_chips; wood_plant].



End Cases.

(** * Properties *)

(** ** The result monad and the loops *)

Lemma bind_Ok {A B} (m : result A) (f : A -> result B) (b : B) :
  m ≫= f = Ok b -> exists a, m = Ok a /\ f a = Ok b.
Proof. destruct m as [a|e]; simpl; [eauto | discriminate]. Qed.

Lemma bind_ret_l {A B} (a : A) (f : A -> result B) : Ok a ≫= f = f a.
Proof. reflexivity. Qed.

Lemma for_each_cons {A S} (body : S -> A -> result S) (x : A) (l : list A)
    (s : S) :
  for_each body (x :: l) s = body s x ≫= for_each body l.
Proof. reflexivity. Qed.

Ltac inv_bind H :=
  let a := fresh "a" in
  let Ha := fresh "Ha" in
  apply bind_Ok in H; destruct H as (a & Ha & H).

(** An invariant of the state is carried through a loop. *)
Lemma for_each_inv {A S} (P : S -> Prop) (body : S -> A -> result S)
    (l : list A) :
  (forall s x s', x ∈ l -> P s -> body s x = Ok s' -> P s') ->
  forall s s', P s -> for_each body l s = Ok s' -> P s'.
Proof.
  induction l as [|x l IH]; intros Hstep s s' Hs H; simpl in H.
  - congruence.
  - inv_bind H. apply (IH (fun s x s' Hx => Hstep s x s' (list_elem_of_further _ _ _ Hx)) a s').
    + apply (Hstep s x a); [left | assumption | assumption].
    + assumption.
Qed.

Lemma mapM_Ok_Forall2 {A B} (f : A -> result B) (l : list A) (k : list B) :
  mapM f l = Ok k -> Forall2 (fun x y => f x = Ok y) l k.
Proof.
  revert k. induction l as [|x l IH]; intros k H; simpl in H.
  - injection H as <-. constructor.
  - inv_bind H. inv_bind H. injection H as <-. constructor; eauto.
Qed.

Lemma mapM_total {A B} (f : A -> result B) (l : list A) :
  (forall x, x ∈ l -> exists y, f x = Ok y) -> exists k, mapM f l = Ok k.
Proof.
  induction l as [|x l IH]; intros H; simpl.
  - eauto.
  - destruct (H x) as (y & ->); [left |].
    destruct IH as (k & ->); [intros z Hz; apply H; now right |].
    simpl. eauto.
Qed.

(** ** Sums *)

Lemma fold_left_Qplus_acc (l : list Q) (a : Q) :
  fold_left Qplus l a == a + fold_left Qplus l 0.
Proof.
  revert a. induction l as [|x l IH]; intros a; simpl.
  - lra.
  - rewrite (IH (a + x)), (IH (0 + x)). lra.
Qed.

Lemma py_sum_cons (x : Q) (l : list Q) : py_sum (x :: l) == x + py_sum l.
Proof. unfold py_sum. simpl. rewrite fold_left_Qplus_acc. lra. Qed.

Lemma py_sum_nonneg (l : list Q) : Forall (fun x => 0 <= x) l -> 0 <= py_sum l.
Proof.
  induction 1 as [|x l Hx _ IH].
  - unfold py_sum. simpl. lra.
  - rewrite py_sum_cons. lra.
Qed.

Lemma py_sum_pos (l : list Q) :
  l <> [] -> Forall (fun x => 0 < x) l -> 0 < py_sum l.
Proof.
  intros Hne H. destruct H as [|x l Hx Hl]; [congruence |].
  rewrite py_sum_cons.
  assert (0 <= py_sum l).
  { apply py_sum_nonneg. eapply Forall_impl; [exact Hl |]. simpl. intros; lra. }
  lra.
Qed.

Lemma py_sum_div (l : list Q) (d : Q) :
  py_sum (map (fun x => x / d) l) == py_sum l / d.
Proof.
  induction l as [|x l IH]; simpl.
  - unfold py_sum. simpl. unfold Qdiv. lra.
  - rewrite !py_sum_cons, IH. unfold Qdiv. lra.
Qed.

Lemma Qeq_bool_false (x y : Q) : Qeq_bool x y = false <-> ~ x == y.
Proof.
  split.
  - intros H E. apply Qeq_bool_iff in E. congruence.
  - intros H. destruct (Qeq_bool x y) eqn:E; [| reflexivity].
    apply Qeq_bool_iff in E. contradiction.
Qed.

Lemma Qgtb_true (x y : Q) : Qgtb x y = true <-> y < x.
Proof.
  unfold Qgtb. rewrite negb_true_iff. split.
  - intros H. apply Qnot_le_lt. intros L. apply Qle_bool_iff in L. congruence.
  - intros H. destruct (Qle_bool x y) eqn:E; [| reflexivity].
    apply Qle_bool_iff in E. lra.
Qed.

Lemma Qgtb_false (x y : Q) : Qgtb x y = false <-> x <= y.
Proof.
  unfold Qgtb. rewrite negb_false_iff. apply Qle_bool_iff.
Qed.

Lemma py_truediv_Ok (x y : Q) : ~ y == 0 -> py_truediv x y = Ok (x / y).
Proof. intros H. unfold py_truediv. apply Qeq_bool_false in H. now rewrite H. Qed.

Lemma py_truediv_zero (x y : Q) : y == 0 -> py_truediv x y = Raise ZeroDivisionError.
Proof. intros H. unfold py_truediv. apply Qeq_bool_iff in H. now rewrite H. Qed.

Lemma py_truediv_inv (x y q : Q) :
  py_truediv x y = Ok q -> ~ y == 0 /\ q = x / y.
Proof.
  unfold py_truediv. destruct (Qeq_bool y 0) eqn:E; [discriminate |].
  intros [= <-]. split; [now apply Qeq_bool_false | reflexivity].
Qed.

Lemma Qplus_mult_nonneg (t a b : Q) :
  0 <= t -> 0 <= a -> 0 <= b -> 0 <= t + a * b.
Proof.
  intros Ht Ha Hb. pose proof (Qmult_le_0_compat a b Ha Hb). lra.
Qed.

Lemma Qdiv_nonneg (x y : Q) : 0 <= x -> 0 <= y -> 0 <= x / y.
Proof.
  intros Hx Hy. destruct (Qeq_dec y 0) as [E|E].
  - unfold Qdiv. rewrite E. unfold Qinv. simpl. lra.
  - apply Qle_shift_div_l; lra.
Qed.

(** ** The loss model *)

Section LossFacts.

Variable losses : gmap string (gmap string Q).

(** Locations that are absent from the table add nothing to the sums. *)
Lemma high_step_None (loc : string) (c t : Q) :
  losses !! loc = None ->
  Losses.high_step losses (c, t) loc = Ok (c + 0, t + 0 * 0).
Proof. intros H. unfold Losses.high_step. rewrite H. reflexivity. Qed.

Lemma tier_step_None (tk dk : string) (dflt : gmap string Q) (loc : string)
    (c t d : Q) :
  dflt !! tk = Some 0 -> dflt !! dk = Some 0 ->
  dflt !! "Production volume" = Some 0 ->
  losses !! loc = None ->
  Losses.tier_step tk dk dflt losses (c, t, d) loc
  = Ok (c + 0, t + 0 * 0, d + 0 * 0).
Proof.
  intros Htk Hdk Hpv H. unfold Losses.tier_step, getitem. rewrite H. simpl.
  rewrite Htk. simpl. rewrite Hpv. simpl. rewrite Hdk. reflexivity.
Qed.

Lemma high_step_absent (locs : list string) (cumul_prod transf_loss : Q) :
  Forall (fun loc => losses !! loc = None) locs ->
  exists c t,
    for_each (Losses.high_step losses) locs (cumul_prod, transf_loss)
    = Ok (c, t) /\ c == cumul_prod /\ t == transf_loss.
Proof.
  intros H. revert cumul_prod transf_loss.
  induction H as [|loc locs Hloc _ IH]; intros c t.
  - exists c, t. repeat split; reflexivity.
  - rewrite for_each_cons, (high_step_None loc c t Hloc), bind_ret_l.
    destruct (IH (c + 0) (t + 0 * 0)) as (c' & t' & -> & Hc & Ht).
    exists c', t'. repeat split; [rewrite Hc | rewrite Ht]; lra.
Qed.

(** The divisions of the second and third loops are by the same sum. *)
Lemma tier_step_absent (tk dk : string) (dflt : gmap string Q)
    (locs : list string) (acc : Q * Q * Q) :
  dflt !! tk = Some 0 -> dflt !! dk = Some 0 ->
  dflt !! "Production volume" = Some 0 ->
  Forall (fun loc => losses !! loc = None) locs ->
  exists c t d,
    for_each (Losses.tier_step tk dk dflt losses) locs acc = Ok (c, t, d)
    /\ c == acc.1.1 /\ t == acc.1.2 /\ d == acc.2.
Proof.
  intros Htk Hdk Hpv H. revert acc.
  induction H as [|loc locs Hloc _ IH]; intros [[c t] d].
  - exists c, t, d. repeat split; reflexivity.
  - rewrite for_each_cons, (tier_step_None tk dk dflt loc c t d Htk Hdk Hpv Hloc),
      bind_ret_l.
    destruct (IH (c + 0, t + 0 * 0, d + 0 * 0)) as (c' & t' & d' & -> & Hc & Ht & Hd).
    simpl in *. exists c', t', d'.
    repeat split; [rewrite Hc | rewrite Ht | rewrite Hd]; lra.
Qed.

(** C4.  When none of the locations of a region is in the loss table, the
    records the code falls back on have a production volume of zero, the
    summed production is zero and the first division raises
    [ZeroDivisionError]: the function does not return the zero losses of
    the default record. *)
Theorem losses_all_absent_raise (locs : list string) :
  Forall (fun loc => losses !! loc = None) locs ->
  Losses.get_production_weighted_losses losses locs = Raise ZeroDivisionError.
Proof.
  intros H. unfold Losses.get_production_weighted_losses.
  destruct (high_step_absent locs 0 0 H) as (c & t & -> & Hc & _).
  simpl. now rewrite (py_truediv_zero t c Hc).
Qed.

Lemma default_high_nonneg key v : Losses.default_high !! key = Some v -> 0 <= v.
Proof.
  unfold Losses.default_high. intros H.
  apply lookup_insert_Some in H as [[_ <-]|[_ H]]; [lra |].
  apply lookup_singleton_Some in H as [_ <-]. lra.
Qed.

Lemma default_medium_nonneg key v :
  Losses.default_medium !! key = Some v -> 0 <= v.
Proof.
  unfold Losses.default_medium. intros H.
  apply lookup_insert_Some in H as [[_ <-]|[_ H]]; [lra |].
  apply lookup_insert_Some in H as [[_ <-]|[_ H]]; [lra |].
  apply lookup_singleton_Some in H as [_ <-]. lra.
Qed.

Lemma default_low_nonneg key v : Losses.default_low !! key = Some v -> 0 <= v.
Proof.
  unfold Losses.default_low. intros H.
  apply lookup_insert_Some in H as [[_ <-]|[_ H]]; [lra |].
  apply lookup_insert_Some in H as [[_ <-]|[_ H]]; [lra |].
  apply lookup_singleton_Some in H as [_ <-]. lra.
Qed.

Lemma getitem_nonneg (dflt : gmap string Q) (locs : list string)
    (loc key : string) (v : Q) :
  (forall k x, dflt !! k = Some x -> 0 <= x) ->
  nonneg_rows losses locs -> loc ∈ locs ->
  getitem (default dflt (losses !! loc)) key = Ok v -> 0 <= v.
Proof.
  intros Hd Hrows Hloc. unfold getitem.
  destruct (losses !! loc) as [row|] eqn:E; simpl;
    destruct (_ !! key) as [x|] eqn:Ex; intros [= <-]; eauto.
Qed.

Lemma tier_losses_nonneg (tk dk : string) (dflt : gmap string Q)
    (locs : list string) (r : Losses.tier_loss) :
  (forall k x, dflt !! k = Some x -> 0 <= x) ->
  nonneg_rows losses locs ->
  Losses.tier_losses tk dk dflt losses locs = Ok r ->
  0 <= Losses.transf_loss r /\ 0 <= Losses.distr_loss r.
Proof.
  intros Hd Hrows H. unfold Losses.tier_losses in H.
  inv_bind H. destruct a as [[c t] d].
  assert (Hinv : 0 <= c /\ 0 <= t /\ 0 <= d).
  { revert Ha.
    apply (for_each_inv (fun s : Q * Q * Q =>
             0 <= s.1.1 /\ 0 <= s.1.2 /\ 0 <= s.2)); [| simpl; lra].
    intros [[c0 t0] d0] loc s' Hloc (Hc & Ht & Hdd) Hs. simpl in *.
    unfold Losses.tier_step in Hs.
    inv_bind Hs. inv_bind Hs. inv_bind Hs. injection Hs as <-. simpl.
    apply (getitem_nonneg dflt locs) in Ha, Ha0, Ha1; try assumption.
    repeat split; [lra | |]; apply Qplus_mult_nonneg; assumption. }
  destruct Hinv as (Hc & Ht & Hdd).
  inv_bind H. inv_bind H. injection H as <-. simpl.
  apply py_truediv_inv in Ha0 as [_ ->], Ha1 as [_ ->].
  split; apply Qdiv_nonneg; assumption.
Qed.

(** The first half of the property of the loss fractions: over a table
    of nonnegative values, the six fractions that the function returns
    are nonnegative. *)
Lemma losses_nonneg (locs : list string) (r : Losses.network_loss) :
  nonneg_rows losses locs ->
  Losses.get_production_weighted_losses losses locs = Ok r ->
  0 <= Losses.transf_loss (Losses.high r)
  /\ 0 <= Losses.distr_loss (Losses.high r)
  /\ 0 <= Losses.transf_loss (Losses.medium r)
  /\ 0 <= Losses.distr_loss (Losses.medium r)
  /\ 0 <= Losses.transf_loss (Losses.low r)
  /\ 0 <= Losses.distr_loss (Losses.low r).
Proof.
  intros Hrows H. unfold Losses.get_production_weighted_losses in H.
  inv_bind H. destruct a as [c t].
  assert (Hinv : 0 <= c /\ 0 <= t).
  { revert Ha.
    apply (for_each_inv (fun s : Q * Q => 0 <= s.1 /\ 0 <= s.2)); [| simpl; lra].
    intros [c0 t0] loc s' Hloc (Hc & Ht) Hs. simpl in *.
    unfold Losses.high_step in Hs.
    inv_bind Hs. inv_bind Hs. injection Hs as <-. simpl.
    apply (getitem_nonneg Losses.default_high locs) in Ha, Ha0;
      try assumption; try apply default_high_nonneg.
    split; [lra |]. apply Qplus_mult_nonneg; assumption. }
  destruct Hinv as (Hc & Ht).
  inv_bind H. apply py_truediv_inv in Ha0 as [_ ->].
  inv_bind H. inv_bind H. injection H as <-. simpl.
  apply tier_losses_nonneg in Ha0, Ha1;
    try assumption; try apply default_medium_nonneg; try apply default_low_nonneg.
  repeat split; try tauto; try lra. apply Qdiv_nonneg; assumption.
Qed.

End LossFacts.

(** ** The allocation engine *)

Lemma mapM_pure {A B} (f : A -> result B) (g : A -> B) (l : list A) :
  (forall x, x ∈ l -> f x = Ok (g x)) -> mapM f l = Ok (map g l).
Proof.
  induction l as [|x l IH]; intros H; simpl.
  - reflexivity.
  - rewrite (H x) by left. simpl.
    rewrite IH by (intros y Hy; apply H; now right). reflexivity.
Qed.

Lemma filter_result_total {A} (p : A -> result bool) (l : list A) :
  (forall x, x ∈ l -> exists b, p x = Ok b) ->
  exists k, filter_result p l = Ok k /\ k ⊆ l.
Proof.
  induction l as [|x l IH]; intros H; simpl.
  - exists []. split; [reflexivity | intros y Hy; exact Hy].
  - destruct (H x) as (b & ->); [left |].
    destruct IH as (k & -> & Hk); [intros y Hy; apply H; now right |].
    simpl. destruct b; eexists; (split; [reflexivity |]).
    + intros y Hy. apply elem_of_cons in Hy as [->|Hy]; [left | right; auto].
    + intros y Hy. right. auto.
Qed.

Lemma dict_lookup_set {V} (k k' : string) (v : V) (d : list (string * V)) :
  dict_lookup (dict_set k v d) k'
  = if String.eqb k' k then Some v else dict_lookup d k'.
Proof.
  induction d as [|[k0 v0] d IH]; simpl.
  - reflexivity.
  - destruct (String.eqb k k0) eqn:E; simpl.
    + apply String.eqb_eq in E as ->.
      destruct (String.eqb k' k0); reflexivity.
    + destruct (String.eqb k' k0) eqn:E0.
      * apply String.eqb_eq in E0 as ->.
        rewrite String.eqb_sym in E. now rewrite E.
      * exact IH.
Qed.

Section AllocationFacts.

Variable self : Electricity.

Lemma total_production_sum (suppliers : list dataset) (acc : Q) :
  fold_left (fun total loc => total + indexed_volume self loc) suppliers acc
  = fold_left Qplus (map (indexed_volume self) suppliers) acc.
Proof.
  revert acc. induction suppliers as [|s l IH]; intros acc; simpl; auto.
Qed.

Lemma length_nonzero {A} (l : list A) :
  l <> [] -> ~ inject_Z (Z.of_nat (length l)) == 0.
Proof.
  intros Hne E. destruct l; [congruence |].
  unfold Qeq in E. simpl in E. lia.
Qed.

(** The two branches of [get_production_weighted_share]. *)
Lemma share_of_nonzero_total (supplier : dataset) (suppliers : list dataset) :
  ~ py_sum (map (indexed_volume self) suppliers) == 0 ->
  get_production_weighted_share self supplier suppliers
  = Ok (indexed_volume self supplier
        / py_sum (map (indexed_volume self) suppliers)).
Proof.
  intros H. unfold get_production_weighted_share.
  rewrite total_production_sum. fold (py_sum (map (indexed_volume self) suppliers)).
  unfold Qneb. apply Qeq_bool_false in H as E. rewrite E. simpl.
  now apply py_truediv_Ok.
Qed.

Lemma share_of_zero_total (supplier : dataset) (suppliers : list dataset) :
  suppliers <> [] ->
  py_sum (map (indexed_volume self) suppliers) == 0 ->
  get_production_weighted_share self supplier suppliers
  = Ok (1 / inject_Z (Z.of_nat (length suppliers))).
Proof.
  intros Hne H. unfold get_production_weighted_share.
  rewrite total_production_sum. fold (py_sum (map (indexed_volume self) suppliers)).
  unfold Qneb. apply Qeq_bool_iff in H as E. rewrite E. simpl.
  apply py_truediv_Ok. now apply length_nonzero.
Qed.

Lemma share_total (supplier : dataset) (suppliers : list dataset) :
  suppliers <> [] ->
  exists share, get_production_weighted_share self supplier suppliers = Ok share.
Proof.
  intros Hne.
  destruct (Qeq_dec (py_sum (map (indexed_volume self) suppliers)) 0) as [E|E].
  - rewrite share_of_zero_total by assumption. eauto.
  - rewrite share_of_nonzero_total by assumption. eauto.
Qed.

(** C2.  Over a non-empty list of suppliers the function returns, and
    never raises: the share is the indexed production volume of the
    supplier divided by the summed indexed volume of the list when that sum
    is not zero, and one over the number of suppliers when it is zero. *)
Theorem get_production_weighted_share_spec (supplier : dataset)
    (suppliers : list dataset) :
  suppliers <> [] ->
  let total := py_sum (map (indexed_volume self) suppliers) in
  (~ total == 0 ->
   get_production_weighted_share self supplier suppliers
   = Ok (indexed_volume self supplier / total))
  /\ (total == 0 ->
      get_production_weighted_share self supplier suppliers
      = Ok (1 / inject_Z (Z.of_nat (length suppliers))))
  /\ is_Ok (get_production_weighted_share self supplier suppliers).
Proof.
  intros Hne total. repeat split.
  - apply share_of_nonzero_total.
  - now apply share_of_zero_total.
  - destruct (share_total supplier suppliers Hne) as (q & ->). exact I.
Qed.

Lemma check_for_production_volume_total (suppliers : list dataset) :
  exists kept,
    check_for_production_volume self suppliers = Ok kept /\ kept ⊆ suppliers.
Proof.
  apply filter_result_total. intros x Hx.
  destruct (share_total x suppliers) as (q & ->).
  - intros ->. inversion Hx.
  - simpl. eauto.
Qed.

(** The filter and the rescaling at the end of [supplier_shares]. *)
Lemma rescale_kept (kept : list (dataset * Q)) :
  Forall (fun s => 1 # 1000 < s.2) kept ->
  exists alloc,
    mapM (fun supplier =>
        share ← py_truediv supplier.2 (py_sum (map snd kept));
        Ok (supplier.1, share)) kept = Ok alloc
    /\ alloc = map (fun s => (s.1, s.2 / py_sum (map snd kept))) kept
    /\ (alloc = [] \/ py_sum (map snd alloc) == 1).
Proof.
  intros Hk. destruct kept as [|s0 kept0] eqn:Ekept.
  - exists []. repeat split. now left.
  - rewrite <- Ekept in *.
    assert (Hpos : 0 < py_sum (map snd kept)).
    { apply py_sum_pos.
      - rewrite Ekept. discriminate.
      - apply Forall_fmap. eapply Forall_impl; [exact Hk |].
        simpl. intros s Hs. lra. }
    eexists. split; [| split; [reflexivity |]].
    + apply mapM_pure. intros s _. rewrite py_truediv_Ok by lra. reflexivity.
    + right. rewrite map_map. simpl.
      rewrite <- (map_map snd (fun x => x / py_sum (map snd kept))).
      rewrite py_sum_div. field. lra.
Qed.

(** The allocation that [supplier_shares] completes: it is returned for
    every list of suppliers, its suppliers are among those given, its
    shares are positive, and it is empty or its shares sum to one. *)
Lemma supplier_shares_normalized (suppliers : list dataset) :
  exists alloc,
    supplier_shares self suppliers = Ok alloc
    /\ Forall (fun s => s.1 ∈ suppliers /\ 0 < s.2) alloc
    /\ (alloc = [] \/ py_sum (map snd alloc) == 1).
Proof.
  unfold supplier_shares.
  destruct (check_for_production_volume_total suppliers) as (kept0 & -> & Hsub).
  rewrite bind_ret_l.
  destruct (mapM_total (fun supplier =>
      share ← get_production_weighted_share self supplier kept0;
      Ok (supplier, share)) kept0) as (shares & Hshares).
  { intros x Hx. destruct (share_total x kept0) as (q & ->).
    - intros ->. inversion Hx.
    - simpl. eauto. }
  rewrite Hshares, bind_ret_l. cbv zeta.
  set (kept := filter (fun supplier => Qgtb supplier.2 (1 # 1000) = true) shares).
  assert (Hk : Forall (fun s => 1 # 1000 < s.2) kept).
  { apply Forall_forall. intros s Hs. apply list_elem_of_filter in Hs as [Hs _].
    now apply Qgtb_true. }
  destruct (rescale_kept kept Hk) as (alloc & -> & Ealloc & Hsum).
  exists alloc. split; [reflexivity | split; [| exact Hsum]].
  rewrite Ealloc. apply Forall_fmap, Forall_forall. intros s Hs. simpl.
  assert (Hpos : 0 < py_sum (map snd kept)).
  { apply py_sum_pos.
    - intros E. apply map_eq_nil in E. rewrite E in Hs. inversion Hs.
    - apply Forall_fmap. eapply Forall_impl; [exact Hk |]. simpl. intros; lra. }
  split.
  - apply Hsub. apply list_elem_of_filter in Hs as [_ Hs].
    apply mapM_Ok_Forall2 in Hshares.
    clear -Hs Hshares. induction Hshares as [|x y l k Hxy _ IH].
    + inversion Hs.
    + inv_bind Hxy. injection Hxy as <-.
      apply elem_of_cons in Hs as [->|Hs]; [left | right; auto].
  - rewrite Forall_forall in Hk. specialize (Hk s Hs).
    apply Qlt_shift_div_l; lra.
Qed.

End AllocationFacts.


(** ** The supplier resolver *)

Section ResolverFacts.

Variable self : Electricity.

Lemma find_suppliers_exhausted (db : list dataset)
    (scopes : list (list string)) (names : list string) :
  Forall (fun locations =>
      get_suppliers_of_a_region self db locations names
        "electricity" "kilowatt hour" = []) scopes ->
  find_suppliers self db scopes names = Raise IndexError.
Proof.
  induction 1 as [|locations scopes H _ IH]; simpl.
  - reflexivity.
  - now rewrite H.
Qed.

(** The resolver returns the suppliers of the first scope that has some. *)
Lemma find_suppliers_first (db : list dataset) (scopes : list (list string))
    (names : list string) (suppliers : list dataset) :
  find_suppliers self db scopes names = Ok suppliers ->
  suppliers <> []
  /\ exists before locations after,
       scopes = before ++ locations :: after
       /\ Forall (fun locations =>
              get_suppliers_of_a_region self db locations names
                "electricity" "kilowatt hour" = []) before
       /\ suppliers = get_suppliers_of_a_region self db locations names
                        "electricity" "kilowatt hour".
Proof.
  induction scopes as [|locations scopes IH]; simpl; [discriminate |].
  destruct (get_suppliers_of_a_region self db locations names _ _)
    as [|s l] eqn:E.
  - intros H. destruct (IH H) as (Hne & before & locs & after & -> & Hb & ->).
    split; [assumption |].
    exists (locations :: before), locs, after.
    repeat split. now constructor.
  - intros [= <-]. split; [discriminate |].
    exists [], locations, scopes. repeat split; [constructor | now symmetry].
Qed.

Lemma find_suppliers_Raise (db : list dataset) (scopes : list (list string))
    (names : list string) (e : exn) :
  find_suppliers self db scopes names = Raise e ->
  e = IndexError
  /\ Forall (fun locations =>
         get_suppliers_of_a_region self db locations names
           "electricity" "kilowatt hour" = []) scopes.
Proof.
  induction scopes as [|locations scopes IH]; simpl.
  - intros [= <-]. split; constructor.
  - destruct (get_suppliers_of_a_region self db locations names _ _) eqn:E;
      [| discriminate].
    intros H. destruct (IH H) as [-> Hall]. split; [reflexivity |].
    now constructor.
Qed.

(** Only the exhaustion of the fallback chain makes the resolution of a
    technology fail. *)
Lemma resolve_technology_cases (db : list dataset) (region : string)
    (names : list string) :
  (exhausted self db region names
   /\ resolve_technology self db region names = Raise IndexError)
  \/ (exists shares,
        resolve_technology self db region names = Ok shares
        /\ (shares = [] \/ py_sum (map snd shares) == 1)).
Proof.
  unfold resolve_technology.
  destruct (find_suppliers self db (possible_locations self region) names)
    as [suppliers|e] eqn:E.
  - right. rewrite bind_ret_l.
    destruct (supplier_shares_normalized self suppliers) as (alloc & -> & _ & H).
    eauto.
  - left. apply find_suppliers_Raise in E as [-> Hall]. split; [exact Hall |].
    reflexivity.
Qed.

Lemma resolve_technology_exhausted (db : list dataset) (region : string)
    (names : list string) :
  exhausted self db region names ->
  resolve_technology self db region names = Raise IndexError.
Proof.
  intros H. unfold resolve_technology.
  now rewrite (find_suppliers_exhausted db _ names H).
Qed.

(** *** Exhaustion in the low voltage builder *)

Lemma low_voltage_resolve_cases (db : list dataset) (region : string)
    (tech_suppliers : list (string * list (dataset * Q)))
    (entry : string * list string) :
  (exhausted self db region entry.2
   /\ low_voltage_resolve self db region tech_suppliers entry
      = Raise IndexError)
  \/ (exists shares,
        low_voltage_resolve self db region tech_suppliers entry
        = Ok (dict_set entry.1 shares tech_suppliers)
        /\ (shares = [] \/ py_sum (map snd shares) == 1)).
Proof.
  unfold low_voltage_resolve.
  destruct (resolve_technology_cases db region entry.2)
    as [[Hex ->]|(shares & -> & H)]; [left | right]; eauto.
Qed.

Lemma low_voltage_resolve_loop (db : list dataset) (region : string)
    (entries : list (string * list string))
    (tech_suppliers : list (string * list (dataset * Q))) :
  Exists (fun entry => exhausted self db region entry.2) entries ->
  for_each (low_voltage_resolve self db region) entries tech_suppliers
  = Raise IndexError.
Proof.
  intros H. revert tech_suppliers.
  induction entries as [|entry entries IH]; intros ts; [inversion H |].
  rewrite for_each_cons.
  destruct (low_voltage_resolve_cases db region ts entry)
    as [[_ ->]|(shares & E & _)]; [reflexivity |].
  inversion H as [? ? Hx|? ? Hl]; subst.
  - unfold low_voltage_resolve in E.
    rewrite (resolve_technology_exhausted db region _ Hx) in E. discriminate.
  - rewrite E, bind_ret_l. now apply IH.
Qed.

End ResolverFacts.

(** ** Dictionaries and the mix *)

Lemma dict_set_fresh {V} (k : string) (v : V) (d : list (string * V)) :
  k ∉ map fst d -> dict_set k v d = d ++ [(k, v)].
Proof.
  induction d as [|[k0 v0] d IH]; simpl; intros H.
  - reflexivity.
  - destruct (String.eqb k k0) eqn:E.
    + apply String.eqb_eq in E as ->. exfalso. apply H. left.
    + rewrite IH; [reflexivity |]. intros Hin. apply H. now right.
Qed.

Lemma py_dict_fresh {V} (items acc : list (string * V)) :
  NoDup (map fst acc ++ map fst items) ->
  fold_left (fun d kv => dict_set kv.1 kv.2 d) items acc = acc ++ items.
Proof.
  revert acc. induction items as [|[k v] items IH]; intros acc H; simpl.
  - now rewrite app_nil_r.
  - rewrite dict_set_fresh.
    + rewrite IH.
      * now rewrite <- app_assoc.
      * rewrite map_app. simpl. rewrite <- app_assoc. exact H.
    + simpl in H. apply NoDup_app in H as (_ & H & _).
      intros Hin. apply (H k Hin). left.
Qed.

Lemma zip_map_r {A B} (f : A -> B) (l : list A) :
  zip l (map f l) = map (fun x => (x, f x)) l.
Proof. induction l as [|x l IH]; simpl; [reflexivity | now rewrite IH]. Qed.

Lemma dict_lookup_fold {V} (f : string -> V) (k : string) (keys : list string)
    (acc : list (string * V)) :
  dict_lookup acc k = Some (f k) \/ k ∈ keys ->
  dict_lookup
    (fold_left (fun d kv => dict_set kv.1 kv.2 d)
       (map (fun x => (x, f x)) keys) acc) k
  = Some (f k).
Proof.
  revert acc. induction keys as [|x keys IH]; intros acc H; simpl.
  - destruct H as [H|H]; [assumption | inversion H].
  - apply IH. rewrite dict_lookup_set.
    destruct (String.eqb k x) eqn:E.
    + apply String.eqb_eq in E as ->. now left.
    + destruct H as [H|H]; [now left | right].
      apply elem_of_cons in H as [->|H]; [| assumption].
      rewrite String.eqb_refl in E. discriminate.
Qed.

Section MixFacts.

Variable self : Electricity.

Lemma electricity_mix_eq (region : string) (period : nat) :
  electricity_mix self region period
  = py_dict (map (fun v => (v, mix_value self region period v))
               (variables self)).
Proof.
  unfold electricity_mix, mix_value.
  destruct (consequential self); now rewrite zip_map_r.
Qed.

(** The mix holds the value of the scenario for each of its variables. *)
Lemma electricity_mix_lookup (region : string) (period : nat) (v : string) :
  v ∈ variables self ->
  dict_lookup (electricity_mix self region period) v
  = Some (mix_value self region period v).
Proof.
  intros H. rewrite electricity_mix_eq. unfold py_dict.
  apply (dict_lookup_fold (mix_value self region period)). now right.
Qed.

Lemma electricity_mix_NoDup (region : string) (period : nat) :
  NoDup (variables self) ->
  electricity_mix self region period
  = map (fun v => (v, mix_value self region period v)) (variables self).
Proof.
  intros H. rewrite electricity_mix_eq. unfold py_dict.
  rewrite py_dict_fresh; [reflexivity |].
  simpl. rewrite map_map. simpl. now rewrite map_id.
Qed.

End MixFacts.

(** ** The loops over the technologies *)

Lemma elem_of_supply_of (flow : Q -> Q -> Q) (mix : list (string * Q))
    (tech_suppliers : list (string * list (dataset * Q)))
    (technology : string) (exc : exchange) :
  exc ∈ supply_of flow mix tech_suppliers technology <->
  exists amount supplier share,
    dict_lookup mix technology = Some amount /\ 0 < amount
    /\ (supplier, share) ∈ tech_suppliers_get tech_suppliers technology
    /\ exc = market_exchange technosphere (ds_name supplier)
               (ds_reference_product supplier) (ds_location supplier)
               (ds_unit supplier) (flow amount share)
               (PNum (flow amount share)).
Proof.
  unfold supply_of. split.
  - destruct (dict_lookup mix technology) as [amount|]; [| inversion 1].
    destruct (Qgtb amount 0) eqn:E; [| inversion 1].
    intros H. apply list_elem_of_fmap in H as ([supplier share] & -> & H).
    exists amount, supplier, share. repeat split; try assumption.
    now apply Qgtb_true.
  - intros (amount & supplier & share & -> & Hpos & Hin & ->).
    apply Qgtb_true in Hpos. rewrite Hpos.
    apply list_elem_of_fmap. exists (supplier, share). split; [reflexivity | assumption].
Qed.

Lemma dict_get_Some {V} (d : list (string * V)) (k : string) (v : V) :
  dict_lookup d k = Some v -> dict_get d k = Ok v.
Proof. intros H. unfold dict_get. now rewrite H. Qed.

Lemma supply_of_Some (flow : Q -> Q -> Q) (mix : list (string * Q))
    (tech_suppliers : list (string * list (dataset * Q)))
    (technology : string) (amount : Q) :
  dict_lookup mix technology = Some amount ->
  supply_of flow mix tech_suppliers technology
  = if Qgtb amount 0
    then map (fun '(supplier, share) =>
             market_exchange technosphere (ds_name supplier)
               (ds_reference_product supplier) (ds_location supplier)
               (ds_unit supplier) (flow amount share)
               (PNum (flow amount share)))
           (tech_suppliers_get tech_suppliers technology)
    else [].
Proof. intros H. unfold supply_of. now rewrite H. Qed.

Lemma high_voltage_supply_eq (mix : list (string * Q))
    (tech_suppliers : list (string * list (dataset * Q))) (solar_amount : Q)
    (technologies : list string) :
  (forall t, t ∈ technologies -> is_Some (dict_lookup mix t)) ->
  high_voltage_supply mix tech_suppliers solar_amount technologies
  = Ok (concat (map (supply_of (fun amount share =>
                       amount * share / (1 - solar_amount))
                     mix tech_suppliers) technologies)).
Proof.
  unfold high_voltage_supply.
  rewrite <- (app_nil_l (concat _)). generalize (@nil exchange) as acc.
  induction technologies as [|t l IH]; intros acc H.
  - simpl. now rewrite app_nil_r.
  - rewrite for_each_cons. destruct (H t) as (amount & Ht); [left |].
    rewrite (dict_get_Some _ _ _ Ht), bind_ret_l.
    simpl map. simpl concat. rewrite (supply_of_Some _ _ _ _ _ Ht).
    destruct (Qgtb amount 0); rewrite bind_ret_l.
    + rewrite IH by (intros x Hx; apply H; now right).
      now rewrite <- app_assoc.
    + rewrite IH by (intros x Hx; apply H; now right). reflexivity.
Qed.


(** ** The markets *)

Lemma py_index_Ok {A} (l : list A) (i : nat) :
  (i < length l)%nat -> exists x, py_index l i = Ok x.
Proof.
  intros H. unfold py_index.
  destruct (lookup_lt_is_Some_2 l i H) as (x & ->). eauto.
Qed.

Lemma py_sum_ext {A} (g h : A -> Q) (l : list A) :
  (forall x, x ∈ l -> g x == h x) -> py_sum (map g l) == py_sum (map h l).
Proof.
  induction l as [|x l IH]; intros H; simpl.
  - reflexivity.
  - rewrite !py_sum_cons, (H x) by left.
    rewrite IH by (intros y Hy; apply H; now right). reflexivity.
Qed.

Lemma tech_suppliers_get_set (k t : string) (v : list (dataset * Q))
    (d : list (string * list (dataset * Q))) :
  tech_suppliers_get (dict_set k v d) t
  = if String.eqb t k then v else tech_suppliers_get d t.
Proof.
  unfold tech_suppliers_get. rewrite dict_lookup_set.
  now destruct (String.eqb t k).
Qed.

Section MarketFacts.

Variable self : Electricity.

(** The residential solar share of a mix whose labels are distinct is the
    sum of the values of the residential solar variables. *)
Lemma solar_amount_of_map (f : string -> Q) (labels : list string) (acc : Q) :
  fold_left (fun solar_amount kv =>
      if is_residential_solar kv.1 then solar_amount + kv.2
      else solar_amount) (map (fun v => (v, f v)) labels) acc
  == acc + py_sum (map f (filter (fun tech => is_residential_solar tech = true)
                             labels)).
Proof.
  revert acc. induction labels as [|v l IH]; intros acc; simpl.
  - unfold py_sum. simpl. lra.
  - rewrite IH. rewrite filter_cons.
    destruct (decide (is_residential_solar v = true)) as [E|E].
    + rewrite E. simpl. rewrite py_sum_cons. lra.
    + apply not_true_is_false in E. rewrite E. lra.
Qed.


Lemma mix_has_technologies (P : string -> Prop)
    {Hdec : forall x, Decision (P x)}
    (region : string) (period : nat) (t : string) :
  t ∈ filter P (variables self) ->
  dict_lookup (electricity_mix self region period) t
  = Some (mix_value self region period t).
Proof.
  intros H. apply list_elem_of_filter in H as [_ H].
  now apply electricity_mix_lookup.
Qed.

Lemma sf6_emission_Ok (amount : Q) :
  is_Some (biosphere_dict self !! sf6_key) ->
  exists exc, sf6_emission self amount = Ok exc /\ e_type exc = biosphere.
Proof.
  intros (code & H). unfold sf6_emission. rewrite H. simpl. eauto.
Qed.

Lemma supply_exchanges_product (db : list dataset) (names : list string)
    (region : string) (coefficient : Q) (product : string) (exc : exchange) :
  (forall key share,
     (key, share) ∈ select_multiple_suppliers self db names region ->
     key.1.2 <> product) ->
  exc ∈ supply_exchanges self db names region coefficient ->
  e_product exc <> Some product.
Proof.
  intros H Hin. unfold supply_exchanges in Hin.
  apply list_elem_of_fmap in Hin as ([[[[n l] p] u] share] & -> & Hin).
  simpl. intros [= ->]. now apply (H _ _ Hin).
Qed.

Lemma filter_none {A} (P : A -> Prop) {Hdec : forall x, Decision (P x)}
    (l : list A) :
  (forall x, x ∈ l -> ~ P x) -> filter P l = [].
Proof.
  induction l as [|x l IH]; intros H; [reflexivity |].
  rewrite filter_cons. destruct (decide (P x)) as [Hx|_].
  - exfalso. apply (H x); [left | assumption].
  - apply IH. intros y Hy. apply H. now right.
Qed.

End MarketFacts.



(** *** High voltage *)

(** *** The allocations of the builders *)

Lemma high_voltage_resolve_cases (self : Electricity) (db : list dataset)
    (region : string) (tech_suppliers : list (string * list (dataset * Q)))
    (entry : string * list string) :
  (exhausted self db region entry.2
   /\ high_voltage_resolve self db region tech_suppliers entry
      = if consequential self then Ok tech_suppliers else Raise IndexError)
  \/ (exists shares,
        high_voltage_resolve self db region tech_suppliers entry
        = Ok (dict_set entry.1 shares tech_suppliers)
        /\ (shares = [] \/ py_sum (map snd shares) == 1)).
Proof.
  unfold high_voltage_resolve.
  destruct (resolve_technology_cases self db region entry.2)
    as [[Hex ->]|(shares & -> & H)]; [left | right]; eauto.
Qed.

Lemma high_voltage_resolve_Ok (self : Electricity) (db : list dataset)
    (region : string) (tech_suppliers : list (string * list (dataset * Q)))
    (technology : string) (names : list string) (shares : list (dataset * Q)) :
  resolve_technology self db region names = Ok shares ->
  high_voltage_resolve self db region tech_suppliers (technology, names)
  = Ok (dict_set technology shares tech_suppliers).
Proof. intros H. unfold high_voltage_resolve. simpl. now rewrite H. Qed.

Lemma high_voltage_resolve_IndexError (self : Electricity) (db : list dataset)
    (region : string) (tech_suppliers : list (string * list (dataset * Q)))
    (technology : string) (names : list string) :
  resolve_technology self db region names = Raise IndexError ->
  high_voltage_resolve self db region tech_suppliers (technology, names)
  = if consequential self then Ok tech_suppliers else Raise IndexError.
Proof. intros H. unfold high_voltage_resolve. simpl. now rewrite H. Qed.

Lemma normalized_set (tech_suppliers : list (string * list (dataset * Q)))
    (technology : string) (shares : list (dataset * Q)) :
  normalized tech_suppliers ->
  shares = [] \/ py_sum (map snd shares) == 1 ->
  normalized (dict_set technology shares tech_suppliers).
Proof.
  intros Hn Hs t. rewrite tech_suppliers_get_set.
  destruct (String.eqb t technology); [exact Hs | apply Hn].
Qed.

(** C3.  The allocation that the builders complete for a list of
    suppliers is always returned, and it is empty or its shares sum to
    one; so it is for every technology in the dictionary that the high
    voltage and the low voltage builder fill for a region. *)
Theorem completed_allocation_sums_to_one (self : Electricity) :
  (forall suppliers,
     exists alloc,
       supplier_shares self suppliers = Ok alloc
       /\ (alloc = [] \/ py_sum (map snd alloc) == 1))
  /\ forall db region entries tech_suppliers,
       for_each (high_voltage_resolve self db region) entries []
       = Ok tech_suppliers
       \/ for_each (low_voltage_resolve self db region) entries []
          = Ok tech_suppliers ->
       forall technology,
         tech_suppliers_get tech_suppliers technology = []
         \/ py_sum (map snd (tech_suppliers_get tech_suppliers technology)) == 1.
Proof.
  split.
  - intros suppliers.
    destruct (supplier_shares_normalized self suppliers) as (alloc & E & _ & H).
    eauto.
  - intros db region entries ts [H|H]; revert H;
      apply (for_each_inv normalized); try (intros t; now left).
    + intros s entry s' _ Hs E.
      destruct (high_voltage_resolve_cases self db region s entry)
        as [[_ E']|(shares & E' & Hn)]; rewrite E' in E.
      * destruct (consequential self); [| discriminate].
        injection E as <-. exact Hs.
      * injection E as <-. now apply normalized_set.
    + intros s entry s' _ Hs E.
      destruct (low_voltage_resolve_cases self db region s entry)
        as [[_ E']|(shares & E' & Hn)]; rewrite E' in E; [discriminate |].
      injection E as <-. now apply normalized_set.
Qed.

(** *** Exhaustion of the fallback chain *)

(** C5.  In the low voltage builder the exhaustion of the fallback chain
    for a technology raises [IndexError] out of the construction of the
    region, whatever the operating mode: in the consequential mode too the
    technology is not skipped. *)
Theorem low_voltage_exhaustion_raises (self : Electricity)
    (technologies : list string) (entries : list (string * list string))
    (st : state) (region : string) :
  is_Some (network_loss self !! region) ->
  Exists (fun entry => exhausted self (database st) region entry.2) entries ->
  low_voltage_region self technologies entries st region = Raise IndexError.
Proof.
  intros (loss & Hloss) Hex. unfold low_voltage_region, getitem.
  rewrite Hloss, bind_ret_l. cbv zeta.
  now rewrite (low_voltage_resolve_loop self _ region entries [] Hex).
Qed.

(** In the full-equilibrium modes the high voltage builder fails in the
    same way. *)
Lemma high_voltage_exhaustion_raises (self : Electricity)
    (technologies : list string) (entries : list (string * list string))
    (st : state) (region : string) :
  consequential self = false ->
  is_Some (network_loss self !! region) ->
  Exists (fun entry => exhausted self (database st) region entry.2) entries ->
  high_voltage_region self technologies entries st region = Raise IndexError.
Proof.
  intros Hmode (loss & Hloss) Hex. unfold high_voltage_region, getitem.
  rewrite Hloss, bind_ret_l. cbv zeta.
  assert (E : forall ts,
    for_each (high_voltage_resolve self (database st) region) entries ts
    = Raise IndexError).
  { induction entries as [|entry entries IH]; intros ts; [inversion Hex |].
    rewrite for_each_cons.
    destruct (high_voltage_resolve_cases self (database st) region ts entry)
      as [[_ E]|(shares & E & _)]; rewrite E.
    - now rewrite Hmode.
    - rewrite bind_ret_l. inversion Hex as [? ? Hx|? ? Hl]; subst.
      + unfold high_voltage_resolve in E.
        rewrite (resolve_technology_exhausted self _ region _ Hx), Hmode in E.
        discriminate.
      + now apply IH. }
  now rewrite E.
Qed.

(** In the consequential mode the loop of the high voltage builder over
    the technologies never fails, and it leaves a technology whose chain
    is exhausted without suppliers. *)
Lemma high_voltage_exhaustion_skipped (self : Electricity)
    (db : list dataset) (region : string)
    (entries : list (string * list string)) :
  consequential self = true ->
  exists tech_suppliers,
    for_each (high_voltage_resolve self db region) entries [] = Ok tech_suppliers
    /\ forall technology,
         (forall names, (technology, names) ∈ entries ->
                        exhausted self db region names) ->
         tech_suppliers_get tech_suppliers technology = [].
Proof.
  intros Hmode.
  assert (G : forall ts, exists ts',
    for_each (high_voltage_resolve self db region) entries ts = Ok ts'
    /\ forall technology,
         (forall names, (technology, names) ∈ entries ->
                        exhausted self db region names) ->
         tech_suppliers_get ts' technology = tech_suppliers_get ts technology).
  { induction entries as [|[t names] entries IH]; intros ts.
    - exists ts. split; [reflexivity | reflexivity].
    - rewrite for_each_cons.
      destruct (resolve_technology self db region names) as [shares|e] eqn:E.
      + rewrite (high_voltage_resolve_Ok _ _ _ _ _ _ _ E), bind_ret_l.
        destruct (IH (dict_set t shares ts)) as (ts' & E' & H).
        exists ts'. split; [exact E' |].
        intros technology Hex.
        rewrite H by (intros n Hn; apply Hex; now right).
        rewrite tech_suppliers_get_set.
        destruct (String.eqb technology t) eqn:Et; [| reflexivity].
        apply String.eqb_eq in Et as ->.
        rewrite (resolve_technology_exhausted self db region names) in E;
          [discriminate | apply Hex; left].
      + destruct (resolve_technology_cases self db region names)
          as [[_ E']|(sh & E' & _)]; rewrite E' in E; [| discriminate].
        rewrite (high_voltage_resolve_IndexError _ _ _ _ _ _ E'), Hmode,
          bind_ret_l.
        destruct (IH ts) as (ts' & E'' & H).
        exists ts'. split; [exact E'' |].
        intros technology Hex. apply H. intros n Hn. apply Hex. now right. }
  destruct (G []) as (ts' & E & H). exists ts'. split; [exact E |].
  intros technology Hex. now rewrite H.
Qed.


(** *** Medium voltage *)

(** *** Low voltage *)

(** ** Efficiency of photovoltaic panels *)

Lemma np_clip_bounds (x lo hi : Q) :
  lo <= hi -> lo <= np_clip x lo hi /\ np_clip x lo hi <= hi.
Proof.
  intros H. unfold np_clip. split.
  - apply Q.min_glb; [assumption | apply Q.le_max_r].
  - apply Q.le_min_l.
Qed.

Lemma np_clip_inside (x lo hi : Q) :
  lo <= x -> x <= hi -> np_clip x lo hi == x.
Proof.
  intros Hlo Hhi. unfold np_clip.
  rewrite (Q.max_l x lo Hlo). now apply Q.min_r.
Qed.



(** A panel exchange of negative amount breaks the property as the
    specification states it: 3 kWp over -10 square meters is a current
    efficiency of -0.3, below the projected 0.2; the factor is -1.5, below
    one, and the amount rises from -10 to 15. *)
Lemma update_pv_negative_surface_increases :
  exists exc' change,
    update_pv_exchange Scenario.EUR 3 (Scenario.panel (-10))
    = Ok (exc', change)
    /\ e_amount exc' == 15
    /\ e_amount (Scenario.panel (-10)) < e_amount exc'.
Proof.
  eexists _, _. split; [vm_compute; reflexivity |].
  split; vm_compute; reflexivity.
Qed.

(** ** Efficiency of power plants *)





(** ** Region-specific power plants *)

Lemma provider_co2_Ok (db : list dataset) (provider : exchange)
    (provider_ds : dataset) :
  find_provider db provider = Ok provider_ds ->
  provider_co2 db provider = Ok (released_by provider provider_ds).
Proof. intros H. unfold provider_co2. now rewrite H. Qed.


Lemma adjust_ccs_exchange_cases (co2_amount : Q) (exc : exchange) :
  (is_co2_capture exc = true \/ is_co2_emission exc = true ->
   adjust_ccs_exchange co2_amount exc
   = set_amount exc (co2_amount * (9 # 10)))
  /\ (is_co2_capture exc = false -> is_co2_emission exc = false ->
      adjust_ccs_exchange co2_amount exc = exc).
Proof.
  unfold adjust_ccs_exchange, is_co2_capture, is_co2_emission.
  destruct exc as [[] name ? ? unit ? ? ? ? ? ?]; simpl;
    destruct (String.eqb unit "kilogram"); simpl;
    try destruct (startswith name "CO2 capture"); simpl;
    try destruct (startswith name "Carbon dioxide"); simpl;
    split; try reflexivity; try (intros [|]; discriminate);
    try discriminate.
Qed.


(** ** The passes of the cascade *)

(** The loop over the periods appends one market per period. *)
Lemma period_loop (market : list dataset -> nat -> result dataset)
    (periods : list nat) (st st' : state) :
  for_each (fun st period =>
      new_dataset ← market (database st) period;
      Ok (append_dataset st new_dataset)) periods st = Ok st' ->
  exists new,
    database st' = database st ++ new
    /\ created st' = created st ++ map ledger_entry new
    /\ Forall2 (fun period ds => exists db, market db period = Ok ds)
         periods new.
Proof.
  revert st. induction periods as [|period periods IH]; intros st H.
  - injection H as <-. exists []. rewrite !app_nil_r. repeat split. constructor.
  - rewrite for_each_cons in H. inv_bind H. cbv beta in Ha.
    inv_bind Ha. injection Ha as <-.
    destruct (IH _ H) as (new & Hd & Hc & Hf).
    exists (a0 :: new). simpl in Hd, Hc.
    rewrite <- !app_assoc in Hd, Hc. repeat split; try assumption.
    constructor; eauto.
Qed.

(** The loop over the regions appends the markets of every region. *)
Lemma region_loop (step : state -> string -> result state)
    (built : dataset -> Prop) (regions : list string) (st st' : state) :
  (forall s region s',
     region ∈ regions -> step s region = Ok s' ->
     exists new, database s' = database s ++ new /\ Forall built new) ->
  for_each step regions st = Ok st' ->
  exists new, database st' = database st ++ new /\ Forall built new.
Proof.
  intros Hstep.
  apply (for_each_inv (fun s =>
           exists new, database s = database st ++ new /\ Forall built new)).
  - intros s region s' Hr (new & Hd & Hf) Hs.
    destruct (Hstep s region s' Hr Hs) as (new' & Hd' & Hf').
    exists (new ++ new'). rewrite Hd', Hd, <- app_assoc. split; [reflexivity |].
    apply Forall_app. split; assumption.
  - exists []. rewrite app_nil_r. split; [reflexivity | constructor].
Qed.

Lemma Forall2_Forall_exists {A B} (R : A -> B -> Prop) (l : list A)
    (k : list B) :
  Forall2 R l k -> Forall (fun y => exists x, x ∈ l /\ R x y) k.
Proof.
  induction 1 as [|x y l k Hxy _ IH]; constructor.
  - exists x. split; [left | assumption].
  - eapply Forall_impl; [exact IH |]. simpl.
    intros b (a & Ha & Hab). exists a. split; [now right | assumption].
Qed.

Lemma getitem_Ok {V} (d : gmap string V) (k : string) (v : V) :
  getitem d k = Ok v -> d !! k = Some v.
Proof. unfold getitem. destruct (d !! k); [now intros [= ->] | discriminate]. Qed.

(** Every dataset that the high voltage builder appends is the market of
    one of the regions for one of the periods, built from the allocations
    resolved for that region. *)
Lemma create_new_markets_high_voltage_built (self : Electricity)
    (st st' : state) :
  create_new_markets_high_voltage self st = Ok st' ->
  exists new,
    database st' = database st ++ new
    /\ Forall (fun ds =>
           exists region period loss db db' entries tech_suppliers,
             region ∈ regions self /\ period ∈ periods self
             /\ network_loss self !! region = Some loss
             /\ for_each (high_voltage_resolve self db region) entries []
                = Ok tech_suppliers
             /\ high_voltage_market self db' region
                  (Losses.transf_loss (Losses.high loss)) tech_suppliers
                  (filter (fun tech => is_residential_solar tech = false)
                     (variables self)) period = Ok ds) new.
Proof.
  unfold create_new_markets_high_voltage. intros H.
  apply bind_Ok in H as (entries & _ & H).
  revert H. apply region_loop. intros s region s' Hr Hs.
  unfold high_voltage_region in Hs.
  apply bind_Ok in Hs as (loss & Hloss & Hs). apply getitem_Ok in Hloss.
  apply bind_Ok in Hs as (ts & Hts & Hs).
  apply (period_loop (fun db period =>
           high_voltage_market self db region
             (Losses.transf_loss (Losses.high loss)) ts
             (filter (fun tech => is_residential_solar tech = false)
                (variables self)) period)) in Hs as (new & Hd & _ & Hf).
  exists new. split; [exact Hd |].
  apply Forall2_Forall_exists in Hf.
  eapply Forall_impl; [exact Hf |]. simpl.
  intros ds (period & Hp & db' & Hm).
  exists region, period, loss, (database s), db', entries, ts. auto.
Qed.

(** Every dataset that the medium voltage builder appends is the market
    of one of the regions for one of the periods, with the losses of the
    region. *)
Lemma create_new_markets_medium_voltage_built (self : Electricity)
    (st st' : state) :
  create_new_markets_medium_voltage self st = Ok st' ->
  exists new,
    database st' = database st ++ new
    /\ Forall (fun ds =>
           exists region period loss db,
             region ∈ regions self /\ period ∈ periods self
             /\ network_loss self !! region = Some loss
             /\ medium_voltage_market self db region
                  (Losses.transf_loss (Losses.medium loss))
                  (Losses.distr_loss (Losses.medium loss)) period = Ok ds) new.
Proof.
  unfold create_new_markets_medium_voltage.
  apply region_loop. intros s region s' Hr Hs.
  unfold medium_voltage_region in Hs.
  apply bind_Ok in Hs as (loss & Hloss & Hs). apply getitem_Ok in Hloss.
  apply (period_loop (fun db period =>
           medium_voltage_market self db region
             (Losses.transf_loss (Losses.medium loss))
             (Losses.distr_loss (Losses.medium loss)) period))
    in Hs as (new & Hd & _ & Hf).
  exists new. split; [exact Hd |].
  apply Forall2_Forall_exists in Hf.
  eapply Forall_impl; [exact Hf |]. simpl.
  intros ds (period & Hp & db & Hm).
  exists region, period, loss, db. auto.
Qed.

(** Every dataset that the low voltage builder appends is the market of
    one of the regions for one of the periods, built from the allocations
    resolved for that region. *)
Lemma create_new_markets_low_voltage_built (self : Electricity)
    (st st' : state) :
  create_new_markets_low_voltage self st = Ok st' ->
  exists new,
    database st' = database st ++ new
    /\ Forall (fun ds =>
           exists region period loss db db' entries tech_suppliers,
             region ∈ regions self /\ period ∈ periods self
             /\ network_loss self !! region = Some loss
             /\ for_each (low_voltage_resolve self db region) entries []
                = Ok tech_suppliers
             /\ low_voltage_market self db' region
                  (Losses.transf_loss (Losses.low loss))
                  (Losses.distr_loss (Losses.low loss)) tech_suppliers
                  (filter (fun tech => is_residential_solar tech = true)
                     (variables self)) period = Ok ds) new.
Proof.
  unfold create_new_markets_low_voltage. intros H.
  apply bind_Ok in H as (entries & _ & H).
  revert H. apply region_loop. intros s region s' Hr Hs.
  unfold low_voltage_region in Hs.
  apply bind_Ok in Hs as (loss & Hloss & Hs). apply getitem_Ok in Hloss.
  apply bind_Ok in Hs as (ts & Hts & Hs).
  apply (period_loop (fun db period =>
           low_voltage_market self db region
             (Losses.transf_loss (Losses.low loss))
             (Losses.distr_loss (Losses.low loss)) ts
             (filter (fun tech => is_residential_solar tech = true)
                (variables self)) period)) in Hs as (new & Hd & _ & Hf).
  exists new. split; [exact Hd |].
  apply Forall2_Forall_exists in Hf.
  eapply Forall_impl; [exact Hf |]. simpl.
  intros ds (period & Hp & db' & Hm).
  exists region, period, loss, (database s), db', entries, ts. auto.
Qed.

(** The losses that [__init__] stores for a region are those that the
    loss model returns for the locations of the region. *)
Lemma init_network_loss_lookup (losses : gmap string (gmap string Q))
    (geo : string -> list string) (regions : list string)
    (network : gmap string Losses.network_loss) :
  init_network_loss losses geo regions = Ok network ->
  forall region loss,
    network !! region = Some loss ->
    Losses.get_production_weighted_losses losses (geo region) = Ok loss.
Proof.
  unfold init_network_loss.
  apply (for_each_inv (fun m : gmap string Losses.network_loss =>
           forall region loss, m !! region = Some loss ->
             Losses.get_production_weighted_losses losses (geo region) = Ok loss)).
  - intros m loc m' _ Hm H. apply bind_Ok in H as (l & Hl & [= <-]).
    intros region loss Hlook.
    apply lookup_insert_Some in Hlook as [[<- <-]|[_ Hlook]]; [exact Hl | eauto].
  - intros region loss Hlook. rewrite lookup_empty in Hlook. discriminate.
Qed.

Lemma for_each_Ok_each {A S} (body : S -> A -> result S) (l : list A)
    (s s' : S) :
  for_each body l s = Ok s' ->
  Forall (fun x => exists s1 s2, body s1 x = Ok s2) l.
Proof.
  revert s. induction l as [|x l IH]; intros s H; constructor.
  - rewrite for_each_cons in H. apply bind_Ok in H as (s1 & H1 & _). eauto.
  - rewrite for_each_cons in H. apply bind_Ok in H as (s1 & _ & H). eauto.
Qed.

(** The construction of the transformation fails when none of the
    locations of one of its regions is in the loss table. *)
Lemma init_network_loss_absent_region (losses : gmap string (gmap string Q))
    (geo : string -> list string) (regions : list string) (region : string) :
  region ∈ regions ->
  Forall (fun loc => losses !! loc = None) (geo region) ->
  ~ is_Ok (init_network_loss losses geo regions).
Proof.
  intros Hr Habs. unfold init_network_loss.
  destruct (for_each _ regions ∅) as [network|e] eqn:E; [| exact (fun H => H)].
  intros _. apply for_each_Ok_each in E. rewrite Forall_forall in E.
  destruct (E region Hr) as (m1 & m2 & H).
  unfold Losses.get_production_weighted_losses in H.
  destruct (high_step_absent losses (geo region) 0 0 Habs)
    as (c & t & E' & Hc & _).
  rewrite E' in H. simpl in H. rewrite (py_truediv_zero t c Hc) in H.
  discriminate.
Qed.

(** * The theorems at concrete inputs *)

Lemma losses_all_absent_raise_witness :
  Forall (fun loc => Scenario.loss_table !! loc = None) ["XX"; "YY"]
  /\ Losses.get_production_weighted_losses Scenario.loss_table ["XX"; "YY"]
     = Raise ZeroDivisionError.
Proof.
  assert (H : Forall (fun loc => Scenario.loss_table !! loc = None) ["XX"; "YY"])
    by (repeat constructor).
  split; [exact H |].
  exact (losses_all_absent_raise Scenario.loss_table ["XX"; "YY"] H).
Defined.

Lemma get_production_weighted_share_spec_witness :
  [Scenario.coal_DE; Scenario.coal_FR] <> []
  /\ get_production_weighted_share Scenario.EUR Scenario.coal_DE
       [Scenario.coal_DE; Scenario.coal_FR]
     = Ok (80 / (0 + 80 + 20)).
Proof.
  assert (H : [Scenario.coal_DE; Scenario.coal_FR] <> []) by discriminate.
  split; [exact H |].
  apply (proj1 (get_production_weighted_share_spec Scenario.EUR
                  Scenario.coal_DE [Scenario.coal_DE; Scenario.coal_FR] H)).
  vm_compute. discriminate.
Defined.

Lemma completed_allocation_sums_to_one_witness :
  exists tech_suppliers,
    for_each (high_voltage_resolve Scenario.EUR Scenario.inventory "EUR")
      [("Coal", ["electricity production, hard coal"])] []
    = Ok tech_suppliers
    /\ length (tech_suppliers_get tech_suppliers "Coal") = 2%nat
    /\ (tech_suppliers_get tech_suppliers "Coal" = []
        \/ py_sum (map snd (tech_suppliers_get tech_suppliers "Coal")) == 1).
Proof.
  assert (E : { ts | for_each
                       (high_voltage_resolve Scenario.EUR Scenario.inventory "EUR")
                       [("Coal", ["electricity production, hard coal"])] []
                     = Ok ts }).
  { eexists. vm_compute. reflexivity. }
  destruct E as [ts E]. exists ts. split; [exact E |].
  split.
  - revert E. vm_compute. intros [= <-]. reflexivity.
  - exact (proj2 (completed_allocation_sums_to_one Scenario.EUR) _ _ _ _
             (or_introl E) "Coal").
Defined.

Lemma low_voltage_exhaustion_raises_witness :
  consequential (Scenario.EUR_solar "consequential") = true
  /\ is_Some (network_loss (Scenario.EUR_solar "consequential") !! "EUR")
  /\ Exists (fun entry =>
         exhausted (Scenario.EUR_solar "consequential") Scenario.inventory
           "EUR" entry.2)
       [("Solar PV Residential", ["electricity production, photovoltaic"])]
  /\ low_voltage_region (Scenario.EUR_solar "consequential")
       ["Solar PV Residential"]
       [("Solar PV Residential", ["electricity production, photovoltaic"])]
       (State Scenario.inventory []) "EUR"
     = Raise IndexError.
Proof.
  assert (H1 : is_Some (network_loss (Scenario.EUR_solar "consequential") !! "EUR"))
    by (eexists; vm_compute; reflexivity).
  assert (H2 : Exists (fun entry =>
         exhausted (Scenario.EUR_solar "consequential") Scenario.inventory
           "EUR" entry.2)
       [("Solar PV Residential", ["electricity production, photovoltaic"])]).
  { left. unfold exhausted. repeat constructor. }
  split; [reflexivity |]. split; [exact H1 |]. split; [exact H2 |].
  exact (low_voltage_exhaustion_raises (Scenario.EUR_solar "consequential")
           ["Solar PV Residential"]
           [("Solar PV Residential", ["electricity production, photovoltaic"])]
           (State Scenario.inventory []) "EUR" H1 H2).
Defined.

(** The whole passes in the consequential mode, over an inventory without
    a photovoltaic plant and without a hydro plant: the low voltage
    builder raises, the high voltage builder skips hydro and creates its
    market. *)
Lemma consequential_passes :
  create_new_markets_low_voltage (Scenario.EUR_solar "consequential")
    (State Scenario.inventory []) = Raise IndexError
  /\ exists st,
       create_new_markets_high_voltage (Scenario.EUR_solar "consequential")
         (State [Scenario.coal_DE; Scenario.coal_FR] []) = Ok st
       /\ length (database st) = 3%nat.
Proof.
  split; [vm_compute; reflexivity |].
  eexists. split; [vm_compute; reflexivity | reflexivity].
Qed.



(** The installation of 3 kWp over 20 square meters needs 15 square
    meters once the efficiency of its panels is 0.2. *)
Lemma update_pv_installation :
  exists st ds exc,
    update_efficiency_of_solar_pv Scenario.EUR
      (State [Scenario.installation 20] []) = Ok st
    /\ database st = [ds]
    /\ filter (fun exc => is_panel_surface exc = true) (ds_exchanges ds) = [exc]
    /\ e_amount exc == 15.
Proof.
  eexists _, _, _. split; [vm_compute; reflexivity |].
  split; [reflexivity |]. split; [vm_compute; reflexivity | reflexivity].
Qed.

(** A surface of zero makes the pass raise. *)
Lemma update_pv_zero_surface :
  update_efficiency_of_solar_pv Scenario.EUR
    (State [Scenario.installation 0] []) = Raise ZeroDivisionError.
Proof. vm_compute. reflexivity. Qed.

(** The copy of the CHP plant for EUR: 0.6 kg of carbon dioxide per kWh
    of the grid, 2 kWh, 90% captured. *)
Lemma region_specific_chp :
  exists st new_plant,
    create_region_specific_power_plants (Scenario.plants_pass [])
      (State [Scenario.grid; Scenario.chp "RER"] []) = Ok st
    /\ database st = [Scenario.grid; Scenario.chp "RER"; new_plant]
    /\ Forall2 Qeq (map e_amount (ds_exchanges new_plant))
         [1; 2; 108 # 100; 108 # 100].
Proof.
  eexists _, _. split; [vm_compute; reflexivity |].
  split; [reflexivity |]. repeat constructor.
Qed.

(** * Further properties *)

(** ** The loss model *)

Section LossAverages.

Variable losses : gmap string (gmap string Q).

Lemma getitem_cell (dflt : gmap string Q) (locs : list string)
    (loc key : string) :
  dflt !! key = Some 0 -> key ∈ loss_columns ->
  complete_rows losses locs -> loc ∈ locs ->
  getitem (default dflt (losses !! loc)) key = Ok (cell losses key loc).
Proof.
  intros Hd Hkey Hrows Hloc. unfold getitem, cell.
  destruct (losses !! loc) as [row|] eqn:E; simpl.
  - destruct (Hrows loc row key Hloc E Hkey) as (v & ->). reflexivity.
  - now rewrite Hd.
Qed.

Lemma high_step_cell (locs : list string) (loc : string) (c t : Q) :
  complete_rows losses locs -> loc ∈ locs ->
  Losses.high_step losses (c, t) loc
  = Ok (c + cell losses "Production volume" loc,
        t + cell losses "Transformation loss high voltage" loc
            * cell losses "Production volume" loc).
Proof.
  intros Hrows Hloc. unfold Losses.high_step.
  rewrite (getitem_cell Losses.default_high locs loc
             "Transformation loss high voltage");
    [| reflexivity | compute_done | assumption | assumption].
  rewrite bind_ret_l.
  rewrite (getitem_cell Losses.default_high locs loc "Production volume");
    [| reflexivity | compute_done | assumption | assumption].
  reflexivity.
Qed.

Lemma tier_step_cell (tk dk : string) (dflt : gmap string Q)
    (locs : list string) (loc : string) (c t d : Q) :
  dflt !! tk = Some 0 -> dflt !! dk = Some 0 ->
  dflt !! "Production volume" = Some 0 ->
  tk ∈ loss_columns -> dk ∈ loss_columns ->
  complete_rows losses locs -> loc ∈ locs ->
  Losses.tier_step tk dk dflt losses (c, t, d) loc
  = Ok (c + cell losses "Production volume" loc,
        t + cell losses tk loc * cell losses "Production volume" loc,
        d + cell losses dk loc * cell losses "Production volume" loc).
Proof.
  intros Htk Hdk Hpv Ktk Kdk Hrows Hloc. unfold Losses.tier_step.
  rewrite (getitem_cell dflt locs loc tk) by assumption.
  rewrite bind_ret_l.
  rewrite (getitem_cell dflt locs loc "Production volume");
    [| assumption | compute_done | assumption | assumption].
  rewrite bind_ret_l.
  rewrite (getitem_cell dflt locs loc dk) by assumption.
  reflexivity.
Qed.

Lemma high_step_sums (locs : list string) (c t : Q) :
  complete_rows losses locs ->
  exists c' t',
    for_each (Losses.high_step losses) locs (c, t) = Ok (c', t')
    /\ c' == c + total_volume losses locs
    /\ t' == t + weighted losses "Transformation loss high voltage" locs.
Proof.
  revert c t. induction locs as [|loc locs IH]; intros c t Hrows.
  - exists c, t. unfold total_volume, weighted, py_sum. simpl.
    split; [reflexivity |]. split; lra.
  - rewrite for_each_cons,
      (high_step_cell (loc :: locs) loc c t Hrows (list_elem_of_here _ _)),
      bind_ret_l.
    destruct (IH (c + cell losses "Production volume" loc)
                (t + cell losses "Transformation loss high voltage" loc
                     * cell losses "Production volume" loc))
      as (c' & t' & -> & Hc & Ht).
    { intros l row key Hl. apply Hrows. now right. }
    exists c', t'. split; [reflexivity |].
    unfold total_volume, weighted in *. simpl map.
    rewrite !py_sum_cons. split; [rewrite Hc | rewrite Ht]; lra.
Qed.

Lemma tier_step_sums (tk dk : string) (dflt : gmap string Q)
    (locs : list string) (c t d : Q) :
  dflt !! tk = Some 0 -> dflt !! dk = Some 0 ->
  dflt !! "Production volume" = Some 0 ->
  tk ∈ loss_columns -> dk ∈ loss_columns ->
  complete_rows losses locs ->
  exists c' t' d',
    for_each (Losses.tier_step tk dk dflt losses) locs (c, t, d)
    = Ok (c', t', d')
    /\ c' == c + total_volume losses locs
    /\ t' == t + weighted losses tk locs
    /\ d' == d + weighted losses dk locs.
Proof.
  intros Htk Hdk Hpv Ktk Kdk. revert c t d.
  induction locs as [|loc locs IH]; intros c t d Hrows.
  - exists c, t, d. unfold total_volume, weighted, py_sum. simpl.
    split; [reflexivity |]. split; [lra |]. split; lra.
  - rewrite for_each_cons,
      (tier_step_cell tk dk dflt (loc :: locs) loc c t d Htk Hdk Hpv Ktk Kdk
         Hrows (list_elem_of_here _ _)), bind_ret_l.
    destruct (IH (c + cell losses "Production volume" loc)
                (t + cell losses tk loc * cell losses "Production volume" loc)
                (d + cell losses dk loc * cell losses "Production volume" loc))
      as (c' & t' & d' & -> & Hc & Ht & Hd).
    { intros l row key Hl. apply Hrows. now right. }
    exists c', t', d'. split; [reflexivity |].
    unfold total_volume, weighted in *. simpl map.
    rewrite !py_sum_cons.
    split; [rewrite Hc; lra |]. split; [rewrite Ht | rewrite Hd]; lra.
Qed.

Lemma tier_losses_average (tk dk : string) (dflt : gmap string Q)
    (locs : list string) :
  dflt !! tk = Some 0 -> dflt !! dk = Some 0 ->
  dflt !! "Production volume" = Some 0 ->
  tk ∈ loss_columns -> dk ∈ loss_columns ->
  complete_rows losses locs ->
  ~ total_volume losses locs == 0 ->
  exists r,
    Losses.tier_losses tk dk dflt losses locs = Ok r
    /\ Losses.transf_loss r
       == weighted losses tk locs / total_volume losses locs
    /\ Losses.distr_loss r
       == weighted losses dk locs / total_volume losses locs.
Proof.
  intros Htk Hdk Hpv Ktk Kdk Hrows Hv. unfold Losses.tier_losses.
  destruct (tier_step_sums tk dk dflt locs 0 0 0 Htk Hdk Hpv Ktk Kdk Hrows)
    as (c & t & d & -> & Hc & Ht & Hd).
  rewrite bind_ret_l.
  assert (Hcv : ~ c == 0) by (rewrite Hc; lra).
  rewrite !py_truediv_Ok, !bind_ret_l by assumption.
  eexists. split; [reflexivity |]. simpl.
  split; [rewrite Ht, Hc | rewrite Hd, Hc]; field; lra.
Qed.

(** X1.  Over rows that have every column, and when the production
    volume of the locations is not zero, each loss fraction that the
    function returns is the average of its column weighted by the
    production volumes, locations without a row counting for nothing. *)
Theorem losses_weighted_average (locs : list string) :
  complete_rows losses locs ->
  ~ total_volume losses locs == 0 ->
  exists r,
    Losses.get_production_weighted_losses losses locs = Ok r
    /\ Losses.transf_loss (Losses.high r)
       == weighted losses "Transformation loss high voltage" locs
          / total_volume losses locs
    /\ Losses.distr_loss (Losses.high r) = 0
    /\ Losses.transf_loss (Losses.medium r)
       == weighted losses "Transformation loss medium voltage" locs
          / total_volume losses locs
    /\ Losses.distr_loss (Losses.medium r)
       == weighted losses "Transmission loss to medium voltage" locs
          / total_volume losses locs
    /\ Losses.transf_loss (Losses.low r)
       == weighted losses "Transformation loss low voltage" locs
          / total_volume losses locs
    /\ Losses.distr_loss (Losses.low r)
       == weighted losses "Transmission loss to low voltage" locs
          / total_volume losses locs.
Proof.
  intros Hrows Hv. unfold Losses.get_production_weighted_losses.
  destruct (high_step_sums locs 0 0 Hrows) as (c & t & -> & Hc & Ht).
  rewrite bind_ret_l.
  assert (Hcv : ~ c == 0) by (rewrite Hc; lra).
  rewrite py_truediv_Ok, bind_ret_l by assumption. cbv zeta.
  destruct (tier_losses_average "Transformation loss medium voltage"
              "Transmission loss to medium voltage" Losses.default_medium locs)
    as (m & -> & Hm1 & Hm2);
    [reflexivity | reflexivity | reflexivity | compute_done | compute_done
    | assumption | assumption |].
  rewrite bind_ret_l.
  destruct (tier_losses_average "Transformation loss low voltage"
              "Transmission loss to low voltage" Losses.default_low locs)
    as (l & -> & Hl1 & Hl2);
    [reflexivity | reflexivity | reflexivity | compute_done | compute_done
    | assumption | assumption |].
  rewrite bind_ret_l. eexists. split; [reflexivity |]. simpl.
  split; [rewrite Ht, Hc; field; lra |].
  split; [reflexivity |]. auto.
Qed.

End LossAverages.

Section LossBounds.

Variable losses : gmap string (gmap string Q).

Lemma for_each_Raise {A S} (P : exn -> Prop) (body : S -> A -> result S)
    (l : list A) :
  (forall s x e, x ∈ l -> body s x = Raise e -> P e) ->
  forall s e, for_each body l s = Raise e -> P e.
Proof.
  induction l as [|x l IH]; intros Hstep s e H; simpl in H; [discriminate |].
  destruct (body s x) as [s1|e1] eqn:E; simpl in H.
  - apply (IH (fun s x e Hx => Hstep s x e (list_elem_of_further _ _ _ Hx)) s1 e H).
  - injection H as <-. apply (Hstep s x e1); [left | assumption].
Qed.

Lemma getitem_Raise {V} (d : gmap string V) (k : string) (e : exn) :
  getitem d k = Raise e -> e = KeyError k.
Proof. unfold getitem. destruct (d !! k); congruence. Qed.

Lemma getitem_volume (dflt : gmap string Q) (loc : string) (p : Q) :
  dflt !! "Production volume" = Some 0 ->
  getitem (default dflt (losses !! loc)) "Production volume" = Ok p ->
  p = cell losses "Production volume" loc.
Proof.
  intros Hd H. apply getitem_Ok in H. unfold cell.
  destruct (losses !! loc) as [row|]; simpl in *.
  - now rewrite H.
  - congruence.
Qed.

Lemma high_step_Raise (acc : Q * Q) (loc : string) (e : exn) :
  Losses.high_step losses acc loc = Raise e ->
  exists k, e = KeyError k /\ k ∈ loss_columns.
Proof.
  destruct acc as [c t]. unfold Losses.high_step. intros H.
  destruct (getitem _ "Transformation loss high voltage") as [a|e1] eqn:E1;
    simpl in H.
  - destruct (getitem _ "Production volume") as [p|e2] eqn:E2; simpl in H;
      [discriminate |].
    injection H as <-. apply getitem_Raise in E2 as ->.
    eexists. split; [reflexivity | compute_done].
  - injection H as <-. apply getitem_Raise in E1 as ->.
    eexists. split; [reflexivity | compute_done].
Qed.

Lemma tier_step_Raise (tk dk : string) (dflt : gmap string Q)
    (acc : Q * Q * Q) (loc : string) (e : exn) :
  tk ∈ loss_columns -> dk ∈ loss_columns ->
  Losses.tier_step tk dk dflt losses acc loc = Raise e ->
  exists k, e = KeyError k /\ k ∈ loss_columns.
Proof.
  destruct acc as [[c t] d]. unfold Losses.tier_step. intros Ktk Kdk H.
  destruct (getitem _ tk) as [a|e1] eqn:E1; simpl in H.
  - destruct (getitem _ "Production volume") as [p|e2] eqn:E2; simpl in H.
    + destruct (getitem _ dk) as [b|e3] eqn:E3; simpl in H; [discriminate |].
      injection H as <-. apply getitem_Raise in E3 as ->. eauto.
    + injection H as <-. apply getitem_Raise in E2 as ->.
      eexists. split; [reflexivity | compute_done].
  - injection H as <-. apply getitem_Raise in E1 as ->. eauto.
Qed.

Lemma high_loop_volume (locs : list string) (c t c' t' : Q) :
  for_each (Losses.high_step losses) locs (c, t) = Ok (c', t') ->
  c' == c + total_volume losses locs.
Proof.
  revert c t. induction locs as [|loc locs IH]; intros c t H.
  - injection H as <- <-. unfold total_volume, py_sum. simpl. lra.
  - rewrite for_each_cons in H. apply bind_Ok in H as ([c1 t1] & H1 & H).
    unfold Losses.high_step in H1.
    apply bind_Ok in H1 as (a & _ & H1). apply bind_Ok in H1 as (p & Hp & H1).
    injection H1 as <- <-.
    apply (getitem_volume Losses.default_high) in Hp as ->; [| reflexivity].
    apply IH in H. unfold total_volume in *. simpl map.
    rewrite py_sum_cons, H. lra.
Qed.

Lemma tier_loop_volume (tk dk : string) (dflt : gmap string Q)
    (locs : list string) (c t d c' t' d' : Q) :
  dflt !! "Production volume" = Some 0 ->
  for_each (Losses.tier_step tk dk dflt losses) locs (c, t, d)
  = Ok (c', t', d') ->
  c' == c + total_volume losses locs.
Proof.
  intros Hd. revert c t d. induction locs as [|loc locs IH]; intros c t d H.
  - injection H as <- <- <-. unfold total_volume, py_sum. simpl. lra.
  - rewrite for_each_cons in H. apply bind_Ok in H as ([[c1 t1] d1] & H1 & H).
    unfold Losses.tier_step in H1.
    apply bind_Ok in H1 as (a & _ & H1). apply bind_Ok in H1 as (p & Hp & H1).
    apply bind_Ok in H1 as (b & _ & H1).
    injection H1 as <- <- <-.
    apply (getitem_volume dflt) in Hp as ->; [| assumption].
    apply IH in H. unfold total_volume in *. simpl map.
    rewrite py_sum_cons, H. lra.
Qed.

(** A tier whose loop completes over a nonzero volume returns; the loop
    itself raises nothing but the [KeyError] of a column. *)
Lemma tier_losses_Raise (tk dk : string) (dflt : gmap string Q)
    (locs : list string) (e : exn) :
  dflt !! "Production volume" = Some 0 ->
  tk ∈ loss_columns -> dk ∈ loss_columns ->
  ~ total_volume losses locs == 0 ->
  Losses.tier_losses tk dk dflt losses locs = Raise e ->
  exists k, e = KeyError k /\ k ∈ loss_columns.
Proof.
  intros Hd Ktk Kdk Hv H. unfold Losses.tier_losses in H.
  destruct (for_each _ locs (0, 0, 0)) as [[[c t] d]|e1] eqn:E; simpl in H.
  - apply (tier_loop_volume tk dk dflt) in E; [| assumption].
    assert (Hc : ~ c == 0) by (rewrite E; lra).
    rewrite !py_truediv_Ok in H by assumption. discriminate.
  - injection H as <-. revert E.
    apply (for_each_Raise (fun e => exists k, e = KeyError k /\ k ∈ loss_columns)).
    intros s x e _. now apply tier_step_Raise.
Qed.

(** X3.  A row of the table that lacks one of the columns makes the
    function raise: the zero record stands in for a location without a
    row, not for a column missing in a row.  The exception is the
    [KeyError] of a column or the [ZeroDivisionError] of the first
    division, which comes before the second and third loops read their
    columns; it is a [KeyError] when the column is one that the first
    loop reads (the high-voltage transformation loss or the production
    volume) and when the production volumes of the locations do not sum
    to zero. *)
Theorem losses_missing_column_raises (locs : list string)
    (loc key : string) (row : gmap string Q) :
  loc ∈ locs -> losses !! loc = Some row -> key ∈ loss_columns ->
  row !! key = None ->
  exists e,
    Losses.get_production_weighted_losses losses locs = Raise e
    /\ (e = ZeroDivisionError \/ exists k, e = KeyError k /\ k ∈ loss_columns)
    /\ (key = "Transformation loss high voltage" \/ key = "Production volume"
        \/ ~ total_volume losses locs == 0 ->
        exists k, e = KeyError k /\ k ∈ loss_columns).
Proof.
  intros Hloc Hrow Hkey Hnone.
  destruct (Losses.get_production_weighted_losses losses locs) as [r|e] eqn:H.
  { exfalso. unfold Losses.get_production_weighted_losses in H.
    apply bind_Ok in H as ([c t] & Hhigh & H).
    apply bind_Ok in H as (x & _ & H).
    apply bind_Ok in H as (m & Hm & H). apply bind_Ok in H as (l & Hl & _).
    unfold Losses.tier_losses in Hm, Hl.
    apply bind_Ok in Hm as (sm & Hm & _). apply bind_Ok in Hl as (sl & Hl & _).
    apply for_each_Ok_each in Hhigh, Hm, Hl.
    rewrite Forall_forall in Hhigh, Hm, Hl.
    destruct (Hhigh loc Hloc) as ([c1 t1] & s2 & E1).
    destruct (Hm loc Hloc) as ([[c2 t2] d2] & s3 & E2).
    destruct (Hl loc Hloc) as ([[c3 t3] d3] & s4 & E3).
    unfold Losses.high_step in E1. unfold Losses.tier_step in E2, E3.
    rewrite Hrow in E1, E2, E3. cbn [default] in E1, E2, E3.
    apply bind_Ok in E1 as (a1 & A1 & E1). apply bind_Ok in E1 as (p1 & P1 & _).
    apply bind_Ok in E2 as (a2 & A2 & E2). apply bind_Ok in E2 as (p2 & _ & E2).
    apply bind_Ok in E2 as (b2 & B2 & _).
    apply bind_Ok in E3 as (a3 & A3 & E3). apply bind_Ok in E3 as (p3 & _ & E3).
    apply bind_Ok in E3 as (b3 & B3 & _).
    apply getitem_Ok in A1, P1, A2, B2, A3, B3.
    unfold id in A1, P1, A2, B2, A3, B3.
    apply list_elem_of_In in Hkey. simpl in Hkey.
    destruct Hkey as [<-|[<-|[<-|[<-|[<-|[<-|[]]]]]]]; congruence. }
  exists e. split; [reflexivity |].
  unfold Losses.get_production_weighted_losses in H.
  destruct (for_each (Losses.high_step losses) locs (0, 0)) as [[c t]|e1] eqn:E;
    simpl in H.
  2:{ injection H as <-.
      assert (K : exists k, e1 = KeyError k /\ k ∈ loss_columns).
      { revert E.
        apply (for_each_Raise
                 (fun e => exists k, e = KeyError k /\ k ∈ loss_columns)).
        intros s x e _. apply high_step_Raise. }
      split; [now right | intros _; exact K]. }
  pose proof (high_loop_volume locs 0 0 c t E) as Hc.
  pose proof (for_each_Ok_each _ _ _ _ E) as Hhigh.
  rewrite Forall_forall in Hhigh.
  destruct (Hhigh loc Hloc) as ([c1 t1] & s2 & E1).
  unfold Losses.high_step in E1. rewrite Hrow in E1. cbn [default] in E1.
  apply bind_Ok in E1 as (a1 & A1 & E1). apply bind_Ok in E1 as (p1 & P1 & _).
  apply getitem_Ok in A1, P1. unfold id in A1, P1.
  destruct (Qeq_dec (total_volume losses locs) 0) as [Hz|Hv].
  - rewrite py_truediv_zero in H by (rewrite Hc, Hz; lra).
    injection H as <-. split; [now left |].
    intros [->|[->|Hn]]; [congruence | congruence | now destruct Hn].
  - rewrite py_truediv_Ok in H by (rewrite Hc; lra). simpl in H.
    assert (K : exists k, e = KeyError k /\ k ∈ loss_columns).
    { destruct (Losses.tier_losses "Transformation loss medium voltage" _ _ _ _)
        as [m|e2] eqn:Em; simpl in H.
      - destruct (Losses.tier_losses "Transformation loss low voltage" _ _ _ _)
          as [l|e3] eqn:El; simpl in H; [discriminate |].
        injection H as <-. revert El.
        apply tier_losses_Raise; [reflexivity | compute_done | compute_done | assumption].
      - injection H as <-. revert Em.
        apply tier_losses_Raise; [reflexivity | compute_done | compute_done | assumption]. }
    split; [now right | intros _; exact K].
Qed.

End LossBounds.

(** X4.  When the construction computes the losses of the regions, the
    dictionary it stores has an entry for each region and for nothing
    else, and the entry of a region is what the loss model returns for
    the locations of the region. *)
Theorem init_network_loss_entries (losses : gmap string (gmap string Q))
    (geo : string -> list string) (regions : list string)
    (network : gmap string Losses.network_loss) :
  init_network_loss losses geo regions = Ok network ->
  forall region,
    (is_Some (network !! region) <-> region ∈ regions)
    /\ forall loss,
         network !! region = Some loss ->
         Losses.get_production_weighted_losses losses (geo region) = Ok loss.
Proof.
  intros H region. split; [| intros loss; now apply (init_network_loss_lookup losses geo regions)].
  unfold init_network_loss in H.
  assert (G : forall m0 m : gmap string Losses.network_loss,
    for_each (fun m loc =>
        l ← Losses.get_production_weighted_losses losses (geo loc);
        Ok (<[loc := l]> m)) regions m0 = Ok m ->
    (is_Some (m !! region) <-> is_Some (m0 !! region) \/ region ∈ regions)).
  { clear H. induction regions as [|r rs IH]; intros m0 m Hm.
    - injection Hm as <-. split; [auto | intros [?|Hin]; [assumption | inversion Hin]].
    - rewrite for_each_cons in Hm. apply bind_Ok in Hm as (m1 & Hm1 & Hm).
      apply bind_Ok in Hm1 as (l & _ & [= <-]).
      rewrite (IH _ _ Hm), lookup_insert_is_Some, elem_of_cons.
      destruct (decide (r = region)) as [->|Hne]; [tauto |].
      split; [intros [[?|[_ ?]]|?]; auto; congruence | intros [?|[?|?]]; auto; congruence]. }
  rewrite (G ∅ network H), lookup_empty. split; [intros [[? [=]]|?]; assumption | auto].
Qed.

(** *** The loss model at concrete inputs *)

Lemma loss_row_lookup (th tm dm tl dl volume : Q) (key : string) (v : Q) :
  Cases.loss_row th tm dm tl dl volume !! key = Some v ->
  (key <> "Production volume" /\ In v [th; tm; dm; tl; dl])
  \/ (key = "Production volume" /\ v = volume).
Proof.
  unfold Cases.loss_row. intros H.
  repeat (apply lookup_insert_Some in H as [[<- <-]|[_ H]];
          [left; split; [discriminate | simpl; tauto] |]).
  apply lookup_singleton_Some in H as [<- <-]. right. split; reflexivity.
Qed.

Lemma table_lookup (loc : string) (row : gmap string Q) :
  Cases.table !! loc = Some row ->
  row = Cases.loss_row (1 # 100) (2 # 100) (5 # 100) (3 # 100) (4 # 100) 300
  \/ row = Cases.loss_row (3 # 100) (4 # 100) (1 # 100) (5 # 100) (8 # 100) 100.
Proof.
  unfold Cases.table. intros H.
  apply lookup_insert_Some in H as [[_ <-]|[_ H]]; [now left |].
  apply lookup_singleton_Some in H as [_ <-]. now right.
Qed.

Lemma table_complete (locs : list string) : complete_rows Cases.table locs.
Proof.
  intros loc row key _ Hrow Hkey.
  apply list_elem_of_In in Hkey. simpl in Hkey.
  apply table_lookup in Hrow as [->| ->];
    destruct Hkey as [<-|[<-|[<-|[<-|[<-|[<-|[]]]]]]];
    eexists; vm_compute; reflexivity.
Qed.

Lemma table_nonneg (locs : list string) : nonneg_rows Cases.table locs.
Proof.
  intros loc row key v _ Hrow Hv.
  apply table_lookup in Hrow as [->| ->];
    apply loss_row_lookup in Hv as [[_ Hv]|[_ ->]];
    try (unfold Qle; simpl; lia); simpl in Hv;
    repeat (destruct Hv as [<-|Hv]; [unfold Qle; simpl; lia |]);
    destruct Hv.
Qed.

Lemma losses_weighted_average_witness :
  exists r,
    Losses.get_production_weighted_losses Cases.table ["DE"; "FR"; "XX"] = Ok r
    /\ Losses.transf_loss (Losses.high r) == 15 # 1000
    /\ Losses.distr_loss (Losses.medium r) == 4 # 100.
Proof.
  assert (Hn : ~ total_volume Cases.table ["DE"; "FR"; "XX"] == 0)
    by (vm_compute; discriminate).
  destruct (losses_weighted_average Cases.table ["DE"; "FR"; "XX"]
              (table_complete _) Hn) as (r & Hr & Hh & _ & _ & Hd & _).
  exists r. split; [exact Hr |]. split.
  - apply (Qeq_trans _ _ _ Hh). vm_compute. reflexivity.
  - apply (Qeq_trans _ _ _ Hd). vm_compute. reflexivity.
Defined.

Lemma losses_missing_column_raises_witness :
  exists e,
    Losses.get_production_weighted_losses Cases.short_table ["FR"; "IT"]
    = Raise e
    /\ (e = ZeroDivisionError \/ exists k, e = KeyError k /\ k ∈ loss_columns)
    /\ ("Production volume" = "Transformation loss high voltage"
        \/ "Production volume" = "Production volume"
        \/ ~ total_volume Cases.short_table ["FR"; "IT"] == 0 ->
        exists k, e = KeyError k /\ k ∈ loss_columns).
Proof.
  apply (losses_missing_column_raises Cases.short_table ["FR"; "IT"] "IT"
           "Production volume" {[ "Transformation loss high voltage" := 1 # 100 ]}).
  - compute_done.
  - vm_compute. reflexivity.
  - compute_done.
  - vm_compute. reflexivity.
Defined.

Lemma init_network_loss_entries_witness :
  is_Some (Cases.network !! "WEU")
  /\ ~ is_Some (Cases.network !! "DE")
  /\ forall loss,
       Cases.network !! "EUR" = Some loss ->
       Losses.get_production_weighted_losses Cases.table ["DE"; "FR"; "XX"]
       = Ok loss.
Proof.
  assert (H : init_network_loss Cases.table Cases.locations_of ["EUR"; "WEU"]
              = Ok Cases.network) by (vm_compute; reflexivity).
  pose proof (init_network_loss_entries Cases.table Cases.locations_of
                ["EUR"; "WEU"] Cases.network H) as G.
  split; [| split].
  - apply (proj1 (G "WEU")). compute_done.
  - intros Hs. apply (proj1 (G "DE")) in Hs. revert Hs. compute_done.
  - exact (proj2 (G "EUR")).
Defined.

(** ** The index of production volumes *)

Lemma fold_left_concat_map {A B S} (f : S -> B -> S) (g : A -> list B)
    (l : list A) (s : S) :
  fold_left (fun s x => fold_left f (g x) s) l s
  = fold_left f (concat (map g l)) s.
Proof.
  revert s. induction l as [|x l IH]; intros s; simpl.
  - reflexivity.
  - now rewrite fold_left_app, IH.
Qed.

Lemma fold_left_ext_eq {A S} (f g : S -> A -> S) (l : list A) (s : S) :
  (forall s x, f s x = g s x) -> fold_left f l s = fold_left g l s.
Proof.
  intros H. revert s. induction l as [|x l IH]; intros s; simpl.
  - reflexivity.
  - now rewrite H, IH.
Qed.

Section Inserts.

Context {K V : Type} `{Countable K}.

Lemma assign_all_Some (l : list (K * V)) (m : gmap K V) (k : K) (v : V) :
  assign_all l m !! k = Some v -> (k, v) ∈ l \/ m !! k = Some v.
Proof.
  revert m. induction l as [|[k0 v0] l IH]; intros m Hl; simpl in Hl.
  - now right.
  - apply IH in Hl as [Hl|Hl]; [left; now right |].
    apply lookup_insert_Some in Hl as [[<- <-]|[_ Hl]]; [left; left | now right].
Qed.

Lemma assign_all_is_Some (l : list (K * V)) (m : gmap K V) (k : K) :
  k ∈ map fst l \/ is_Some (m !! k) -> is_Some (assign_all l m !! k).
Proof.
  revert m. induction l as [|[k0 v0] l IH]; intros m Hk; simpl in *.
  - destruct Hk as [Hk|Hk]; [inversion Hk | exact Hk].
  - apply IH. destruct Hk as [Hk|Hk].
    + apply elem_of_cons in Hk as [->|Hk]; [right | now left].
      rewrite lookup_insert_is_Some. now left.
    + right. rewrite lookup_insert_is_Some.
      destruct (decide (k0 = k)); [now left | right; now split].
Qed.

Lemma fold_left_assign {A} (k : K) (h : A -> V) (l : list A) (m : gmap K V) :
  fold_left (fun m x => <[k := h x]> m) l m
  = assign_all (map (fun x => (k, h x)) l) m.
Proof.
  revert m. induction l as [|x l IH]; intros m; simpl; [reflexivity | apply IH].
Qed.

End Inserts.

Lemma get_production_per_tech_dict_entries (values : list (list string))
    (db : list dataset) :
  get_production_per_tech_dict values db
  = assign_all (index_entries values db) ∅.
Proof.
  unfold get_production_per_tech_dict, index_entries, assign_all.
  rewrite <- fold_left_concat_map. apply fold_left_ext_eq. intros m names.
  rewrite <- fold_left_concat_map. apply fold_left_ext_eq. clear m. intros m name.
  rewrite <- fold_left_concat_map. apply fold_left_ext_eq. clear m. intros m ds.
  apply fold_left_assign.
Qed.

Lemma elem_of_index_entries (values : list (list string)) (db : list dataset)
    (key : string * string) (v : Q) :
  (key, v) ∈ index_entries values db <->
  exists names ds exc,
    names ∈ values /\ ds_name ds ∈ names /\ ds ∈ db
    /\ key = (ds_name ds, ds_location ds)
    /\ exc ∈ ws.of_type production ds /\ v = production_volume_of exc.
Proof.
  unfold index_entries. split.
  - intros H.
    apply list_elem_of_In, in_concat in H as (l1 & H1 & H).
    apply in_map_iff in H1 as (names & <- & Hnames).
    apply in_concat in H as (l2 & H2 & H).
    apply in_map_iff in H2 as (name & <- & Hname).
    apply in_concat in H as (l3 & H3 & H).
    apply in_map_iff in H3 as (ds & <- & Hds).
    apply in_map_iff in H as (exc & [= <- <-] & Hexc).
    apply list_elem_of_In in Hnames, Hname, Hds, Hexc.
    apply list_elem_of_filter in Hds as [Hn Hds].
    apply String.eqb_eq in Hn. subst name.
    exists names, ds, exc. auto 10.
  - intros (names & ds & exc & Hnames & Hname & Hds & -> & Hexc & ->).
    apply list_elem_of_In, in_concat. eexists. split.
    { apply in_map_iff. exists names. split; [reflexivity |].
      now apply list_elem_of_In. }
    apply in_concat. eexists. split.
    { apply in_map_iff. exists (ds_name ds). split; [reflexivity |].
      now apply list_elem_of_In. }
    apply in_concat. eexists. split.
    { apply in_map_iff. exists ds. split; [reflexivity |].
      apply list_elem_of_In, list_elem_of_filter. split; [| assumption].
      apply String.eqb_refl. }
    apply in_map_iff. exists exc. split; [reflexivity |].
    now apply list_elem_of_In.
Qed.

Lemma production_volume_of_floor (exc : exchange) :
  1 # 1000000000 <= production_volume_of exc.
Proof. unfold production_volume_of. apply Q.le_max_r. Qed.

Lemma index_positive (values : list (list string)) (db : list dataset)
    (key : string * string) (v : Q) :
  get_production_per_tech_dict values db !! key = Some v -> 0 < v.
Proof.
  rewrite get_production_per_tech_dict_entries. intros H.
  apply assign_all_Some in H as [H|H]; [| now rewrite lookup_empty in H].
  apply elem_of_index_entries in H as (_ & _ & exc & _ & _ & _ & _ & _ & ->).
  pose proof (production_volume_of_floor exc). lra.
Qed.

(** X5.  The index of production volumes has an entry for a name and a
    location exactly when the database has a dataset with that name and
    location, named in the powerplant map, that has a production
    exchange; the value of an entry is the production volume of such an
    exchange, raised to the floor of 1e-9 and so never zero. *)
Theorem production_index_entries (values : list (list string))
    (db : list dataset) (name location : string) :
  let index := get_production_per_tech_dict values db in
  (is_Some (index !! (name, location)) <->
   exists names ds,
     names ∈ values /\ name ∈ names /\ ds ∈ db
     /\ ds_name ds = name /\ ds_location ds = location
     /\ ws.of_type production ds <> [])
  /\ forall v,
       index !! (name, location) = Some v ->
       1 # 1000000000 <= v
       /\ exists ds exc,
            ds ∈ db /\ ds_name ds = name /\ ds_location ds = location
            /\ exc ∈ ws.of_type production ds
            /\ v = Qmax (default (1 # 1000000000) (e_production_volume exc))
                     (1 # 1000000000).
Proof.
  intros index. subst index. rewrite get_production_per_tech_dict_entries.
  split; [split |].
  - intros [v Hv].
    apply assign_all_Some in Hv as [Hv|Hv]; [| now rewrite lookup_empty in Hv].
    apply elem_of_index_entries
      in Hv as (names & ds & exc & Hn & Hname & Hds & [= -> ->] & Hexc & _).
    exists names, ds. repeat (split; [assumption || reflexivity |]).
    intros E. rewrite E in Hexc. inversion Hexc.
  - intros (names & ds & Hn & Hname & Hds & <- & <- & Hne).
    apply assign_all_is_Some. left.
    destruct (ws.of_type production ds) as [|exc l] eqn:E; [congruence |].
    apply list_elem_of_fmap.
    exists ((ds_name ds, ds_location ds), production_volume_of exc).
    split; [reflexivity |].
    apply elem_of_index_entries. exists names, ds, exc.
    rewrite E. repeat (split; [assumption || reflexivity |]).
    split; [left | reflexivity].
  - intros v Hv.
    apply assign_all_Some in Hv as [Hv|Hv]; [| now rewrite lookup_empty in Hv].
    apply elem_of_index_entries
      in Hv as (names & ds & exc & Hn & Hname & Hds & [= -> ->] & Hexc & ->).
    split; [apply production_volume_of_floor |].
    exists ds, exc. auto.
Qed.

(** ** The filter on production volumes over the index *)

Lemma filter_result_pure {A} (p : A -> result bool) (g : A -> bool)
    (l k : list A) :
  (forall x, x ∈ l -> p x = Ok (g x)) ->
  filter_result p l = Ok (filter (fun x => g x = true) l).
Proof.
  induction l as [|x l IH]; intros Hp; simpl.
  - reflexivity.
  - rewrite (Hp x) by left. rewrite bind_ret_l.
    rewrite IH by (intros y Hy; apply Hp; now right). rewrite bind_ret_l.
    destruct (g x) eqn:E.
    + now rewrite filter_cons_True.
    + rewrite filter_cons_False; [reflexivity | congruence].
Qed.

Section IndexedSuppliers.

Variable self : Electricity.
Variable values : list (list string).
Variable db : list dataset.
Hypothesis built :
  production_per_tech self = get_production_per_tech_dict values db.

Lemma indexed_volume_cases (ds : dataset) :
  (indexed self ds = true /\ 0 < indexed_volume self ds)
  \/ (indexed self ds = false /\ indexed_volume self ds = 0).
Proof.
  unfold indexed, indexed_volume.
  destruct (production_per_tech self !! (ds_name ds, ds_location ds))
    as [v|] eqn:E.
  - left. split; [apply bool_decide_eq_true; eauto |]. simpl.
    rewrite built in E. exact (index_positive _ _ _ _ E).
  - right. split; [| reflexivity].
    apply bool_decide_eq_false. intros [v Hv]. discriminate.
Qed.

Lemma indexed_volume_nonneg (ds : dataset) : 0 <= indexed_volume self ds.
Proof.
  destruct (indexed_volume_cases ds) as [[_ H]|[_ ->]]; lra.
Qed.

Lemma total_volume_cases (suppliers : list dataset) :
  (existsb (indexed self) suppliers = true
   /\ 0 < py_sum (map (indexed_volume self) suppliers))
  \/ (existsb (indexed self) suppliers = false
      /\ py_sum (map (indexed_volume self) suppliers) == 0).
Proof.
  induction suppliers as [|s l IH]; simpl.
  - right. split; reflexivity.
  - rewrite py_sum_cons.
    assert (0 <= py_sum (map (indexed_volume self) l)).
    { apply py_sum_nonneg, Forall_fmap, Forall_forall. intros x _.
      apply indexed_volume_nonneg. }
    destruct (indexed_volume_cases s) as [[-> Hs]|[-> Hs]]; simpl.
    + left. split; [reflexivity | lra].
    + rewrite Hs. destruct IH as [[-> IH]|[-> IH]]; [left | right];
        (split; [reflexivity | lra]).
Qed.

(** X6.  Over the index that the construction builds, the filter on
    production volumes keeps the suppliers that have an entry in the
    index, in their order, when one of them has; when none has, it keeps
    them all.  It never raises. *)
Theorem check_for_production_volume_indexed (suppliers : list dataset) :
  check_for_production_volume self suppliers
  = Ok (if existsb (indexed self) suppliers
        then filter (fun s => indexed self s = true) suppliers
        else suppliers).
Proof.
  unfold check_for_production_volume.
  destruct (total_volume_cases suppliers) as [[-> Htot]|[-> Htot]].
  - apply (filter_result_pure _ (indexed self) suppliers suppliers).
    intros s _. rewrite share_of_nonzero_total by lra. rewrite bind_ret_l.
    f_equal. unfold Qneb.
    destruct (indexed_volume_cases s) as [[-> Hs]|[-> Hs]].
    + apply negb_true_iff, Qeq_bool_false. intros E.
      assert (0 < indexed_volume self s
                  / py_sum (map (indexed_volume self) suppliers))
        by (apply Qlt_shift_div_l; lra).
      lra.
    + rewrite Hs. apply negb_false_iff, Qeq_bool_iff. unfold Qdiv. lra.
  - destruct suppliers as [|s0 l0] eqn:El; [reflexivity |]. rewrite <- El in *.
    assert (Hne : suppliers <> []) by (rewrite El; discriminate).
    rewrite (filter_result_pure _ (fun _ => true) suppliers suppliers).
    + f_equal. clear. induction suppliers as [|x l IH]; [reflexivity |].
      rewrite filter_cons_True by reflexivity. now rewrite IH.
    + intros s _. rewrite share_of_zero_total by assumption.
      rewrite bind_ret_l. f_equal. unfold Qneb.
      apply negb_true_iff, Qeq_bool_false. intros E.
      assert (0 < inject_Z (Z.of_nat (length suppliers))).
      { rewrite El. unfold Qlt. simpl. lia. }
      assert (0 < 1 / inject_Z (Z.of_nat (length suppliers)))
        by (apply Qlt_shift_div_l; lra).
      lra.
Qed.

End IndexedSuppliers.

Lemma check_for_production_volume_indexed_witness :
  check_for_production_volume
    (Cases.indexed_over [["electricity production, hard coal"]]
       Scenario.inventory)
    [ Scenario.coal_DE; Scenario.plant "electricity production, hard coal" "IT" 5;
      Scenario.coal_FR ]
  = Ok [Scenario.coal_DE; Scenario.coal_FR].
Proof.
  rewrite (check_for_production_volume_indexed
             (Cases.indexed_over [["electricity production, hard coal"]]
                Scenario.inventory)
             [["electricity production, hard coal"]] Scenario.inventory
             eq_refl).
  vm_compute. reflexivity.
Defined.

(** ** The reverse of the powerplant map *)

Lemma reverse_powerplant_map_entries (items : list (string * list string)) :
  reverse_powerplant_map items
  = assign_all
      (concat (map (fun kv => map (fun pp => (pp, kv.1)) kv.2) items)) ∅.
Proof.
  unfold reverse_powerplant_map, assign_all.
  rewrite <- fold_left_concat_map. apply fold_left_ext_eq. intros m [k v].
  simpl. generalize m. induction v as [|pp v IH]; intros m0; simpl; auto.
Qed.

Lemma elem_of_reverse_entries (items : list (string * list string))
    (pp k : string) :
  (pp, k) ∈ concat (map (fun kv => map (fun pp => (pp, kv.1)) kv.2) items)
  <-> exists v, (k, v) ∈ items /\ pp ∈ v.
Proof.
  split.
  - intros H. apply list_elem_of_In, in_concat in H as (l & Hl & H).
    apply in_map_iff in Hl as ([k0 v] & <- & Hkv).
    apply in_map_iff in H as (pp0 & [= <- <-] & Hpp).
    exists v. split; now apply list_elem_of_In.
  - intros (v & Hkv & Hpp). apply list_elem_of_In, in_concat.
    eexists. split.
    + apply in_map_iff. exists (k, v). split; [reflexivity |].
      now apply list_elem_of_In.
    + apply in_map_iff. exists pp. split; [reflexivity |].
      now apply list_elem_of_In.
Qed.

(** X7.  The reverse of the powerplant map sends the name of a dataset to
    a technology of the map that lists it, and every name that the map
    lists has such an entry; when the name is listed under one technology
    only, the entry is that technology. *)
Theorem reverse_powerplant_map_spec (items : list (string * list string))
    (pp : string) :
  (forall k,
     reverse_powerplant_map items !! pp = Some k ->
     exists v, (k, v) ∈ items /\ pp ∈ v)
  /\ ((exists k v, (k, v) ∈ items /\ pp ∈ v) ->
      is_Some (reverse_powerplant_map items !! pp))
  /\ forall k v,
       (k, v) ∈ items -> pp ∈ v ->
       (forall k' v', (k', v') ∈ items -> pp ∈ v' -> k' = k) ->
       reverse_powerplant_map items !! pp = Some k.
Proof.
  rewrite reverse_powerplant_map_entries.
  assert (Sound : forall k,
    assign_all (concat (map (fun kv : string * list string =>
        map (fun pp => (pp, kv.1)) kv.2) items)) ∅ !! pp = Some k ->
    exists v, (k, v) ∈ items /\ pp ∈ v).
  { intros k H.
    apply assign_all_Some in H as [H|H]; [| now rewrite lookup_empty in H].
    now apply elem_of_reverse_entries. }
  assert (Complete : (exists k v, (k, v) ∈ items /\ pp ∈ v) ->
    is_Some (assign_all (concat (map (fun kv : string * list string =>
        map (fun pp => (pp, kv.1)) kv.2) items)) ∅ !! pp)).
  { intros (k & v & Hkv & Hpp). apply assign_all_is_Some. left.
    apply list_elem_of_fmap. exists (pp, k). split; [reflexivity |].
    apply elem_of_reverse_entries. eauto. }
  split; [exact Sound | split; [exact Complete |]].
  intros k v Hkv Hpp Huniq.
  destruct Complete as [k' Hk']; [eauto |].
  destruct (Sound k' Hk') as (v' & Hkv' & Hpp').
  now rewrite Hk', (Huniq k' v' Hkv' Hpp').
Qed.

Lemma reverse_powerplant_map_spec_witness :
  reverse_powerplant_map
    [ ("Coal", ["electricity production, hard coal";
                "electricity production, lignite"]);
      ("Gas", ["electricity production, natural gas"]) ]
    !! "electricity production, lignite" = Some "Coal".
Proof.
  apply (proj2 (proj2 (reverse_powerplant_map_spec _ _)) "Coal"
           ["electricity production, hard coal";
            "electricity production, lignite"]).
  - compute_done.
  - compute_done.
  - intros k' v' H1 H2. apply list_elem_of_In in H1. simpl in H1.
    destruct H1 as [[= <- <-]|[[= <- <-]|[]]]; [reflexivity |].
    exfalso. revert H2. compute_done.
Defined.

Lemma production_index_entries_witness :
  get_production_per_tech_dict [["electricity production, hard coal"]]
    Scenario.inventory !! ("electricity production, hard coal", "DE") = Some 80
  /\ 1 # 1000000000 <= 80.
Proof.
  assert (H : get_production_per_tech_dict
                [["electricity production, hard coal"]] Scenario.inventory
                !! ("electricity production, hard coal", "DE") = Some 80)
    by (vm_compute; reflexivity).
  split; [exact H |].
  pose proof (production_index_entries
                [["electricity production, hard coal"]] Scenario.inventory
                "electricity production, hard coal" "DE") as G.
  cbv zeta in G. exact (proj1 (proj2 G 80 H)).
Defined.

(** ** Natural gas extraction *)

Lemma dict_lookup_keys {V} (d : list (string * V)) (k : string) :
  is_Some (dict_lookup d k) <-> k ∈ map fst d.
Proof.
  induction d as [|[k0 v0] d IH]; simpl.
  - split; [intros [? [=]] | intros H; inversion H].
  - destruct (String.eqb k k0) eqn:E.
    + apply String.eqb_eq in E as ->. split; [left | eauto].
    + apply String.eqb_neq in E. rewrite IH, elem_of_cons. tauto.
Qed.

Lemma dict_lookup_None_keys {V} (d : list (string * V)) (k : string) :
  k ∉ map fst d -> dict_lookup d k = None.
Proof.
  intros H. destruct (dict_lookup d k) eqn:E; [| reflexivity].
  exfalso. apply H, dict_lookup_keys. eauto.
Qed.

Lemma dict_set_keys {V} (k : string) (v : V) (d : list (string * V)) :
  map fst (dict_set k v d)
  = if decide (k ∈ map fst d) then map fst d else map fst d ++ [k].
Proof.
  induction d as [|[k0 v0] d IH]; simpl.
  - destruct (decide (k ∈ [])) as [H|_]; [inversion H | reflexivity].
  - destruct (String.eqb k k0) eqn:E; simpl.
    + apply String.eqb_eq in E as ->.
      destruct (decide (k0 ∈ k0 :: map fst d)) as [_|H]; [reflexivity |].
      exfalso. apply H. left.
    + apply String.eqb_neq in E. rewrite IH.
      destruct (decide (k ∈ map fst d)) as [H|H];
        destruct (decide (k ∈ k0 :: map fst d)) as [H'|H']; try reflexivity.
      * exfalso. apply H'. now right.
      * apply elem_of_cons in H' as [?|?]; contradiction.
Qed.

Lemma dict_set_NoDup {V} (k : string) (v : V) (d : list (string * V)) :
  NoDup (map fst d) -> NoDup (map fst (dict_set k v d)).
Proof.
  intros H. rewrite dict_set_keys.
  destruct (decide (k ∈ map fst d)) as [Hk|Hk]; [exact H |].
  apply NoDup_app. split; [exact H |]. split.
  - intros x Hx Hx'. apply list_elem_of_singleton in Hx'. now subst.
  - apply NoDup_singleton.
Qed.

Lemma elem_of_dict_set_keys {V} (k k' : string) (v : V) (d : list (string * V)) :
  k' ∈ map fst (dict_set k v d) <-> k' = k \/ k' ∈ map fst d.
Proof.
  rewrite dict_set_keys. destruct (decide (k ∈ map fst d)) as [Hk|Hk].
  - split; [now right | intros [->|?]; assumption].
  - rewrite elem_of_app, list_elem_of_singleton. tauto.
Qed.

Lemma filter_ext_elem {A} (P R : A -> Prop) `{forall x, Decision (P x)}
    `{forall x, Decision (R x)} (l : list A) :
  (forall x, x ∈ l -> (P x <-> R x)) -> filter P l = filter R l.
Proof.
  induction l as [|x l IH]; intros Hl; [reflexivity |].
  rewrite !filter_cons.
  rewrite IH by (intros y Hy; apply Hl; now right).
  pose proof (Hl x (list_elem_of_here _ _)).
  destruct (decide (P x)), (decide (R x)); tauto || reflexivity.
Qed.

Lemma filter_all {A} (P : A -> Prop) `{forall x, Decision (P x)} (l : list A) :
  Forall P l -> filter P l = l.
Proof.
  induction 1 as [|x l Hx _ IH]; [reflexivity |].
  now rewrite filter_cons_True, IH.
Qed.

Lemma mapM_fixed {A} (f : A -> result A) (l : list A) :
  (forall x, x ∈ l -> f x = Ok x) -> mapM f l = Ok l.
Proof.
  intros H. rewrite (mapM_pure f (fun x => x)) by assumption.
  now rewrite map_id.
Qed.

Section GasFacts.

Variable matches_name : string -> bool.
Variable countries : list string.

Lemma exchange_key_gas_input (e e' : exchange) :
  exchange_key e = exchange_key e' ->
  gas_input matches_name countries e = gas_input matches_name countries e'.
Proof.
  unfold exchange_key, gas_input. intros [= -> _ -> ->]. reflexivity.
Qed.

(** The two outcomes of the body of the loop over the exchanges. *)
Lemma collect_gas_step (amount : list (string * Q))
    (to_remove : list (string * option string * option string * exchange_type))
    (exc : exchange) acc' :
  collect_gas matches_name countries (amount, to_remove) exc = Ok acc' ->
  (matches_name (e_name exc) = true -> is_Some (e_location exc))
  /\ ((gas_input matches_name countries exc = false
       /\ acc' = (amount, to_remove))
      \/ (gas_input matches_name countries exc = true
          /\ exists location value,
               e_location exc = Some location
               /\ value == default 0 (dict_lookup amount location)
                           + e_amount exc
               /\ acc' = (dict_set location value amount,
                          to_remove ++ [exchange_key exc]))).
Proof.
  unfold collect_gas, gas_input.
  destruct (matches_name (e_name exc)) eqn:Em; simpl.
  - destruct (e_location exc) as [location|] eqn:El; simpl; [| discriminate].
    destruct (existsb (String.eqb location) countries
              && exchange_type_eqb (e_type exc) technosphere) eqn:Et.
    + destruct (e_product exc) as [product|] eqn:Ep; simpl; [| discriminate].
      intros [= <-]. split; [eauto |]. right. split; [reflexivity |].
      unfold exchange_key. rewrite El, Ep.
      destruct (dict_lookup amount location) as [a|] eqn:Ed; simpl.
      * exists location, (a + e_amount exc). rewrite Ed.
        split; [reflexivity | split; reflexivity].
      * exists location, (e_amount exc). rewrite Ed. simpl.
        split; [reflexivity | split; [lra | reflexivity]].
    + intros [= <-]. split; [eauto |]. left. split; reflexivity.
  - intros [= <-]. split; [discriminate |]. left. split; reflexivity.
Qed.

Lemma gas_amount_cons (location : string) (e : exchange) (l : list exchange) :
  gas_amount matches_name countries location (e :: l)
  == (if gas_input matches_name countries e && located location e
      then e_amount e else 0)
     + gas_amount matches_name countries location l.
Proof.
  unfold gas_amount. rewrite filter_cons.
  destruct (decide _) as [E|E].
  - rewrite E. simpl map. apply py_sum_cons.
  - apply not_true_is_false in E. rewrite E. lra.
Qed.

Lemma collect_gas_loop (l : list exchange) :
  forall amount to_remove amount' to_remove',
    for_each (collect_gas matches_name countries) l (amount, to_remove)
    = Ok (amount', to_remove') ->
    NoDup (map fst amount) ->
    to_remove'
    = to_remove
      ++ map exchange_key
           (filter (fun e => gas_input matches_name countries e = true) l)
    /\ NoDup (map fst amount')
    /\ (forall location,
          default 0 (dict_lookup amount' location)
          == default 0 (dict_lookup amount location)
             + gas_amount matches_name countries location l)
    /\ (forall location,
          location ∈ map fst amount' <->
          location ∈ map fst amount
          \/ exists e, e ∈ l /\ gas_input matches_name countries e = true
                       /\ e_location e = Some location)
    /\ Forall (fun e => matches_name (e_name e) = true ->
                        is_Some (e_location e)) l.
Proof.
  induction l as [|e l IH]; intros amount tr amount' tr' H Hnd.
  - injection H as <- <-. rewrite app_nil_r.
    split; [reflexivity |]. split; [assumption |]. split.
    { intros location. unfold gas_amount, py_sum. simpl. lra. }
    split; [| constructor].
    intros location. split; [now left | intros [?|(e & He & _)]; [assumption |]].
    inversion He.
  - rewrite for_each_cons in H. apply bind_Ok in H as ([a1 t1] & Hstep & H).
    apply collect_gas_step
      in Hstep as (Hloc & [[Eg [= -> ->]]|(Eg & loc & v & El & Ev & [= -> ->])]).
    + destruct (IH _ _ _ _ H Hnd) as (Htr & Hnd' & Hsum & Hkeys & Hall).
      rewrite filter_cons_False by congruence.
      split; [assumption |]. split; [assumption |]. split.
      { intros location. rewrite Hsum, gas_amount_cons, Eg. simpl. lra. }
      split; [| now constructor].
      intros location. rewrite Hkeys. split.
      * intros [?|(x & Hx & Hg & Hl)]; [now left | right].
        exists x. split; [now right | auto].
      * intros [?|(x & Hx & Hg & Hl)]; [now left |].
        apply elem_of_cons in Hx as [->|Hx]; [congruence | right; eauto].
    + destruct (IH _ _ _ _ H (dict_set_NoDup loc v amount Hnd))
        as (Htr & Hnd' & Hsum & Hkeys & Hall).
      rewrite filter_cons_True by assumption. simpl map.
      split; [now rewrite Htr, <- app_assoc |]. split; [assumption |]. split.
      { intros location. rewrite Hsum, gas_amount_cons, Eg, dict_lookup_set.
        unfold located. rewrite El. simpl.
        destruct (String.eqb location loc) eqn:E.
        - apply String.eqb_eq in E as ->.
          rewrite bool_decide_eq_true_2 by reflexivity. simpl. rewrite Ev. lra.
        - apply String.eqb_neq in E.
          rewrite bool_decide_eq_false_2 by congruence. lra. }
      split; [| now constructor].
      intros location. rewrite Hkeys, elem_of_dict_set_keys. split.
      * intros [[->|?]|(x & Hx & Hg & Hl)].
        -- right. exists e. split; [left | auto].
        -- now left.
        -- right. exists x. split; [now right | auto].
      * intros [?|(x & Hx & Hg & Hl)]; [left; now right |].
        apply elem_of_cons in Hx as [->|Hx]; [| right; eauto].
        left. left. congruence.
Qed.

Lemma collect_gas_free (l : list exchange) acc :
  Forall (gas_free matches_name countries) l ->
  for_each (collect_gas matches_name countries) l acc = Ok acc.
Proof.
  induction 1 as [|e l [Hg Hloc] _ IH]; [reflexivity |].
  rewrite for_each_cons.
  assert (E : collect_gas matches_name countries acc e = Ok acc).
  { destruct acc as [amount tr]. unfold collect_gas. unfold gas_input in Hg.
    destruct (matches_name (e_name e)); [| reflexivity].
    destruct (Hloc eq_refl) as [location El]. rewrite El in *. simpl in *.
    now rewrite Hg. }
  now rewrite E, bind_ret_l.
Qed.

Variables new_name new_product : string.

Lemma added_amount_at (amount : list (string * Q)) (location : string) :
  NoDup (map fst amount) ->
  py_sum (map e_amount
    (filter (fun e => located location e = true)
       (map (fun '(loc, a) =>
           Exchange technosphere new_name (Some new_product) (Some loc)
             "cubic meter" a None None None None None) amount)))
  == default 0 (dict_lookup amount location).
Proof.
  induction amount as [|[k a] amount IH]; intros Hnd; simpl.
  - reflexivity.
  - apply NoDup_cons in Hnd as [Hk Hnd]. rewrite filter_cons.
    unfold located at 1. cbn [e_location].
    destruct (String.eqb location k) eqn:E.
    + apply String.eqb_eq in E as ->.
      rewrite decide_True by (now apply bool_decide_eq_true).
      simpl map. rewrite py_sum_cons, (IH Hnd).
      rewrite (dict_lookup_None_keys amount k Hk). simpl. lra.
    + apply String.eqb_neq in E.
      rewrite decide_False; [exact (IH Hnd) |].
      unfold located. rewrite bool_decide_eq_true. simpl. congruence.
Qed.

(** The exchanges that a loop of the relinking leaves in a dataset. *)
Lemma relink_gas_shape (ds ds' : dataset) :
  relink_gas matches_name countries new_name new_product ds = Ok ds' ->
  exists amount,
    NoDup (map fst amount)
    /\ ds_exchanges ds'
       = filter (fun e => gas_input matches_name countries e = false)
           (ds_exchanges ds)
         ++ map (fun '(loc, a) =>
                Exchange technosphere new_name (Some new_product) (Some loc)
                  "cubic meter" a None None None None None) amount
    /\ (forall location,
          default 0 (dict_lookup amount location)
          == gas_amount matches_name countries location (ds_exchanges ds))
    /\ Forall (fun e => matches_name (e_name e) = true ->
                        is_Some (e_location e)) (ds_exchanges ds).
Proof.
  unfold relink_gas. intros H.
  apply bind_Ok in H as ([amount tr] & Hloop & H).
  destruct (collect_gas_loop _ _ _ _ _ Hloop (NoDup_nil_2))
    as (Htr & Hnd & Hsum & Hkeys & Hall).
  simpl in Htr.
  assert (Hfilter :
    filter (fun e => exchange_key e ∉ tr) (ds_exchanges ds)
    = filter (fun e => gas_input matches_name countries e = false)
        (ds_exchanges ds)).
  { apply filter_ext_elem. intros e He. rewrite Htr. split.
    - intros Hn. apply not_true_is_false. intros Hg. apply Hn.
      apply list_elem_of_fmap. exists e. split; [reflexivity |].
      now apply list_elem_of_filter.
    - intros Hg Hin. apply list_elem_of_fmap in Hin as (e' & Hk & He').
      apply list_elem_of_filter in He' as [Hg' _].
      rewrite (exchange_key_gas_input _ _ Hk) in Hg. congruence. }
  exists amount. split; [exact Hnd |]. split; [| split; [| exact Hall]].
  - destruct amount as [|kv rest] eqn:Ea.
    + injection H as <-. simpl. rewrite app_nil_r. symmetry.
      apply filter_all, Forall_forall. intros e He.
      apply not_true_is_false. intros Hg.
      destruct (e_location e) as [loc|] eqn:El.
      * assert (Hin : loc ∈ map fst (@nil (string * Q)))
          by (apply Hkeys; right; eauto).
        inversion Hin.
      * unfold gas_input in Hg. rewrite El in Hg.
        rewrite andb_false_r in Hg. discriminate.
    + injection H as <-. simpl ds_exchanges. now rewrite Hfilter.
  - intros location. rewrite Hsum. simpl. lra.
Qed.

(** X8.  A loop of the relinking of natural gas keeps the exchanges that
    do not pass its test, in their order, and appends after them one
    exchange per location of those that pass, with the new name and
    product; the amount of the exchange appended for a location is the sum
    of the amounts of the exchanges removed for that location. *)
Theorem relink_gas_conserves (ds ds' : dataset) :
  relink_gas matches_name countries new_name new_product ds = Ok ds' ->
  exists added,
    ds_exchanges ds'
    = filter (fun e => gas_input matches_name countries e = false)
        (ds_exchanges ds) ++ added
    /\ Forall (fun e =>
           e_type e = technosphere /\ e_name e = new_name
           /\ e_product e = Some new_product /\ e_unit e = "cubic meter") added
    /\ NoDup (map e_location added)
    /\ forall location,
         py_sum (map e_amount
                   (filter (fun e => located location e = true) added))
         == gas_amount matches_name countries location (ds_exchanges ds).
Proof.
  intros H. apply relink_gas_shape in H as (amount & Hnd & Hex & Hsum & _).
  exists (map (fun '(loc, a) =>
            Exchange technosphere new_name (Some new_product) (Some loc)
              "cubic meter" a None None None None None) amount).
  split; [exact Hex |]. split; [| split].
  - apply Forall_fmap, Forall_forall. intros [loc a] _. simpl. auto.
  - rewrite map_map.
    rewrite (map_ext _ (fun kv => Some kv.1)) by (now intros [? ?]).
    rewrite <- (map_map fst Some). apply (NoDup_fmap_2 Some). exact Hnd.
  - intros location. rewrite (added_amount_at amount location Hnd).
    apply Hsum.
Qed.

(** A dataset whose exchanges do not pass the test is left as it is. *)
Lemma relink_gas_fixed (ds : dataset) :
  Forall (gas_free matches_name countries) (ds_exchanges ds) ->
  relink_gas matches_name countries new_name new_product ds = Ok ds.
Proof.
  intros H. unfold relink_gas. now rewrite (collect_gas_free _ _ H).
Qed.

(** The exchanges of a relinked dataset stay clear of a test that the new
    name does not pass and of which the dataset was clear. *)
Lemma relink_gas_keeps_free (m : string -> bool) (c : list string)
    (ds ds' : dataset) :
  relink_gas matches_name countries new_name new_product ds = Ok ds' ->
  m new_name = false ->
  Forall (gas_free m c) (ds_exchanges ds) ->
  Forall (gas_free m c) (ds_exchanges ds').
Proof.
  intros H Hm Hfree. apply relink_gas_shape in H as (amount & _ & -> & _ & _).
  apply Forall_app. split.
  - apply Forall_forall. intros e He. apply list_elem_of_filter in He as [_ He].
    rewrite Forall_forall in Hfree. auto.
  - apply Forall_fmap, Forall_forall. intros [loc a] _.
    unfold gas_free, gas_input. simpl. rewrite Hm. split; [reflexivity | eauto].
Qed.

Lemma relink_gas_free (ds ds' : dataset) :
  relink_gas matches_name countries new_name new_product ds = Ok ds' ->
  matches_name new_name = false ->
  Forall (gas_free matches_name countries) (ds_exchanges ds').
Proof.
  intros H Hm. apply relink_gas_shape in H as (amount & _ & -> & _ & Hall).
  apply Forall_app. split.
  - apply Forall_forall. intros e He. apply list_elem_of_filter in He as [Hg He].
    rewrite Forall_forall in Hall. split; auto.
  - apply Forall_fmap, Forall_forall. intros [loc a] _.
    unfold gas_free, gas_input. simpl. rewrite Hm. split; [reflexivity | eauto].
Qed.

End GasFacts.

(** X9.  The relinking of natural gas is idempotent: run on the database
    that it returns, it returns that database again. *)
Theorem update_ng_production_ds_idempotent (st st' : state) :
  update_ng_production_ds st = Ok st' ->
  update_ng_production_ds st' = Ok st'.
Proof.
  unfold update_ng_production_ds. intros H.
  apply bind_Ok in H as (db1 & H1 & H). apply bind_Ok in H as (db2 & H2 & H).
  injection H as <-. simpl.
  apply mapM_Ok_Forall2 in H1, H2.
  assert (F1 : Forall (fun ds =>
      Forall (gas_free is_gas_market ["NL"; "DE"; "FR"; "RER"; "IT"; "CH"])
        (ds_exchanges ds)) db1).
  { clear H2. induction H1 as [|ds ds' l k Hr _ IH]; constructor; [| exact IH].
    apply (relink_gas_free _ _ _ _ _ _ Hr). reflexivity. }
  assert (F2 : Forall (fun ds =>
      Forall (gas_free is_gas_market ["NL"; "DE"; "FR"; "RER"; "IT"; "CH"])
        (ds_exchanges ds)
      /\ Forall (gas_free is_gas_production
                   ["DE"; "DZ"; "GB"; "NG"; "NL"; "NO"; "RU"; "US"])
           (ds_exchanges ds)) db2).
  { clear H1. induction H2 as [|ds ds' l k Hr _ IH]; [constructor |].
    apply Forall_cons in F1 as [Hd F1]. constructor; [| now apply IH].
    split.
    - apply (relink_gas_keeps_free _ _ _ _ _ _ _ _ Hr); [reflexivity | exact Hd].
    - apply (relink_gas_free _ _ _ _ _ _ Hr). reflexivity. }
  rewrite Forall_forall in F2.
  rewrite mapM_fixed, bind_ret_l.
  - rewrite mapM_fixed; [reflexivity |].
    intros ds Hds. apply relink_gas_fixed. now apply F2.
  - intros ds Hds. apply relink_gas_fixed. now apply F2.
Qed.

Lemma relink_gas_conserves_witness :
  exists ds' added,
    relink_gas is_gas_market ["NL"; "DE"; "FR"; "RER"; "IT"; "CH"]
      "natural gas, high pressure, at consumer"
      "natural gas, high pressure, at consumer" Cases.boiler = Ok ds'
    /\ ds_exchanges ds'
       = filter (fun e =>
             gas_input is_gas_market ["NL"; "DE"; "FR"; "RER"; "IT"; "CH"] e
             = false) (ds_exchanges Cases.boiler) ++ added
    /\ length added = 2%nat
    /\ py_sum (map e_amount (filter (fun e => located "DE" e = true) added))
       == 5.
Proof.
  assert (E : { ds' | relink_gas is_gas_market
                        ["NL"; "DE"; "FR"; "RER"; "IT"; "CH"]
                        "natural gas, high pressure, at consumer"
                        "natural gas, high pressure, at consumer" Cases.boiler
                      = Ok ds' }).
  { eexists. vm_compute. reflexivity. }
  destruct E as [ds' E].
  destruct (relink_gas_conserves _ _ _ _ _ _ E) as (added & Hex & _ & _ & Hsum).
  exists ds', added. split; [exact E |]. split; [exact Hex |]. split.
  - revert E Hex. vm_compute. intros [= <-] [= <-]. reflexivity.
  - apply (Qeq_trans _ _ _ (Hsum "DE")). vm_compute. reflexivity.
Defined.

Lemma update_ng_production_ds_idempotent_witness :
  exists st',
    update_ng_production_ds (State [Cases.boiler] []) = Ok st'
    /\ length (flat_map ds_exchanges (database st')) = 5%nat
    /\ update_ng_production_ds st' = Ok st'.
Proof.
  assert (E : { st' | update_ng_production_ds (State [Cases.boiler] [])
                      = Ok st' }).
  { eexists. vm_compute. reflexivity. }
  destruct E as [st' E]. exists st'. split; [exact E |]. split.
  - revert E. vm_compute. intros [= <-]. reflexivity.
  - exact (update_ng_production_ds_idempotent _ _ E).
Defined.

(** ** The cascade of markets *)

Lemma Forall2_map_eq {A B C} (f : A -> C) (g : B -> C) (l : list A)
    (k : list B) :
  Forall2 (fun x y => g y = f x) l k -> map g k = map f l.
Proof. induction 1 as [|x y l k E _ IH]; simpl; congruence. Qed.

(** The loop over the regions, when the body appends datasets whose
    ledger entries depend on the region only. *)
Lemma region_loop_entries (step : state -> string -> result state)
    (entries : string -> list supplier_key) (regions : list string)
    (st st' : state) :
  (forall s region s',
     step s region = Ok s' ->
     exists new,
       database s' = database s ++ new
       /\ created s' = created s ++ map ledger_entry new
       /\ map ledger_entry new = entries region) ->
  for_each step regions st = Ok st' ->
  exists new,
    database st' = database st ++ new
    /\ created st' = created st ++ map ledger_entry new
    /\ map ledger_entry new = flat_map entries regions.
Proof.
  intros Hstep. revert st. induction regions as [|region regions IH]; intros st H.
  - injection H as <-. exists []. rewrite !app_nil_r. auto.
  - rewrite for_each_cons in H. apply bind_Ok in H as (s1 & H1 & H).
    destruct (Hstep _ _ _ H1) as (new1 & Hd1 & Hc1 & He1).
    destruct (IH _ H) as (new & Hd & Hc & He).
    exists (new1 ++ new). rewrite Hd, Hd1, Hc, Hc1, map_app, !app_assoc.
    simpl. now rewrite He1, He.
Qed.

Lemma period_loop_entries (market : list dataset -> nat -> result dataset)
    (entry : nat -> supplier_key) (periods : list nat) (st st' : state) :
  (forall db period ds, market db period = Ok ds -> ledger_entry ds = entry period) ->
  for_each (fun st period =>
      new_dataset ← market (database st) period;
      Ok (append_dataset st new_dataset)) periods st = Ok st' ->
  exists new,
    database st' = database st ++ new
    /\ created st' = created st ++ map ledger_entry new
    /\ map ledger_entry new = map entry periods.
Proof.
  intros Hm H. apply period_loop in H as (new & Hd & Hc & Hf).
  exists new. split; [exact Hd |]. split; [exact Hc |].
  apply Forall2_map_eq. eapply Forall2_impl; [exact Hf |].
  simpl. intros period ds (db & E). eauto.
Qed.

Lemma high_voltage_market_entry (self : Electricity) (db : list dataset)
    (region : string) (transf_loss : Q)
    (tech_suppliers : list (string * list (dataset * Q)))
    (technologies : list string) (period : nat) (ds : dataset) :
  high_voltage_market self db region transf_loss tech_suppliers technologies
    period = Ok ds ->
  ledger_entry ds
  = (market_name "market group for electricity, high voltage" period,
     "electricity, high voltage", region, "kilowatt hour").
Proof.
  unfold high_voltage_market. intros H.
  apply bind_Ok in H as (second & _ & H). apply bind_Ok in H as (supply & _ & H).
  injection H as <-. reflexivity.
Qed.

Lemma medium_voltage_market_entry (self : Electricity) (db : list dataset)
    (region : string) (transf_loss distr_loss : Q) (period : nat)
    (ds : dataset) :
  medium_voltage_market self db region transf_loss distr_loss period = Ok ds ->
  ledger_entry ds
  = (market_name "market group for electricity, medium voltage" period,
     "electricity, medium voltage", region, "kilowatt hour").
Proof.
  unfold medium_voltage_market. intros H.
  apply bind_Ok in H as (second & _ & H). apply bind_Ok in H as (emission & _ & H).
  injection H as <-. reflexivity.
Qed.

Lemma low_voltage_market_entry (self : Electricity) (db : list dataset)
    (region : string) (transf_loss distr_loss : Q)
    (tech_suppliers : list (string * list (dataset * Q)))
    (technologies : list string) (period : nat) (ds : dataset) :
  low_voltage_market self db region transf_loss distr_loss tech_suppliers
    technologies period = Ok ds ->
  ledger_entry ds
  = (market_name "market group for electricity, low voltage" period,
     "electricity, low voltage", region, "kilowatt hour").
Proof.
  unfold low_voltage_market. intros H.
  apply bind_Ok in H as (second & _ & H). apply bind_Ok in H as (emission & _ & H).
  apply bind_Ok in H as ([excs solar] & _ & H).
  injection H as <-. reflexivity.
Qed.

(** What each of the three builders appends. *)
Lemma create_new_markets_high_voltage_entries (self : Electricity)
    (st st' : state) :
  create_new_markets_high_voltage self st = Ok st' ->
  exists new,
    database st' = database st ++ new
    /\ created st' = created st ++ map ledger_entry new
    /\ map ledger_entry new
       = market_entries "market group for electricity, high voltage"
           "electricity, high voltage" (regions self) (periods self).
Proof.
  unfold create_new_markets_high_voltage. intros H.
  apply bind_Ok in H as (entries & _ & H).
  revert H. apply region_loop_entries. intros s region s' Hs.
  unfold high_voltage_region in Hs.
  apply bind_Ok in Hs as (loss & _ & Hs). apply bind_Ok in Hs as (ts & _ & Hs).
  revert Hs.
  apply (period_loop_entries (fun db period =>
           high_voltage_market self db region
             (Losses.transf_loss (Losses.high loss)) ts
             (filter (fun tech => is_residential_solar tech = false)
                (variables self)) period)).
  intros db period ds. apply high_voltage_market_entry.
Qed.

Lemma create_new_markets_medium_voltage_entries (self : Electricity)
    (st st' : state) :
  create_new_markets_medium_voltage self st = Ok st' ->
  exists new,
    database st' = database st ++ new
    /\ created st' = created st ++ map ledger_entry new
    /\ map ledger_entry new
       = market_entries "market group for electricity, medium voltage"
           "electricity, medium voltage" (regions self) (periods self).
Proof.
  unfold create_new_markets_medium_voltage.
  apply region_loop_entries. intros s region s' Hs.
  unfold medium_voltage_region in Hs.
  apply bind_Ok in Hs as (loss & _ & Hs). revert Hs.
  apply (period_loop_entries (fun db period =>
           medium_voltage_market self db region
             (Losses.transf_loss (Losses.medium loss))
             (Losses.distr_loss (Losses.medium loss)) period)).
  intros db period ds. apply medium_voltage_market_entry.
Qed.

Lemma create_new_markets_low_voltage_entries (self : Electricity)
    (st st' : state) :
  create_new_markets_low_voltage self st = Ok st' ->
  exists new,
    database st' = database st ++ new
    /\ created st' = created st ++ map ledger_entry new
    /\ map ledger_entry new
       = market_entries "market group for electricity, low voltage"
           "electricity, low voltage" (regions self) (periods self).
Proof.
  unfold create_new_markets_low_voltage. intros H.
  apply bind_Ok in H as (entries & _ & H).
  revert H. apply region_loop_entries. intros s region s' Hs.
  unfold low_voltage_region in Hs.
  apply bind_Ok in Hs as (loss & _ & Hs). apply bind_Ok in Hs as (ts & _ & Hs).
  revert Hs.
  apply (period_loop_entries (fun db period =>
           low_voltage_market self db region
             (Losses.transf_loss (Losses.low loss))
             (Losses.distr_loss (Losses.low loss)) ts
             (filter (fun tech => is_residential_solar tech = true)
                (variables self)) period)).
  intros db period ds. apply low_voltage_market_entry.
Qed.

Lemma empty_dataset_Ok (loc : gmap string string) (ds ds' : dataset) :
  empty_dataset loc ds = Ok ds' ->
  exists region,
    loc !! ds_location ds = Some region
    /\ ds' = set_exchanges ds
               (filter (fun e => e_type e = production) (ds_exchanges ds)
                ++ [ Exchange technosphere
                       ("market group for electricity, "
                        +:+ voltage_of (ds_name ds))
                       (Some ("electricity, " +:+ voltage_of (ds_name ds)))
                       (Some region) "kilowatt hour" 1 None (Some 0%Z)
                       None None None ]).
Proof.
  unfold empty_dataset. intros H. apply bind_Ok in H as (region & Hr & H).
  apply getitem_Ok in Hr. injection H as <-. eauto.
Qed.

(** The state that the cascade returns, in terms of the one it is given. *)
Lemma update_electricity_markets_shape (self : Electricity)
    (loc : gmap string string) (st st' : state)
    (emptied : list supplier_key) :
  update_electricity_markets self loc st = Ok (st', emptied) ->
  exists old new,
    database st' = old ++ new
    /\ Forall2 (fun ds ds' =>
           (if is_emptied ds then empty_dataset loc ds else Ok ds) = Ok ds')
         (database st) old
    /\ created st' = created st ++ map ledger_entry new
    /\ map ledger_entry new
       = market_entries "market group for electricity, high voltage"
           "electricity, high voltage" (regions self) (periods self)
         ++ market_entries "market group for electricity, medium voltage"
              "electricity, medium voltage" (regions self) (periods self)
         ++ market_entries "market group for electricity, low voltage"
              "electricity, low voltage" (regions self) (periods self).
Proof.
  unfold update_electricity_markets. intros H.
  apply bind_Ok in H as (db & Hdb & H). apply mapM_Ok_Forall2 in Hdb.
  apply bind_Ok in H as (s1 & H1 & H). apply bind_Ok in H as (s2 & H2 & H).
  apply bind_Ok in H as (s3 & H3 & H). injection H as <- _.
  apply create_new_markets_high_voltage_entries in H1 as (n1 & D1 & C1 & E1).
  apply create_new_markets_medium_voltage_entries in H2 as (n2 & D2 & C2 & E2).
  apply create_new_markets_low_voltage_entries in H3 as (n3 & D3 & C3 & E3).
  simpl in D1, C1.
  exists db, (n1 ++ n2 ++ n3). split; [| split; [exact Hdb | split]].
  - now rewrite D3, D2, D1, <- !app_assoc.
  - now rewrite C3, C2, C1, !map_app, <- !app_assoc.
  - now rewrite !map_app, E1, E2, E3.
Qed.

Lemma market_entries_length (base product : string) (regions : list string)
    (periods : list nat) :
  length (market_entries base product regions periods)
  = (length regions * length periods)%nat.
Proof.
  unfold market_entries. induction regions as [|r rs IH]; [reflexivity |].
  cbn [flat_map]. rewrite length_app, length_map. simpl. f_equal. exact IH.
Qed.

(** X10.  When the cascade completes, the database is the one it was
    given, dataset by dataset with the same name, reference product,
    location and unit, and unchanged where the dataset is not one of those
    to empty, followed by the new markets; the ledger of created datasets
    grows by the entries of the new markets, which are one high voltage
    market per region and period, then one medium voltage market, then one
    low voltage market, named after the period. *)
Theorem update_electricity_markets_appends (self : Electricity)
    (loc : gmap string string) (st st' : state)
    (emptied : list supplier_key) :
  update_electricity_markets self loc st = Ok (st', emptied) ->
  exists old new,
    database st' = old ++ new
    /\ Forall2 (fun ds ds' =>
           ledger_entry ds' = ledger_entry ds
           /\ (is_emptied ds = false -> ds' = ds))
         (database st) old
    /\ created st' = created st ++ map ledger_entry new
    /\ map ledger_entry new
       = market_entries "market group for electricity, high voltage"
           "electricity, high voltage" (regions self) (periods self)
         ++ market_entries "market group for electricity, medium voltage"
              "electricity, medium voltage" (regions self) (periods self)
         ++ market_entries "market group for electricity, low voltage"
              "electricity, low voltage" (regions self) (periods self)
    /\ length new = (3 * (length (regions self) * length (periods self)))%nat.
Proof.
  intros H.
  apply update_electricity_markets_shape in H as (old & new & Hd & Hf & Hc & He).
  exists old, new. split; [exact Hd |]. split; [| split; [exact Hc |]].
  - eapply Forall2_impl; [exact Hf |]. simpl. intros ds ds' E.
    destruct (is_emptied ds).
    + apply empty_dataset_Ok in E as (region & _ & ->).
      split; [reflexivity | discriminate].
    + injection E as <-. split; reflexivity.
  - split; [exact He |].
    rewrite <- (length_map ledger_entry new), He, !length_app.
    rewrite !market_entries_length. lia.
Qed.

Lemma elem_of_market_entries (base product region : string) (period : nat)
    (regions : list string) (periods : list nat) :
  region ∈ regions -> period ∈ periods ->
  (market_name base period, product, region, "kilowatt hour")
  ∈ market_entries base product regions periods.
Proof.
  intros Hr Hp. unfold market_entries.
  apply list_elem_of_In, in_flat_map. exists region.
  split; [now apply list_elem_of_In |].
  apply in_map_iff. exists period. split; [reflexivity |].
  now apply list_elem_of_In.
Qed.

Lemma first_period (self : Electricity) : 0%nat ∈ periods self.
Proof. unfold periods. destruct (consequential self); left. Qed.

(** X11.  When the cascade completes, a dataset that it empties keeps its
    place in the database and its production exchanges, and has one other
    exchange: an input of one kilowatt hour from the market group of its
    voltage level in the region of its location.  When that region is one
    of the regions of the scenario, this market is a dataset of the
    database that the cascade returns. *)
Theorem emptied_datasets_link_to_markets (self : Electricity)
    (loc : gmap string string) (st st' : state)
    (emptied : list supplier_key) (i : nat) (ds : dataset) :
  update_electricity_markets self loc st = Ok (st', emptied) ->
  database st !! i = Some ds ->
  is_emptied ds = true ->
  exists region ds' link,
    loc !! ds_location ds = Some region
    /\ database st' !! i = Some ds'
    /\ ledger_entry ds' = ledger_entry ds
    /\ ds_exchanges ds'
       = filter (fun e => e_type e = production) (ds_exchanges ds) ++ [link]
    /\ e_type link = technosphere
    /\ e_name link
       = "market group for electricity, " +:+ voltage_of (ds_name ds)
    /\ e_location link = Some region
    /\ e_amount link = 1
    /\ (region ∈ regions self ->
        exists target,
          target ∈ database st'
          /\ e_name link = ds_name target
          /\ e_product link = Some (ds_reference_product target)
          /\ e_location link = Some (ds_location target)
          /\ e_unit link = ds_unit target).
Proof.
  intros H Hi He.
  apply update_electricity_markets_shape in H as (old & new & Hd & Hf & _ & Hn).
  destruct (Forall2_lookup_l _ _ _ _ _ Hf Hi) as (ds' & Hi' & E).
  rewrite He in E. apply empty_dataset_Ok in E as (region & Hr & ->).
  eexists region, _, _. split; [exact Hr |]. split.
  { rewrite Hd. apply lookup_app_l_Some. exact Hi'. }
  split; [reflexivity |]. split; [reflexivity |].
  split; [reflexivity |]. split; [reflexivity |].
  split; [reflexivity |]. split; [reflexivity |].
  intros Hreg.
  assert (Hin : forall base product,
    (base, product)
    ∈ [ ("market group for electricity, high voltage",
         "electricity, high voltage");
        ("market group for electricity, medium voltage",
         "electricity, medium voltage");
        ("market group for electricity, low voltage",
         "electricity, low voltage") ] ->
    exists target,
      target ∈ database st'
      /\ ledger_entry target = (base, product, region, "kilowatt hour")).
  { intros base product Hb.
    assert (Hm : (market_name base 0, product, region, "kilowatt hour")
                 ∈ map ledger_entry new).
    { rewrite Hn, !elem_of_app.
      apply list_elem_of_In in Hb. simpl in Hb.
      destruct Hb as [[= <- <-]|[[= <- <-]|[[= <- <-]|[]]]];
        [left | right; left | right; right];
        (apply elem_of_market_entries; [exact Hreg | apply first_period]). }
    apply list_elem_of_fmap in Hm as (target & Ht & Hin).
    exists target. split; [rewrite Hd; apply elem_of_app; now right |].
    now rewrite <- Ht. }
  simpl. unfold voltage_of.
  destruct (contains "high voltage" (ds_name ds));
    [| destruct (contains "medium voltage" (ds_name ds))];
    (edestruct Hin as (target & Ht & [= E1 E2 E3 E4]);
     [| exists target; split; [exact Ht |]; rewrite E1, E2, E3, E4;
        repeat split]);
    compute_done.
Qed.

Lemma update_electricity_markets_appends_witness :
  exists st' emptied old new,
    update_electricity_markets Scenario.EUR {[ "DE" := "EUR" ]}
      (State Cases.old_inventory []) = Ok (st', emptied)
    /\ database st' = old ++ new
    /\ length old = 5%nat
    /\ length new = 12%nat
    /\ created st' = map ledger_entry new.
Proof.
  assert (Hok : is_Ok (update_electricity_markets Scenario.EUR
                         {[ "DE" := "EUR" ]} (State Cases.old_inventory [])))
    by (vm_compute; exact I).
  destruct (update_electricity_markets Scenario.EUR {[ "DE" := "EUR" ]}
              (State Cases.old_inventory [])) as [[st' emptied]|e] eqn:E;
    [| destruct Hok].
  destruct (update_electricity_markets_appends _ _ _ _ _ E)
    as (old & new & Hd & Hf & Hc & _ & Hl).
  exists st', emptied, old, new. split; [reflexivity |]. split; [exact Hd |].
  split; [| split; [exact Hl | exact Hc]].
  now rewrite <- (Forall2_length _ _ _ Hf).
Defined.

Lemma emptied_datasets_link_to_markets_witness :
  exists st' emptied ds' link target,
    update_electricity_markets Scenario.EUR {[ "DE" := "EUR" ]}
      (State Cases.old_inventory []) = Ok (st', emptied)
    /\ database st' !! 0%nat = Some ds'
    /\ ds_exchanges ds'
       = filter (fun e => e_type e = production)
           (ds_exchanges Cases.old_market) ++ [link]
    /\ target ∈ database st'
    /\ e_name link = ds_name target
    /\ e_name link = "market group for electricity, low voltage"
    /\ e_location link = Some "EUR".
Proof.
  assert (Hok : is_Ok (update_electricity_markets Scenario.EUR
                         {[ "DE" := "EUR" ]} (State Cases.old_inventory [])))
    by (vm_compute; exact I).
  destruct (update_electricity_markets Scenario.EUR {[ "DE" := "EUR" ]}
              (State Cases.old_inventory [])) as [[st' emptied]|e] eqn:E;
    [| destruct Hok].
  assert (Hi : database (State Cases.old_inventory []) !! 0%nat
               = Some Cases.old_market) by reflexivity.
  assert (He : is_emptied Cases.old_market = true) by (vm_compute; reflexivity).
  destruct (emptied_datasets_link_to_markets _ _ _ _ _ _ _ E Hi He)
    as (region & ds' & link & Hr & Hi' & _ & Hex & _ & Hname & Hloc & _ & Ht).
  assert (Hreg : region = "EUR").
  { revert Hr. vm_compute. now intros [= <-]. }
  subst region.
  destruct Ht as (target & Ht & Hn & _); [compute_done |].
  exists st', emptied, ds', link, target.
  split; [reflexivity |]. split; [exact Hi' |]. split; [exact Hex |].
  split; [exact Ht |]. split; [exact Hn |]. split; [| exact Hloc].
  rewrite Hname. vm_compute. reflexivity.
Defined.

(** ** The pass over the photovoltaic installations *)

Section PanelFacts.

Variable self : Electricity.

(** The loop over the exchanges of an installation. *)
Lemma update_pv_loop (power : Q) (l : list exchange) :
  forall acc (log : gmap string Q) excs log',
    for_each (fun '(exchanges, log_parameters) exc =>
        if is_panel_surface exc
        then
          '(exc', change) ← update_pv_exchange self power exc;
          Ok (exchanges ++ [exc'],
              match change with
              | Some (current_eff, new_eff) =>
                  <["new efficiency" := new_eff]>
                    (<["old efficiency" := current_eff]> log_parameters)
              | None => log_parameters
              end)
        else Ok (exchanges ++ [exc], log_parameters))
      l (acc, log) = Ok (excs, log') ->
    exists new,
      excs = acc ++ new
      /\ Forall2 (fun e e' =>
             if is_panel_surface e
             then exists change, update_pv_exchange self power e = Ok (e', change)
             else e' = e) l new.
Proof.
  induction l as [|e l IH]; intros acc log excs log' H.
  - injection H as <- <-. exists []. rewrite app_nil_r. split; [reflexivity |].
    constructor.
  - rewrite for_each_cons in H. apply bind_Ok in H as ([a1 l1] & H1 & H).
    destruct (IH _ _ _ _ H) as (new & -> & Hf).
    destruct (is_panel_surface e) eqn:Ep.
    + apply bind_Ok in H1 as ([e' change] & He & [= <- _]).
      exists (e' :: new). rewrite <- app_assoc. split; [reflexivity |].
      constructor; [rewrite Ep; eauto | exact Hf].
    + injection H1 as <- _. exists (e :: new). rewrite <- app_assoc.
      split; [reflexivity |]. constructor; [now rewrite Ep | exact Hf].
Qed.

(** The exchange that the body returns differs at most by its amount. *)
Lemma update_pv_exchange_amount_only (power : Q) (exc exc' : exchange)
    (change : option (Q * Q)) :
  update_pv_exchange self power exc = Ok (exc', change) ->
  exists amount, exc' = set_amount exc amount.
Proof.
  unfold update_pv_exchange. intros H.
  apply bind_Ok in H as (current_eff & _ & H).
  assert (Hsame : exc = set_amount exc (e_amount exc)) by (now destruct exc).
  destruct (filter _ possible_techs); [injection H as <- _; eauto |].
  destruct (Qgtb _ _); injection H as <- _; eauto.
Qed.

(** X14.  The pass over the photovoltaic installations leaves the ledger
    of created datasets as it is and keeps every dataset in its place with
    its name, reference product, location and unit; a dataset that is not
    a photovoltaic installation is unchanged, and in an installation the
    exchanges keep their place, only the amount of a panel surface can
    differ. *)
Theorem update_efficiency_of_solar_pv_frame (st st' : state) :
  update_efficiency_of_solar_pv self st = Ok st' ->
  created st' = created st
  /\ Forall2 (fun ds ds' =>
         ledger_entry ds' = ledger_entry ds
         /\ (is_pv_installation ds = false -> ds' = ds)
         /\ Forall2 (fun e e' =>
                (is_panel_surface e = false -> e' = e)
                /\ exists amount, e' = set_amount e amount)
              (ds_exchanges ds) (ds_exchanges ds'))
       (database st) (database st').
Proof.
  unfold update_efficiency_of_solar_pv. intros H.
  apply bind_Ok in H as (db & Hdb & H). injection H as <-. simpl.
  split; [reflexivity |].
  apply mapM_Ok_Forall2 in Hdb. eapply Forall2_impl; [exact Hdb |].
  simpl. intros ds ds' E.
  assert (Hsame : Forall2 (fun e e' : exchange =>
            (is_panel_surface e = false -> e' = e)
            /\ exists amount, e' = set_amount e amount)
          (ds_exchanges ds) (ds_exchanges ds)).
  { apply Forall_Forall2_diag, Forall_forall. intros e _.
    split; [reflexivity |]. exists (e_amount e). now destruct e. }
  destruct (is_pv_installation ds).
  - unfold update_pv_dataset in E.
    apply bind_Ok in E as (power & _ & E). cbv zeta in E.
    apply bind_Ok in E as ([excs log'] & Hloop & E). injection E as <-.
    split; [reflexivity |]. split; [discriminate |].
    apply update_pv_loop in Hloop as (new & -> & Hf). simpl.
    eapply Forall2_impl; [exact Hf |]. simpl. intros e e' He.
    destruct (is_panel_surface e).
    + split; [discriminate |]. destruct He as (change & He).
      exact (update_pv_exchange_amount_only _ _ _ _ He).
    + subst e'. split; [reflexivity |]. exists (e_amount e). now destruct e.
  - injection E as <-. split; [reflexivity |]. split; [reflexivity | exact Hsame].
Qed.

End PanelFacts.

Lemma update_efficiency_of_solar_pv_frame_witness :
  exists st',
    update_efficiency_of_solar_pv Scenario.EUR
      (State [Scenario.coal_DE; Scenario.installation 20] []) = Ok st'
    /\ created st' = []
    /\ database st' !! 0%nat = Some Scenario.coal_DE.
Proof.
  assert (E : { st' | update_efficiency_of_solar_pv Scenario.EUR
                        (State [Scenario.coal_DE; Scenario.installation 20] [])
                      = Ok st' }).
  { eexists. vm_compute. reflexivity. }
  destruct E as [st' E]. exists st'. split; [exact E |].
  destruct (update_efficiency_of_solar_pv_frame Scenario.EUR _ _ E)
    as [Hc Hf].
  split; [exact Hc |].
  destruct (Forall2_lookup_l _ _ _ 0%nat Scenario.coal_DE Hf eq_refl)
    as (ds' & Hi & _ & Hsame & _).
  rewrite Hi. f_equal. apply Hsame. vm_compute. reflexivity.
Defined.

(** ** The surface of the photovoltaic panels *)

Lemma update_pv_exchange_zero (self : Electricity) (power : Q)
    (exc : exchange) :
  e_amount exc == 0 ->
  update_pv_exchange self power exc = Raise ZeroDivisionError.
Proof.
  intros H. unfold update_pv_exchange. now rewrite py_truediv_zero.
Qed.

(** The change of one panel exchange whose surface is not zero. *)
Lemma update_pv_exchange_cases (self : Electricity) (power : Q)
    (exc : exchange) :
  ~ e_amount exc == 0 ->
  let current_eff := power / e_amount exc in
  exists exc' change,
    update_pv_exchange self power exc = Ok (exc', change)
    /\ (0 < e_amount exc -> e_amount exc' <= e_amount exc)
    /\ ((exists pv_tech rest new_eff,
           filter (fun i => contains (lower i) (lower (e_name exc)) = true)
             possible_techs = pv_tech :: rest
           /\ new_eff = np_clip (module_eff self pv_tech) (1 # 10) (27 # 100)
           /\ current_eff < new_eff
           /\ exc' = set_amount exc (e_amount exc * (current_eff / new_eff))
           /\ current_eff / new_eff < 1)
        \/ (exc' = exc
            /\ forall pv_tech rest,
                 filter (fun i => contains (lower i) (lower (e_name exc)) = true)
                   possible_techs = pv_tech :: rest ->
                 ~ current_eff
                   < np_clip (module_eff self pv_tech) (1 # 10) (27 # 100))).
Proof.
  intros Hnz current_eff. unfold update_pv_exchange.
  rewrite py_truediv_Ok by exact Hnz. rewrite bind_ret_l. cbv zeta.
  fold current_eff.
  destruct (filter _ possible_techs) as [|pv_tech rest] eqn:E.
  - exists exc, None. split; [reflexivity |]. split; [intros _; lra |].
    right. split; [reflexivity |]. intros ? ? [=].
  - destruct (np_clip_bounds (module_eff self pv_tech) (1 # 10) (27 # 100))
      as [Hlo Hhi]; [lra |].
    destruct (Qgtb _ current_eff) eqn:G.
    + apply Qgtb_true in G.
      assert (Hf : current_eff
                   / np_clip (module_eff self pv_tech) (1 # 10) (27 # 100) < 1).
      { apply Qlt_shift_div_r; lra. }
      eexists _, _. split; [reflexivity |]. split.
      * intros Hpos. simpl.
        apply Qle_trans with (e_amount exc * 1); [| lra].
        apply Qlt_le_weak, Qmult_lt_l; assumption.
      * left.
        exists pv_tech, rest,
          (np_clip (module_eff self pv_tech) (1 # 10) (27 # 100)).
        repeat split; assumption.
    + apply Qgtb_false in G.
      exists exc, None. split; [reflexivity |]. split; [intros _; lra |].
      right. split; [reflexivity |]. intros ? ? [= <- <-]. lra.
Qed.

(** C10.  In the pass over the photovoltaic installations, the exchanges
    of an installation keep their place; an exchange that is not a panel
    surface is unchanged, and a panel surface is changed by the rule that
    follows, applied with the rated power read in the name of the
    installation.  The amount of a panel exchange that is not zero is
    modified only when the projected module efficiency, clamped to
    [0.1, 0.27], exceeds the current efficiency (the rated power divided
    by the surface); it is then multiplied by the current efficiency
    divided by the new one, a factor below one, so that a positive surface
    does not increase.  In every other case the exchange is unchanged.  A
    surface of zero raises [ZeroDivisionError]. *)
Theorem update_pv_exchange_rule (self : Electricity) :
  (forall (power : Q) (exc : exchange),
     let current_eff := power / e_amount exc in
     (e_amount exc == 0 ->
      update_pv_exchange self power exc = Raise ZeroDivisionError)
     /\ (~ e_amount exc == 0 ->
         exists exc' change,
           update_pv_exchange self power exc = Ok (exc', change)
           /\ (0 < e_amount exc -> e_amount exc' <= e_amount exc)
           /\ ((exists pv_tech rest new_eff,
                  filter (fun i => contains (lower i) (lower (e_name exc)) = true)
                    possible_techs = pv_tech :: rest
                  /\ new_eff
                     = np_clip (module_eff self pv_tech) (1 # 10) (27 # 100)
                  /\ current_eff < new_eff
                  /\ exc' = set_amount exc
                              (e_amount exc * (current_eff / new_eff))
                  /\ current_eff / new_eff < 1)
               \/ (exc' = exc
                   /\ forall pv_tech rest,
                        filter (fun i =>
                                  contains (lower i) (lower (e_name exc)) = true)
                          possible_techs = pv_tech :: rest ->
                        ~ current_eff
                          < np_clip (module_eff self pv_tech)
                              (1 # 10) (27 # 100)))))
  /\ forall ds ds' : dataset,
       update_pv_dataset self ds = Ok ds' ->
       exists rated,
         py_index (findall_numbers self (ds_name ds)) 0 = Ok rated
         /\ Forall2 (fun exc exc' =>
                if is_panel_surface exc
                then exists change,
                       update_pv_exchange self
                         (if contains "mwp" (lower (ds_name ds))
                          then rated * 1000 else rated) exc
                       = Ok (exc', change)
                else exc' = exc)
              (ds_exchanges ds) (ds_exchanges ds').
Proof.
  split.
  - intros power exc current_eff. split.
    + apply update_pv_exchange_zero.
    + apply update_pv_exchange_cases.
  - intros ds ds' H. unfold update_pv_dataset in H.
    apply bind_Ok in H as (rated & Hr & H). cbv zeta in H.
    apply bind_Ok in H as ([excs log'] & Hloop & H). injection H as <-.
    exists rated. split; [exact Hr |].
    apply update_pv_loop in Hloop as (new & -> & Hf). exact Hf.
Qed.

Lemma update_pv_exchange_rule_witness :
  exists ds' exc',
    update_pv_dataset Scenario.EUR (Scenario.installation 20) = Ok ds'
    /\ ds_exchanges ds' !! 1%nat = Some exc'
    /\ e_amount exc' <= e_amount (Scenario.panel 20)
    /\ e_amount exc' == 15.
Proof.
  destruct (update_pv_exchange_rule Scenario.EUR) as [Hrule Hpass].
  assert (Hok : is_Ok (update_pv_dataset Scenario.EUR (Scenario.installation 20)))
    by (vm_compute; exact I).
  destruct (update_pv_dataset Scenario.EUR (Scenario.installation 20))
    as [ds'|e] eqn:E; [| destruct Hok].
  destruct (Hpass _ _ E) as (rated & Hr & Hf).
  assert (Er : rated = 3) by (revert Hr; vm_compute; now intros [= <-]).
  subst rated.
  destruct (Forall2_lookup_l _ _ _ 1%nat (Scenario.panel 20) Hf eq_refl)
    as (exc' & Hi & Hexc).
  change (exists change,
            update_pv_exchange Scenario.EUR 3 (Scenario.panel 20)
            = Ok (exc', change)) in Hexc.
  destruct Hexc as (change & Hexc).
  destruct (proj2 (Hrule 3 (Scenario.panel 20))) as (exc2 & change2 & E2 & Hle & _).
  { vm_compute. discriminate. }
  rewrite Hexc in E2. injection E2 as <- <-.
  exists ds', exc'. split; [reflexivity |]. split; [exact Hi |].
  split; [apply Hle; vm_compute; reflexivity |].
  revert Hexc. vm_compute. intros [= <- _]. reflexivity.
Defined.

(** ** Region-specific power plants *)

Lemma co2_amount_of_Raise (db : list dataset) (before after : list exchange)
    (provider : exchange) (e : exn) (acc : Q) :
  Forall (fun p => is_Ok (find_provider db p)) before ->
  find_provider db provider = Raise e ->
  for_each (fun co2_amount provider =>
      released ← provider_co2 db provider;
      Ok (co2_amount + released)) (before ++ provider :: after) acc = Raise e.
Proof.
  intros Hb Hp. revert acc. induction Hb as [|p before Hok _ IH]; intros acc.
  - simpl app. rewrite for_each_cons. cbv beta.
    assert (E : provider_co2 db provider = Raise e)
      by (unfold provider_co2; now rewrite Hp).
    now rewrite E.
  - simpl app. rewrite for_each_cons. cbv beta.
    destruct (find_provider db p) as [provider_ds|] eqn:E; [| contradiction].
    rewrite (provider_co2_Ok _ _ _ E), !bind_ret_l. apply IH.
Qed.

(** X15.  The adjustment of a copied CHP CCS plant raises when one of its
    electricity providers has no dataset of its own in the database: the
    exception is that of the first provider for which the search of the
    dataset fails. *)
Theorem adjust_ccs_plant_raises (db : list dataset) (plant : dataset)
    (before after : list exchange) (provider : exchange) (e : exn) :
  filter (fun e => is_electricity_provider e = true) (ds_exchanges plant)
  = before ++ provider :: after ->
  Forall (fun p => is_Ok (find_provider db p)) before ->
  find_provider db provider = Raise e ->
  adjust_ccs_plant db plant = Raise e.
Proof.
  intros Hp Hb He. unfold adjust_ccs_plant, co2_amount_of.
  now rewrite Hp, (co2_amount_of_Raise db before after provider e 0 Hb He).
Qed.

Lemma adjust_ccs_exchange_provider (co2_amount : Q) (exc : exchange) :
  is_electricity_provider exc = true ->
  adjust_ccs_exchange co2_amount exc = exc.
Proof.
  unfold is_electricity_provider. intros H.
  apply andb_true_iff in H as [Ht Hu]. apply String.eqb_eq in Hu.
  apply (proj2 (adjust_ccs_exchange_cases co2_amount exc)).
  - unfold is_co2_capture. now rewrite Hu, andb_false_r.
  - unfold is_co2_emission. destruct (e_type exc); try discriminate.
    reflexivity.
Qed.

Lemma adjust_ccs_exchange_provider_iff (co2_amount : Q) (exc : exchange) :
  is_electricity_provider (adjust_ccs_exchange co2_amount exc)
  = is_electricity_provider exc.
Proof.
  unfold adjust_ccs_exchange.
  destruct (is_co2_capture exc) eqn:E1;
    destruct (is_co2_emission _) eqn:E2; reflexivity.
Qed.

Lemma adjust_ccs_exchange_twice (co2_amount : Q) (exc : exchange) :
  adjust_ccs_exchange co2_amount (adjust_ccs_exchange co2_amount exc)
  = adjust_ccs_exchange co2_amount exc.
Proof.
  destruct (is_co2_capture exc) eqn:E1; [| destruct (is_co2_emission exc) eqn:E2].
  - rewrite (proj1 (adjust_ccs_exchange_cases co2_amount exc)) by now left.
    rewrite (proj1 (adjust_ccs_exchange_cases co2_amount _)) by now left.
    reflexivity.
  - rewrite (proj1 (adjust_ccs_exchange_cases co2_amount exc)) by now right.
    rewrite (proj1 (adjust_ccs_exchange_cases co2_amount _)) by now right.
    reflexivity.
  - now rewrite !(proj2 (adjust_ccs_exchange_cases co2_amount exc) E1 E2).
Qed.

Lemma providers_of_adjusted (co2_amount : Q) (l : list exchange) :
  filter (fun e => is_electricity_provider e = true)
    (map (adjust_ccs_exchange co2_amount) l)
  = filter (fun e => is_electricity_provider e = true) l.
Proof.
  induction l as [|e l IH]; [reflexivity |]. simpl map.
  destruct (is_electricity_provider e) eqn:E.
  - rewrite (adjust_ccs_exchange_provider _ _ E).
    rewrite !filter_cons_True by assumption. now rewrite IH.
  - rewrite !filter_cons_False; [exact IH | congruence |].
    rewrite adjust_ccs_exchange_provider_iff. congruence.
Qed.

(** X16.  The adjustment of a copied CHP CCS plant is idempotent: the
    carbon dioxide released by the providers does not depend on the
    exchanges that the adjustment sets, so that a second adjustment
    returns the plant that the first one returned. *)
Theorem adjust_ccs_plant_idempotent (db : list dataset)
    (plant plant' : dataset) :
  adjust_ccs_plant db plant = Ok plant' ->
  adjust_ccs_plant db plant' = Ok plant'.
Proof.
  unfold adjust_ccs_plant, co2_amount_of. intros H.
  apply bind_Ok in H as (co2_amount & Hc & H). injection H as <-.
  cbn [ds_exchanges set_exchanges].
  rewrite providers_of_adjusted, Hc, bind_ret_l.
  unfold set_exchanges. cbn. do 2 f_equal.
  rewrite map_map. apply map_ext. intros e. apply adjust_ccs_exchange_twice.
Qed.

Lemma adjust_ccs_plant_raises_witness :
  adjust_ccs_plant [Scenario.chp "RER"] (Scenario.chp "EUR") = Raise NoResults.
Proof.
  apply (adjust_ccs_plant_raises [Scenario.chp "RER"] (Scenario.chp "EUR")
           [] [] Scenario.grid_input NoResults).
  - vm_compute. reflexivity.
  - constructor.
  - vm_compute. reflexivity.
Defined.

Lemma adjust_ccs_plant_idempotent_witness :
  exists plant',
    adjust_ccs_plant [Scenario.grid; Scenario.chp "RER"] (Scenario.chp "EUR")
    = Ok plant'
    /\ plant' <> Scenario.chp "EUR"
    /\ adjust_ccs_plant [Scenario.grid; Scenario.chp "RER"] plant' = Ok plant'.
Proof.
  assert (E : { plant' | adjust_ccs_plant [Scenario.grid; Scenario.chp "RER"]
                           (Scenario.chp "EUR") = Ok plant' }).
  { eexists. vm_compute. reflexivity. }
  destruct E as [plant' E]. exists plant'. split; [exact E |]. split.
  - revert E. vm_compute. intros [= <-]. discriminate.
  - exact (adjust_ccs_plant_idempotent _ _ _ E).
Defined.

(** ** Biomass markets *)

Lemma np_clip_positive (x : Q) : 0 < np_clip x 0 1 <-> 0 < x.
Proof.
  unfold np_clip. split.
  - intros H. destruct (Qlt_le_dec 0 x) as [|Hx]; [assumption |].
    rewrite (Q.max_r x 0 Hx) in H. rewrite Q.min_r in H; lra.
  - intros H. apply Q.min_glb_lt; [lra |].
    apply Qlt_le_trans with x; [assumption | apply Q.le_max_l].
Qed.

Section BiomassShares.

Variable b : Biomass.
Variable region : string.

Lemma total_prod_vol_positive :
  0 < Qmax (py_sum (map (production_volumes b region)
                      (map fst (biomass_map b)))) (1 # 1000000).
Proof.
  apply Qlt_le_trans with (1 # 1000000); [reflexivity | apply Q.le_max_r].
Qed.

(** X18.  The share of a type of biomass in the market of a region lies
    between zero and one; the share of the residual biomass is never
    zero, and the share of another type is positive exactly when the
    scenario gives the type a positive production volume. *)
Theorem biomass_share_range (biomass_type : string) :
  0 <= biomass_share b region biomass_type <= 1
  /\ (biomass_type = "biomass - residual" ->
      0 < biomass_share b region biomass_type)
  /\ (biomass_type <> "biomass - residual" ->
      (0 < biomass_share b region biomass_type
       <-> 0 < production_volumes b region biomass_type)).
Proof.
  unfold biomass_share. cbv zeta.
  pose proof total_prod_vol_positive as Ht.
  set (total := Qmax _ (1 # 1000000)) in *.
  set (v := production_volumes b region biomass_type).
  destruct (np_clip_bounds (v / total) 0 1) as [Hlo Hhi]; [lra |].
  pose proof (np_clip_positive (v / total)) as Hpos.
  assert (Hv : 0 < v / total <-> 0 < v).
  { split; intros H.
    - apply Qnot_le_lt. intros Hle.
      assert (Hinv : 0 <= / total)
        by (apply Qlt_le_weak, Qinv_lt_0_compat; exact Ht).
      pose proof (Qmult_le_compat_r v 0 (/ total) Hle Hinv) as Hm.
      unfold Qdiv in H. lra.
    - apply Qlt_shift_div_l; lra. }
  destruct (Qeq_bool (np_clip (v / total) 0 1) 0) eqn:E.
  - apply Qeq_bool_iff in E.
    destruct (String.eqb biomass_type "biomass - residual") eqn:Er.
    + apply String.eqb_eq in Er. split; [lra |]. split; [lra |]. congruence.
    + split; [lra |]. split.
      * intros ->. discriminate.
      * intros _. rewrite <- Hv, <- Hpos. lra.
  - apply Qeq_bool_false in E. split; [lra |]. split.
    + intros _. lra.
    + intros _. rewrite <- Hv, <- Hpos. lra.
Qed.

Lemma elem_le_py_sum (x : Q) (l : list Q) :
  Forall (fun y => 0 <= y) l -> x ∈ l -> x <= py_sum l.
Proof.
  induction 1 as [|y l Hy Hl IH]; intros Hx; [inversion Hx |].
  rewrite py_sum_cons. pose proof (py_sum_nonneg l Hl).
  apply elem_of_cons in Hx as [->|Hx]; [lra |]. specialize (IH Hx). lra.
Qed.

(** X19.  When the scenario gives the types of biomass nonnegative
    production volumes in a region, that sum to at least 1e-6, and a
    positive one to the residual biomass, the share of a type is its
    production volume divided by their sum, and the shares of the types
    sum to one. *)
Theorem biomass_shares_sum_to_one :
  let types := map fst (biomass_map b) in
  let total := py_sum (map (production_volumes b region) types) in
  Forall (fun t => 0 <= production_volumes b region t) types ->
  1 # 1000000 <= total ->
  0 < production_volumes b region "biomass - residual" ->
  Forall (fun t =>
      biomass_share b region t == production_volumes b region t / total) types
  /\ py_sum (map (biomass_share b region) types) == 1.
Proof.
  intros types total Hnn Htot Hres.
  assert (Hmax : Qmax total (1 # 1000000) == total) by (apply Q.max_l; exact Htot).
  assert (Hshare : forall t, t ∈ types ->
    biomass_share b region t == production_volumes b region t / total).
  { intros t Ht. unfold biomass_share. cbv zeta.
    fold types. fold total.
    set (v := production_volumes b region t).
    assert (Hv0 : 0 <= v) by (rewrite Forall_forall in Hnn; now apply Hnn).
    assert (Hvt : v <= total).
    { apply elem_le_py_sum; [now apply Forall_fmap |].
      apply list_elem_of_fmap. eauto. }
    assert (Hclip : np_clip (v / Qmax total (1 # 1000000)) 0 1 == v / total).
    { rewrite np_clip_inside.
      - now rewrite Hmax.
      - rewrite Hmax. apply Qle_shift_div_l; lra.
      - rewrite Hmax. apply Qle_shift_div_r; lra. }
    destruct (Qeq_bool _ 0) eqn:E; [| exact Hclip].
    apply Qeq_bool_iff in E. rewrite Hclip in E.
    destruct (String.eqb t "biomass - residual") eqn:Er; [| now rewrite E].
    apply String.eqb_eq in Er. subst t. exfalso.
    assert (0 < v / total) by (apply Qlt_shift_div_l; subst v; lra).
    lra. }
  split; [now apply Forall_forall |].
  rewrite (py_sum_ext _ (fun t => production_volumes b region t / total))
    by exact Hshare.
  rewrite <- (map_map (production_volumes b region) (fun x => x / total)).
  rewrite py_sum_div. fold total. field. lra.
Qed.

End BiomassShares.

(** The exchange that replaces an input of wood chips. *)
Lemma biomass_input_not_wood_chips (exc : exchange) (location : string) :
  is_wood_chips
    (Exchange (e_type exc) "market for biomass, used as fuel"
       (Some "biomass, used as fuel") (Some location) (e_unit exc)
       (e_amount exc) (e_loc exc) (e_uncertainty_type exc)
       (e_production_volume exc) (e_input exc) (e_categories exc)) = false.
Proof.
  unfold is_wood_chips. cbn [e_type e_name e_unit].
  replace (contains "market for wood chips" "market for biomass, used as fuel")
    with false by (vm_compute; reflexivity).
  now rewrite andb_false_r.
Qed.

(** X20.  The replacement of the inputs of wood chips keeps the exchanges
    of a dataset in their place with their type, unit and amount, and
    leaves as they are those that are not inputs of wood chips; in a
    dataset of electricity, heat or power no input of wood chips remains;
    and the replacement run again changes nothing. *)
Theorem replace_biomass_inputs_spec (b : Biomass) (ds ds' : dataset) :
  replace_biomass_inputs b ds = Ok ds' ->
  ledger_entry ds' = ledger_entry ds
  /\ Forall2 (fun e e' =>
         e_type e' = e_type e /\ e_unit e' = e_unit e
         /\ e_amount e' = e_amount e
         /\ (is_wood_chips e = false -> e' = e))
       (ds_exchanges ds) (ds_exchanges ds')
  /\ (uses_biomass ds = true ->
      Forall (fun e' => is_wood_chips e' = false) (ds_exchanges ds'))
  /\ replace_biomass_inputs b ds' = Ok ds'.
Proof.
  unfold replace_biomass_inputs. intros H.
  destruct (uses_biomass ds) eqn:Eu.
  - apply bind_Ok in H as (exchanges & Hex & H). injection H as <-.
    apply mapM_Ok_Forall2 in Hex.
    assert (Hstep : Forall2 (fun e e' =>
        (e_type e' = e_type e /\ e_unit e' = e_unit e
         /\ e_amount e' = e_amount e /\ (is_wood_chips e = false -> e' = e))
        /\ is_wood_chips e' = false) (ds_exchanges ds) exchanges).
    { eapply Forall2_impl; [exact Hex |]. simpl. intros e e' E.
      destruct (is_wood_chips e) eqn:Ew.
      - apply bind_Ok in E as (location & _ & [= <-]).
        split; [repeat split; discriminate |].
        apply biomass_input_not_wood_chips.
      - injection E as <-. repeat split; assumption. }
    assert (Hnone : Forall (fun e' => is_wood_chips e' = false) exchanges).
    { clear -Hstep. induction Hstep as [|e e' l k [_ H] _ IH]; constructor; auto. }
    split; [reflexivity |]. split; [| split].
    + eapply Forall2_impl; [exact Hstep |]. simpl. tauto.
    + intros _. exact Hnone.
    + change (uses_biomass (set_exchanges ds exchanges)) with (uses_biomass ds).
      rewrite Eu. cbn [ds_exchanges set_exchanges].
      rewrite mapM_fixed; [reflexivity |].
      intros e He. rewrite Forall_forall in Hnone. now rewrite (Hnone e He).
  - injection H as <-. split; [reflexivity |]. split; [| split].
    + apply Forall_Forall2_diag, Forall_forall. intros e _. repeat split.
    + discriminate.
    + now rewrite Eu.
Qed.

Lemma biomass_share_range_witness :
  0 < biomass_share Cases.biomass "EUR" "biomass - residual"
  /\ biomass_share Cases.biomass "EUR" "biomass - residual" <= 1
  /\ 0 < biomass_share Cases.biomass "EUR" "biomass crops - purpose grown".
Proof.
  destruct (biomass_share_range Cases.biomass "EUR" "biomass - residual")
    as ([_ Hhi] & Hres & _).
  destruct (biomass_share_range Cases.biomass "EUR"
              "biomass crops - purpose grown") as (_ & _ & Hother).
  split; [exact (Hres eq_refl) |]. split; [exact Hhi |].
  apply Hother; [discriminate | vm_compute; reflexivity].
Defined.

Lemma biomass_shares_sum_to_one_witness :
  biomass_share Cases.biomass "EUR" "biomass - residual" == 3 # 4
  /\ py_sum (map (biomass_share Cases.biomass "EUR")
               (map fst (biomass_map Cases.biomass))) == 1.
Proof.
  assert (Hnn : Forall (fun t => 0 <= production_volumes Cases.biomass "EUR" t)
                  (map fst (biomass_map Cases.biomass)))
    by (repeat constructor; vm_compute; discriminate).
  assert (Htot : 1 # 1000000
                 <= py_sum (map (production_volumes Cases.biomass "EUR")
                              (map fst (biomass_map Cases.biomass))))
    by (vm_compute; discriminate).
  assert (Hres : 0 < production_volumes Cases.biomass "EUR" "biomass - residual")
    by (vm_compute; reflexivity).
  destruct (biomass_shares_sum_to_one Cases.biomass "EUR" Hnn Htot Hres)
    as [Hshares Hsum].
  split; [| exact Hsum].
  apply Forall_cons in Hshares as [Hfirst _].
  apply (Qeq_trans _ _ _ Hfirst). vm_compute. reflexivity.
Defined.

Lemma replace_biomass_inputs_spec_witness :
  exists ds',
    replace_biomass_inputs Cases.biomass Cases.wood_plant = Ok ds'
    /\ ds' <> Cases.wood_plant
    /\ Forall (fun e' => is_wood_chips e' = false) (ds_exchanges ds')
    /\ replace_biomass_inputs Cases.biomass ds' = Ok ds'.
Proof.
  assert (E : { ds' | replace_biomass_inputs Cases.biomass Cases.wood_plant
                      = Ok ds' }).
  { eexists. vm_compute. reflexivity. }
  destruct E as [ds' E].
  destruct (replace_biomass_inputs_spec _ _ _ E) as (_ & _ & Hnone & Hfix).
  exists ds'. split; [exact E |]. split; [| split; [| exact Hfix]].
  - revert E. vm_compute. intros [= <-]. discriminate.
  - apply Hnone. vm_compute. reflexivity.
Defined.

(** ** The markets of the cascade are distinct *)









(** ** The pass over the efficiency of power plants *)

(** X22.  The pass over the efficiency of power plants leaves the ledger
    of created datasets and the number of datasets as they are, and a
    dataset that passes the filter of none of the technologies keeps its
    place unchanged. *)
Theorem update_electricity_efficiency_frame (self : Electricity)
    (st st' : state) :
  update_electricity_efficiency self st = Ok st' ->
  created st' = created st
  /\ length (database st') = length (database st)
  /\ forall i ds,
       database st !! i = Some ds ->
       (forall technology dict_technology,
          (technology, dict_technology) ∈ technologies_map self ->
          is_rescaled dict_technology ds = false) ->
       database st' !! i = Some ds.
Proof.
  unfold update_electricity_efficiency. intros H.
  apply bind_Ok in H as (db & Hloop & H). injection H as <-. simpl.
  split; [reflexivity |]. revert Hloop.
  apply (for_each_inv (fun db' =>
    length db' = length (database st)
    /\ forall i ds,
         database st !! i = Some ds ->
         (forall technology dict_technology,
            (technology, dict_technology) ∈ technologies_map self ->
            is_rescaled dict_technology ds = false) ->
         db' !! i = Some ds)); [| auto].
  intros db1 [technology dict_technology] db2 Hin [Hlen Hkeep] Hstep.
  apply mapM_Ok_Forall2 in Hstep. split.
  - now rewrite <- (Forall2_length _ _ _ Hstep).
  - intros i ds Hi Hnone.
    destruct (Forall2_lookup_l _ _ _ _ _ Hstep (Hkeep i ds Hi Hnone))
      as (ds2 & Hi2 & E).
    rewrite (Hnone technology dict_technology Hin) in E.
    now injection E as <-.
Qed.

Lemma update_electricity_efficiency_frame_witness :
  exists st',
    update_electricity_efficiency
      (Scenario.plants_pass [("Gas CC", Scenario.gas_entry (35 # 100) (8 # 7))])
      (State [Scenario.coal_DE; Scenario.gas_plant] []) = Ok st'
    /\ length (database st') = 2%nat
    /\ database st' !! 0%nat = Some Scenario.coal_DE
    /\ database st' !! 1%nat <> Some Scenario.gas_plant.
Proof.
  assert (E : { st' | update_electricity_efficiency
                        (Scenario.plants_pass
                           [("Gas CC", Scenario.gas_entry (35 # 100) (8 # 7))])
                        (State [Scenario.coal_DE; Scenario.gas_plant] [])
                      = Ok st' }).
  { eexists. vm_compute. reflexivity. }
  destruct E as [st' E]. exists st'. split; [exact E |].
  destruct (update_electricity_efficiency_frame _ _ _ E) as (_ & Hl & Hk).
  split; [exact Hl |]. split.
  - apply Hk; [reflexivity |].
    intros technology dict_technology Hin.
    apply list_elem_of_singleton in Hin. injection Hin as -> ->.
    vm_compute. reflexivity.
  - revert E. vm_compute. intros [= <-]. discriminate.
Defined.

(** ** The balance of the high voltage market *)

Lemma py_sum_app (l k : list Q) : py_sum (l ++ k) == py_sum l + py_sum k.
Proof.
  induction l as [|x l IH]; simpl app.
  - unfold py_sum at 2. simpl. lra.
  - rewrite !py_sum_cons, IH. lra.
Qed.

Lemma py_sum_concat_map {A} (g : A -> list Q) (l : list A) :
  py_sum (concat (map g l)) == py_sum (map (fun x => py_sum (g x)) l).
Proof.
  induction l as [|x l IH]; simpl.
  - reflexivity.
  - rewrite py_sum_app, py_sum_cons, IH. reflexivity.
Qed.

Lemma py_sum_scale {A} (c : Q) (f : A -> Q) (l : list A) :
  py_sum (map (fun x => c * f x) l) == c * py_sum (map f l).
Proof.
  induction l as [|x l IH]; simpl.
  - unfold py_sum. simpl. lra.
  - rewrite !py_sum_cons, IH. lra.
Qed.

Lemma py_sum_partition {A} (f : A -> Q) (p : A -> bool) (l : list A) :
  py_sum (map f l)
  == py_sum (map f (filter (fun x => p x = true) l))
     + py_sum (map f (filter (fun x => p x = false) l)).
Proof.
  induction l as [|x l IH].
  - unfold py_sum. simpl. lra.
  - simpl map. rewrite py_sum_cons, IH. destruct (p x) eqn:E.
    + rewrite filter_cons_True by assumption.
      rewrite filter_cons_False by congruence.
      simpl map. rewrite py_sum_cons. lra.
    + rewrite filter_cons_False by congruence.
      rewrite filter_cons_True by assumption.
      simpl map. rewrite py_sum_cons. lra.
Qed.

Lemma elem_of_concat_map_inv {A B} (f : A -> list B) (l : list A) (y : B) :
  y ∈ concat (map f l) -> exists x, x ∈ l /\ y ∈ f x.
Proof.
  intros H. apply list_elem_of_In, in_concat in H as (k & Hk & Hy).
  apply in_map_iff in Hk as (x & <- & Hx).
  exists x. split; now apply list_elem_of_In.
Qed.

(** The summed amount of the inputs that a market builder creates for one
    technology, when the shares of its suppliers sum to one. *)
Lemma supply_of_amount (flow : Q -> Q -> Q) (c : Q) (mix : list (string * Q))
    (tech_suppliers : list (string * list (dataset * Q)))
    (technology : string) (amount : Q) :
  (forall a s, flow a s == a * c * s) ->
  dict_lookup mix technology = Some amount -> 0 <= amount ->
  (0 < amount ->
   py_sum (map snd (tech_suppliers_get tech_suppliers technology)) == 1) ->
  py_sum (map e_amount (supply_of flow mix tech_suppliers technology))
  == amount * c.
Proof.
  intros Hflow Hl Hnn Hone. unfold supply_of. rewrite Hl.
  destruct (Qgtb amount 0) eqn:G.
  - apply Qgtb_true in G. rewrite map_map.
    rewrite (py_sum_ext _ (fun p => amount * c * p.2)).
    + rewrite (py_sum_scale (amount * c) snd), (Hone G). lra.
    + intros [supplier share] _. simpl. apply Hflow.
  - apply Qgtb_false in G. unfold py_sum. simpl.
    assert (amount == 0) by lra. nra.
Qed.

(** X23.  When the labels of the scenario are distinct and its shares are
    not negative and sum to one, and the suppliers allocated to every
    technology of positive share have shares that sum to one, the high
    voltage market of a region is the production of one kilowatt hour, the
    transformation loss taken from the market itself, and inputs from the
    suppliers whose amounts sum to one. *)
Theorem high_voltage_market_balance (self : Electricity) (db : list dataset)
    (region : string) (transf_loss : Q)
    (tech_suppliers : list (string * list (dataset * Q))) (period : nat)
    (new_dataset : dataset) :
  let technologies :=
    filter (fun tech => is_residential_solar tech = false) (variables self) in
  let solar_amount := solar_amount_of (electricity_mix self region period) in
  NoDup (variables self) ->
  (forall v, v ∈ variables self -> 0 <= mix_value self region period v) ->
  py_sum (map (mix_value self region period) (variables self)) == 1 ->
  ~ solar_amount == 1 ->
  (forall technology,
     technology ∈ technologies ->
     0 < mix_value self region period technology ->
     py_sum (map snd (tech_suppliers_get tech_suppliers technology)) == 1) ->
  high_voltage_market self db region transf_loss tech_suppliers technologies
    period = Ok new_dataset ->
  exists output loss supply,
    ds_exchanges new_dataset = output :: loss :: supply
    /\ e_type output = production /\ e_amount output = 1
    /\ e_type loss = technosphere /\ e_amount loss = transf_loss
    /\ Forall (fun exc => e_type exc = technosphere) supply
    /\ py_sum (map e_amount supply) == 1.
Proof.
  intros technologies solar_amount Hnd Hnn Hone Hsolar Halloc H.
  unfold high_voltage_market in H.
  apply bind_Ok in H as (second & _ & H). cbv zeta in H.
  rewrite high_voltage_supply_eq in H
    by (intros t Ht; rewrite (mix_has_technologies self _ region period t Ht);
        eauto).
  rewrite bind_ret_l in H. injection H as <-.
  eexists _, _, _. split; [reflexivity |].
  split; [reflexivity |]. split; [reflexivity |].
  split; [reflexivity |]. split; [reflexivity |].
  fold solar_amount. fold technologies. split.
  - apply Forall_forall. intros exc Hexc.
    apply elem_of_concat_map_inv in Hexc as (t & _ & Hexc).
    apply elem_of_supply_of in Hexc as (a & s & sh & _ & _ & _ & ->).
    reflexivity.
  - rewrite concat_map, map_map, py_sum_concat_map.
    assert (Hres : solar_amount
                   == py_sum (map (mix_value self region period)
                                (filter (fun tech => is_residential_solar tech = true)
                                   (variables self)))).
    { unfold solar_amount, solar_amount_of.
      rewrite (electricity_mix_NoDup self region period Hnd).
      rewrite solar_amount_of_map. lra. }
    assert (Hnon : py_sum (map (mix_value self region period) technologies)
                   == 1 - solar_amount).
    { rewrite (py_sum_partition (mix_value self region period)
                 is_residential_solar) in Hone.
      fold technologies in Hone. rewrite Hres. lra. }
    rewrite (py_sum_ext _ (fun t => / (1 - solar_amount)
                                    * mix_value self region period t)).
    + rewrite py_sum_scale, Hnon. field. lra.
    + intros t Ht.
      assert (Hv : t ∈ variables self)
        by (apply list_elem_of_filter in Ht as [_ Ht]; exact Ht).
      rewrite (supply_of_amount _ (/ (1 - solar_amount)) _ _ _
                 (mix_value self region period t)).
      * lra.
      * intros a s. unfold Qdiv. lra.
      * exact (mix_has_technologies self _ region period t Ht).
      * now apply Hnn.
      * intros Hpos. now apply Halloc.
Qed.

Lemma high_voltage_market_balance_witness :
  exists new_dataset supply,
    high_voltage_market (Scenario.EUR_solar "cutoff")
      (Scenario.rooftop_CH :: Scenario.inventory) "EUR" (1 # 100)
      Cases.allocation
      (filter (fun tech => is_residential_solar tech = false)
         (variables (Scenario.EUR_solar "cutoff"))) 20 = Ok new_dataset
    /\ solar_amount_of (electricity_mix (Scenario.EUR_solar "cutoff") "EUR" 20)
       == 1 # 10
    /\ drop 2 (ds_exchanges new_dataset) = supply
    /\ length supply = 3%nat
    /\ py_sum (map e_amount supply) == 1.
Proof.
  assert (H1 : NoDup (variables (Scenario.EUR_solar "cutoff"))) by compute_done.
  assert (H2 : forall v, v ∈ variables (Scenario.EUR_solar "cutoff") ->
                 0 <= mix_value (Scenario.EUR_solar "cutoff") "EUR" 20 v).
  { intros v Hv. apply list_elem_of_In in Hv. simpl in Hv.
    destruct Hv as [<-|[<-|[<-|[]]]]; vm_compute; discriminate. }
  assert (H3 : py_sum (map (mix_value (Scenario.EUR_solar "cutoff") "EUR" 20)
                         (variables (Scenario.EUR_solar "cutoff"))) == 1)
    by (vm_compute; reflexivity).
  assert (H4 : ~ solar_amount_of
                   (electricity_mix (Scenario.EUR_solar "cutoff") "EUR" 20) == 1)
    by (vm_compute; discriminate).
  assert (H5 : forall technology,
    technology ∈ filter (fun tech => is_residential_solar tech = false)
                   (variables (Scenario.EUR_solar "cutoff")) ->
    0 < mix_value (Scenario.EUR_solar "cutoff") "EUR" 20 technology ->
    py_sum (map snd (tech_suppliers_get Cases.allocation technology)) == 1).
  { intros t Ht _. apply list_elem_of_filter in Ht as [Hr Ht].
    apply list_elem_of_In in Ht. simpl in Ht.
    destruct Ht as [<-|[<-|[<-|[]]]];
      first [vm_compute; reflexivity | vm_compute in Hr; discriminate]. }
  assert (E : { ds | high_voltage_market (Scenario.EUR_solar "cutoff")
                       (Scenario.rooftop_CH :: Scenario.inventory) "EUR"
                       (1 # 100) Cases.allocation
                       (filter (fun tech => is_residential_solar tech = false)
                          (variables (Scenario.EUR_solar "cutoff"))) 20
                     = Ok ds }).
  { eexists. vm_compute. reflexivity. }
  destruct E as [ds E].
  destruct (high_voltage_market_balance (Scenario.EUR_solar "cutoff")
              (Scenario.rooftop_CH :: Scenario.inventory) "EUR"
              (1 # 100) Cases.allocation 20%nat ds H1 H2 H3 H4 H5 E)
    as (output & loss & supply & Hex & _ & _ & _ & _ & _ & Hsum).
  exists ds, supply. split; [exact E |].
  split; [vm_compute; reflexivity |].
  split; [now rewrite Hex |]. split; [| exact Hsum].
  revert E Hex. vm_compute. intros [= <-] [= _ _ <-]. reflexivity.
Defined.

(** ** The markets for biomass *)

Lemma biomass_share_nonneg (b : Biomass) (region biomass_type : string) :
  0 <= biomass_share b region biomass_type.
Proof.
  unfold biomass_share. cbv zeta.
  set (x := production_volumes b region biomass_type / _).
  destruct (np_clip_bounds x 0 1) as [Hlo _]; [lra |].
  destruct (Qeq_bool (np_clip x 0 1) 0); [| exact Hlo].
  destruct (String.eqb biomass_type "biomass - residual"); lra.
Qed.

Lemma find_biomass_suppliers_nonempty (db : list dataset) (act : biomass_act)
    (locations : list string) (suppliers : list dataset) :
  find_biomass_suppliers db act locations = Ok suppliers -> suppliers <> [].
Proof.
  induction locations as [|location rest IH]; simpl; [discriminate |].
  destruct (ws.get_many db (is_biomass_supplier act location)) eqn:E.
  - exact IH.
  - intros [= <-]. discriminate.
Qed.

Section BiomassMarket.

Variable self : Electricity.
Variable b : Biomass.
Variable db : list dataset.
Variable region : string.

(** The loop over the types of biomass. *)
Lemma biomass_market_loop (l : list (string * biomass_act)) :
  (forall suppliers,
     suppliers <> [] ->
     py_sum (map snd (get_shares_from_production_volume b suppliers)) == 1) ->
  forall exchanges (log_parameters : gmap string Q) exchanges' log_parameters',
    for_each (fun '(exchanges, log_parameters) '(biomass_type, act) =>
        let share := biomass_share b region biomass_type in
        exchanges ←
          (if Qgtb share 0
           then
             suppliers ←
               find_biomass_suppliers db act
                 ([region] ++ iam_to_ecoinvent_location self region
                  ++ ["RER"; "Europe without Switzerland"; "RoW"; "GLO"]);
             Ok (exchanges ++
                   map (fun '((name, location, product, unit), supply_share) =>
                       Exchange technosphere name (Some product)
                         (Some location) unit (supply_share * share * 1)
                         None (Some 0%Z) None None None)
                     (get_shares_from_production_volume b suppliers))
           else Ok exchanges);
        Ok (exchanges, <["biomass share" := share]> log_parameters))
      l (exchanges, log_parameters) = Ok (exchanges', log_parameters') ->
    exists inputs,
      exchanges' = exchanges ++ inputs
      /\ Forall (fun e => e_type e = technosphere) inputs
      /\ py_sum (map e_amount inputs)
         == py_sum (map (biomass_share b region) (map fst l))
      /\ log_parameters' !! "biomass share"
         = match last l with
           | Some (biomass_type, _) => Some (biomass_share b region biomass_type)
           | None => log_parameters !! "biomass share"
           end.
Proof.
  intros Hshares. induction l as [|[biomass_type act] l IH];
    intros exchanges log exchanges' log' H.
  - injection H as <- <-. exists []. rewrite app_nil_r.
    split; [reflexivity |]. split; [constructor |]. split; reflexivity.
  - rewrite for_each_cons in H. apply bind_Ok in H as ([e1 l1] & Hstep & H).
    cbv zeta in Hstep. apply bind_Ok in Hstep as (e1' & He1 & [= <- <-]).
    destruct (IH _ _ _ _ H) as (inputs & -> & Htech & Hsum & Hlog).
    pose proof (biomass_share_nonneg b region biomass_type) as Hnn.
    assert (Hfirst : exists first,
      e1' = exchanges ++ first
      /\ Forall (fun e => e_type e = technosphere) first
      /\ py_sum (map e_amount first) == biomass_share b region biomass_type).
    { destruct (Qgtb (biomass_share b region biomass_type) 0) eqn:G.
      - apply bind_Ok in He1 as (suppliers & Hfind & [= <-]).
        eexists. split; [reflexivity |]. split.
        + apply Forall_fmap, Forall_forall. now intros [[[[? ?] ?] ?] ?] _.
        + rewrite map_map.
          rewrite (py_sum_ext _ (fun p => biomass_share b region biomass_type
                                          * p.2)).
          * rewrite (py_sum_scale _ snd).
            rewrite (Hshares suppliers
                       (find_biomass_suppliers_nonempty _ _ _ _ Hfind)). lra.
          * intros [[[[? ?] ?] ?] supply_share] _. simpl. lra.
      - injection He1 as <-. exists []. rewrite app_nil_r.
        split; [reflexivity |]. split; [constructor |].
        apply Qgtb_false in G. unfold py_sum. simpl. lra. }
    destruct Hfirst as (first & -> & Hft & Hfs).
    exists (first ++ inputs). rewrite <- app_assoc.
    split; [reflexivity |]. split; [now apply Forall_app |]. split.
    + rewrite map_app, py_sum_app, Hfs, Hsum. simpl map.
      rewrite py_sum_cons. reflexivity.
    + rewrite Hlog. destruct l as [|p l'].
      * simpl. now rewrite lookup_insert.
      * change (last ((biomass_type, act) :: p :: l')) with (last (p :: l')).
        destruct (last (p :: l')) as [[t a]|] eqn:El; [reflexivity |].
        apply last_None in El. discriminate.
Qed.

(** X24.  The market for biomass of a region is a dataset of that name in
    the region whose first exchange is the production of one kilogram and
    whose other exchanges are technosphere inputs; when the shares that
    [get_shares_from_production_volume] gives to a non-empty list of
    suppliers sum to one, the amounts of the inputs sum to the sum of the
    shares of the types of biomass; and the biomass share that the dataset
    logs is the share of the last type of the map. *)
Theorem biomass_market_inputs (ds : dataset) :
  (forall suppliers,
     suppliers <> [] ->
     py_sum (map snd (get_shares_from_production_volume b suppliers)) == 1) ->
  biomass_market self b db region = Ok ds ->
  ledger_entry ds
  = ("market for biomass, used as fuel", "biomass, used as fuel", region,
     "kilogram")
  /\ exists output inputs,
       ds_exchanges ds = output :: inputs
       /\ e_type output = production /\ e_amount output = 1
       /\ Forall (fun e => e_type e = technosphere) inputs
       /\ py_sum (map e_amount inputs)
          == py_sum (map (biomass_share b region) (map fst (biomass_map b)))
       /\ forall biomass_type act,
            last (biomass_map b) = Some (biomass_type, act) ->
            ds_log_parameters ds !! "biomass share"
            = Some (biomass_share b region biomass_type).
Proof.
  intros Hshares H. unfold biomass_market in H.
  apply bind_Ok in H as ([exchanges log] & Hloop & H). injection H as <-.
  split; [reflexivity |].
  apply (biomass_market_loop _ Hshares) in Hloop
    as (inputs & -> & Htech & Hsum & Hlog).
  eexists _, inputs. split; [reflexivity |].
  split; [reflexivity |]. split; [reflexivity |].
  split; [exact Htech |]. split; [exact Hsum |].
  intros biomass_type act Hlast. simpl. now rewrite Hlog, Hlast.
Qed.

End BiomassMarket.

Lemma fold_left_append_dataset (l : list dataset) (st : state) :
  database (fold_left append_dataset l st) = database st ++ l
  /\ created (fold_left append_dataset l st)
     = created st ++ map ledger_entry l.
Proof.
  revert st. induction l as [|ds l IH]; intros st; simpl.
  - now rewrite !app_nil_r.
  - destruct (IH (append_dataset st ds)) as [-> ->]. simpl.
    now rewrite <- !app_assoc.
Qed.

Lemma biomass_market_entry (self : Electricity) (b : Biomass)
    (db : list dataset) (region : string) (ds : dataset) :
  biomass_market self b db region = Ok ds ->
  ledger_entry ds
  = ("market for biomass, used as fuel", "biomass, used as fuel", region,
     "kilogram").
Proof.
  unfold biomass_market. intros H.
  apply bind_Ok in H as ([exchanges log] & _ & H). now injection H as <-.
Qed.

Lemma replace_biomass_inputs_entry (b : Biomass) (ds ds' : dataset) :
  replace_biomass_inputs b ds = Ok ds' -> ledger_entry ds' = ledger_entry ds.
Proof.
  unfold replace_biomass_inputs. destruct (uses_biomass ds).
  - intros H. apply bind_Ok in H as (exchanges & _ & H). now injection H as <-.
  - now intros [= <-].
Qed.

(** X25.  When the pass over the biomass completes, the datasets of the
    database are, by name, reference product, location and unit, those it
    was given, followed by the proxies of the supply of forest residue
    that [fetch_proxies] returns, followed by one market for biomass per
    region, in the order of the regions; the ledger of created datasets
    grows by the entries of the proxies and of the markets. *)
Theorem create_biomass_markets_appends (self : Electricity) (b : Biomass)
    (st st' : state) :
  create_biomass_markets self b st = Ok st' ->
  exists residual name ref_prod,
    dict_lookup (biomass_map b) "biomass - residual" = Some residual
    /\ alias_names residual !! 0%nat = Some name
    /\ alias_products residual !! 0%nat = Some ref_prod
    /\ let added :=
         map ledger_entry
           (map snd (fetch_proxies self (database st) name ref_prod
                       (Some "biomass - residual")))
         ++ map (fun region =>
                ("market for biomass, used as fuel", "biomass, used as fuel",
                 region, "kilogram")) (regions self) in
       map ledger_entry (database st')
       = map ledger_entry (database st) ++ added
       /\ created st' = created st ++ added.
Proof.
  unfold create_biomass_markets. intros H.
  apply bind_Ok in H as (residual & Hres & H).
  apply bind_Ok in H as (name & Hname & H).
  apply bind_Ok in H as (ref_prod & Hprod & H). cbv zeta in H.
  apply bind_Ok in H as (s1 & Hloop & H).
  apply bind_Ok in H as (db' & Hdb & H). injection H as <-.
  exists residual, name, ref_prod.
  split; [unfold dict_get in Hres;
          destruct (dict_lookup _ _); [now injection Hres as -> | discriminate] |].
  split; [unfold py_index in Hname;
          destruct (_ !! _); [now injection Hname as -> | discriminate] |].
  split; [unfold py_index in Hprod;
          destruct (_ !! _); [now injection Hprod as -> | discriminate] |].
  cbv zeta.
  set (proxies := map snd (fetch_proxies self (database st) name ref_prod
                             (Some "biomass - residual"))) in *.
  destruct (fold_left_append_dataset proxies st) as [Hd0 Hc0].
  apply (region_loop_entries _ (fun region =>
           [("market for biomass, used as fuel", "biomass, used as fuel",
             region, "kilogram")])) in Hloop as (new & Hd & Hc & He).
  - assert (Hflat : forall l : list string,
      flat_map (fun region =>
          [("market for biomass, used as fuel", "biomass, used as fuel",
            region, "kilogram")]) l
      = map (fun region =>
          ("market for biomass, used as fuel", "biomass, used as fuel",
           region, "kilogram")) l).
    { induction l as [|r l IH]; simpl; [reflexivity | now rewrite IH]. }
    rewrite Hflat in He. simpl. split.
    + apply mapM_Ok_Forall2 in Hdb.
      assert (Hsame : map ledger_entry db' = map ledger_entry (database s1)).
      { apply Forall2_map_eq. eapply Forall2_impl; [exact Hdb |].
        simpl. intros x y. apply replace_biomass_inputs_entry. }
      rewrite Hsame, Hd, Hd0, !map_app, He, <- app_assoc. reflexivity.
    + rewrite Hc, Hc0, He, <- app_assoc. reflexivity.
  - intros s r s' Hs. apply bind_Ok in Hs as (ds & Hm & [= <-]).
    exists [ds]. simpl. rewrite (biomass_market_entry _ _ _ _ _ Hm). auto.
Qed.

Lemma py_sum_constant {A} (c : Q) (l : list A) :
  py_sum (map (fun _ => c) l) == inject_Z (Z.of_nat (length l)) * c.
Proof.
  induction l as [|x l IH].
  - change (0 == 0 * c). lra.
  - simpl map. rewrite py_sum_cons, IH.
    change (length (x :: l)) with (S (length l)).
    rewrite Nat2Z.inj_succ. unfold Z.succ. rewrite inject_Z_plus.
    change (inject_Z 1) with 1. lra.
Qed.

Lemma equal_shares_sum (suppliers : list dataset) :
  suppliers <> [] ->
  py_sum (map snd (get_shares_from_production_volume Cases.biomass suppliers))
  == 1.
Proof.
  intros Hne. simpl. rewrite map_map. simpl.
  rewrite py_sum_constant. field. now apply length_nonzero.
Qed.

Lemma biomass_market_inputs_witness :
  exists ds output inputs,
    biomass_market Scenario.EUR Cases.biomass Cases.biomass_inventory "EUR"
    = Ok ds
    /\ ds_exchanges ds = output :: inputs
    /\ length inputs = 2%nat
    /\ py_sum (map e_amount inputs) == 1
    /\ ds_log_parameters ds !! "biomass share"
       = Some (biomass_share Cases.biomass "EUR" "biomass crops - purpose grown")
    /\ biomass_share Cases.biomass "EUR" "biomass crops - purpose grown"
       == 1 # 4.
Proof.
  assert (E : { ds | biomass_market Scenario.EUR Cases.biomass
                       Cases.biomass_inventory "EUR" = Ok ds }).
  { eexists. vm_compute. reflexivity. }
  destruct E as [ds E].
  destruct (biomass_market_inputs Scenario.EUR Cases.biomass
              Cases.biomass_inventory "EUR" ds equal_shares_sum E)
    as (_ & output & inputs & Hex & _ & _ & _ & Hsum & Hlog).
  exists ds, output, inputs. split; [exact E |]. split; [exact Hex |].
  split; [| split; [| split]].
  - revert E Hex. vm_compute. intros [= <-] [= _ <-]. reflexivity.
  - apply (Qeq_trans _ _ _ Hsum). vm_compute. reflexivity.
  - exact (Hlog "biomass crops - purpose grown"
             {| alias_names := ["market for wood chips"];
                alias_products := ["wood chips"] |} eq_refl).
  - vm_compute. reflexivity.
Defined.

Lemma create_biomass_markets_appends_witness :
  exists st',
    create_biomass_markets Scenario.EUR Cases.biomass
      (State Cases.biomass_inventory []) = Ok st'
    /\ created st'
       = [ ("market for biomass, used as fuel", "biomass, used as fuel",
            "EUR", "kilogram") ]
    /\ length (database st') = 4%nat.
Proof.
  assert (E : { st' | create_biomass_markets Scenario.EUR Cases.biomass
                        (State Cases.biomass_inventory []) = Ok st' }).
  { eexists. vm_compute. reflexivity. }
  destruct E as [st' E]. exists st'. split; [exact E |].
  destruct (create_biomass_markets_appends _ _ _ _ E)
    as (residual & name & ref_prod & _ & _ & _ & Hd & Hc).
  split; [exact Hc |].
  rewrite <- (length_map ledger_entry), Hd. reflexivity.
Defined.

(** * The markets of the three tiers *)

(** ** The labels and the residential solar share of the mix *)



Lemma elem_of_labels_fold (l acc : list string) (x : string) :
  x ∈ fold_left (fun seen v => if decide (v ∈ seen) then seen else seen ++ [v])
        l acc
  <-> x ∈ acc \/ x ∈ l.
Proof.
  revert acc. induction l as [|y l IH]; intros acc; simpl.
  - split; [auto | intros [H|H]; [exact H | inversion H]].
  - rewrite IH, elem_of_cons. destruct (decide (y ∈ acc)) as [Hy|Hy].
    + split; [intros [H|H]; auto | intros [H|[->|H]]; auto].
    + rewrite elem_of_app, list_elem_of_singleton. tauto.
Qed.


Section LabelFacts.

Variable self : Electricity.

Lemma elem_of_mix_labels (v : string) : v ∈ mix_labels self <-> v ∈ variables self.
Proof.
  unfold mix_labels. rewrite elem_of_labels_fold.
  split; [intros [H|H]; [inversion H | exact H] | auto].
Qed.





End LabelFacts.

(** ** The resolver and the allocation, in the terms of the statements *)







Section AllocationTerms.

Variable self : Electricity.








End AllocationTerms.

(** ** The loops of the builders *)

Lemma for_each_total {A S} (I : S -> Prop) (body : S -> A -> result S)
    (l : list A) :
  (forall s x, x ∈ l -> I s -> exists s', body s x = Ok s' /\ I s') ->
  forall s, I s -> exists s', for_each body l s = Ok s' /\ I s'.
Proof.
  induction l as [|x l IH]; intros Hbody s Hs.
  - exists s. split; [reflexivity | exact Hs].
  - rewrite for_each_cons.
    destruct (Hbody s x (list_elem_of_here _ _) Hs) as (s1 & -> & Hs1).
    rewrite bind_ret_l.
    apply (IH (fun s x Hx => Hbody s x (list_elem_of_further _ _ _ Hx)) s1 Hs1).
Qed.

(** The loop over the regions appends the markets of each region in
    turn. *)
Lemma region_loop_markets (periods : list nat)
    (step : state -> string -> result state)
    (P : list dataset -> string -> nat -> dataset -> Prop)
    (regions : list string) (st st' : state) :
  (forall s region s',
     region ∈ regions -> step s region = Ok s' ->
     exists group,
       database s' = database s ++ group
       /\ created s' = created s ++ map ledger_entry group
       /\ Forall2 (P (database s) region) periods group) ->
  for_each step regions st = Ok st' ->
  exists new,
    database st' = database st ++ new
    /\ created st' = created st ++ map ledger_entry new
    /\ markets_of P periods regions (database st) new.
Proof.
  intros Hstep. revert st.
  induction regions as [|region regions IH]; intros st H.
  - injection H as <-. exists []. rewrite !app_nil_r. repeat split.
  - rewrite for_each_cons in H. apply bind_Ok in H as (s1 & H1 & H).
    destruct (Hstep st region s1 (list_elem_of_here _ _) H1)
      as (group & Hd1 & Hc1 & Hg).
    destruct (IH (fun s r s' Hr => Hstep s r s' (list_elem_of_further _ _ _ Hr))
                s1 H) as (rest & Hd & Hc & Hm).
    exists (group ++ rest). rewrite Hd, Hd1, Hc, Hc1, map_app, !app_assoc.
    split; [reflexivity |]. split; [reflexivity |].
    simpl. exists group, rest. rewrite <- Hd1. auto.
Qed.

(** The loop over the periods of a region appends one market per
    period, each built over a database of at least the size of the one
    the loop starts from. *)
Lemma period_loop_total (market : list dataset -> nat -> result dataset)
    (n : nat) (periods : list nat) (st : state) :
  (forall db period, (n <= length db)%nat -> is_Ok (market db period)) ->
  (n <= length (database st))%nat ->
  exists st',
    for_each (fun st period =>
        new_dataset ← market (database st) period;
        Ok (append_dataset st new_dataset)) periods st = Ok st'
    /\ (n <= length (database st'))%nat.
Proof.
  intros Hm.
  apply (for_each_total (fun s => (n <= length (database s))%nat)).
  intros s period _ Hs. specialize (Hm (database s) period Hs).
  destruct (market (database s) period) as [ds|e]; [| destruct Hm].
  eexists. split; [reflexivity |]. simpl. rewrite length_app. lia.
Qed.

(** ** Medium voltage *)

Section MediumVoltage.

Variable self : Electricity.

Lemma medium_voltage_market_total (db : list dataset) (region : string)
    (transf_loss distr_loss : Q) (period : nat) :
  (2 <= length db)%nat ->
  is_Some (biosphere_dict self !! sf6_key) ->
  is_Ok (medium_voltage_market self db region transf_loss distr_loss period).
Proof.
  intros Hdb Hsf6. unfold medium_voltage_market.
  destruct (py_index_Ok db 1) as (second & ->); [lia |].
  rewrite bind_ret_l. cbv zeta.
  destruct (sf6_emission_Ok self (54 # 1000000000) Hsf6) as (emission & -> & _).
  exact I.
Qed.

(** The exchanges of a medium voltage market. *)
Lemma medium_voltage_market_Ok (db : list dataset) (region : string)
    (transf_loss distr_loss : Q) (period : nat) (market : dataset) :
  medium_voltage_market self db region transf_loss distr_loss period
  = Ok market ->
  ledger_entry market = market_entry "medium voltage" region period
  /\ exists emission,
       e_type emission = biosphere
       /\ ds_exchanges market
          = [ market_exchange production
                (market_name "market group for electricity, medium voltage" period)
                "electricity, medium voltage" region "kilowatt hour" 1 (PNum 1);
              market_exchange technosphere
                (market_name "market group for electricity, high voltage" period)
                "electricity, high voltage" region "kilowatt hour"
                (1 + distr_loss) (PNum 0);
              market_exchange technosphere
                (market_name "market group for electricity, medium voltage" period)
                "electricity, medium voltage" region "kilowatt hour"
                transf_loss (PNum 0) ]
            ++ supply_exchanges self db
                 ["market for sulfur hexafluoride, liquid"] region
                 (54 # 1000000000)
            ++ [emission]
            ++ supply_exchanges self db
                 ["transmission network construction, electricity, medium voltage"]
                 region (18628 # 1000000000000).
Proof.
  unfold medium_voltage_market. intros H.
  apply bind_Ok in H as (second & _ & H). cbv zeta in H.
  apply bind_Ok in H as (emission & He & H). injection H as <-.
  split; [reflexivity |]. exists emission. split; [| reflexivity].
  unfold sf6_emission in He. apply bind_Ok in He as (code & _ & [= <-]).
  reflexivity.
Qed.

(** C7.  The medium voltage builder returns whenever the database has a
    second dataset, the biosphere dictionary knows sulfur hexafluoride and
    every region has its losses.  The datasets it appends are one market
    per region and period.  The market of a region and a period has an
    input from the high voltage market of the region and the period, of
    amount one plus the distribution loss that the loss model gives for
    the region at medium voltage, and an input from itself of the amount
    of the transformation loss: 1.05 and 0.02 for the losses 0.05 and
    0.02.  The input from the high voltage market is the only input of
    high voltage electricity, provided that no supplier found for the
    leakage and network inputs delivers high voltage electricity. *)
Theorem medium_voltage_market_inputs (st : state) :
  ((2 <= length (database st))%nat ->
   is_Some (biosphere_dict self !! sf6_key) ->
   (forall region,
      region ∈ regions self -> is_Some (network_loss self !! region)) ->
   is_Ok (create_new_markets_medium_voltage self st))
  /\ forall st',
       create_new_markets_medium_voltage self st = Ok st' ->
       exists new,
         database st' = database st ++ new
         /\ created st' = created st ++ map ledger_entry new
         /\ markets_of (fun db region period market =>
              exists loss high_input self_loop,
                network_loss self !! region = Some loss
                /\ ledger_entry market
                   = market_entry "medium voltage" region period
                /\ high_input ∈ ds_exchanges market
                /\ input_of high_input
                     (market_entry "high voltage" region period)
                /\ e_amount high_input
                   = 1 + Losses.distr_loss (Losses.medium loss)
                /\ ((forall db' names key share,
                       names ∈ [ ["market for sulfur hexafluoride, liquid"];
                                 ["transmission network construction, electricity, medium voltage"] ] ->
                       (key, share)
                       ∈ select_multiple_suppliers self db' names region ->
                       key.1.2 <> "electricity, high voltage") ->
                    filter (fun exc => from_high_voltage exc = true)
                      (ds_exchanges market) = [high_input])
                /\ self_loop ∈ ds_exchanges market
                /\ input_of self_loop (ledger_entry market)
                /\ e_amount self_loop
                   = Losses.transf_loss (Losses.medium loss)
                /\ (Losses.distr_loss (Losses.medium loss) == 5 # 100 ->
                    Losses.transf_loss (Losses.medium loss) == 2 # 100 ->
                    e_amount high_input == 105 # 100
                    /\ e_amount self_loop == 2 # 100))
              (periods self) (regions self) (database st) new.
Proof.
  split.
  - intros Hdb Hsf6 Hloss. unfold create_new_markets_medium_voltage.
    destruct (for_each_total (fun s => (2 <= length (database s))%nat)
                (medium_voltage_region self) (regions self)) with (s := st)
      as (st' & -> & _); [| exact Hdb | exact I].
    intros s region Hr Hs. unfold medium_voltage_region, getitem.
    destruct (Hloss region Hr) as (loss & ->). rewrite bind_ret_l. cbv zeta.
    apply (period_loop_total (fun db period =>
             medium_voltage_market self db region
               (Losses.transf_loss (Losses.medium loss))
               (Losses.distr_loss (Losses.medium loss)) period) 2);
      [| exact Hs].
    intros db period Hdb'. now apply medium_voltage_market_total.
  - intros st'. unfold create_new_markets_medium_voltage.
    apply region_loop_markets. intros s region s' _ Hs.
    unfold medium_voltage_region in Hs.
    apply bind_Ok in Hs as (loss & Hloss & Hs). apply getitem_Ok in Hloss.
    cbv zeta in Hs.
    apply (period_loop (fun db period =>
             medium_voltage_market self db region
               (Losses.transf_loss (Losses.medium loss))
               (Losses.distr_loss (Losses.medium loss)) period))
      in Hs as (group & Hd & Hc & Hf).
    exists group. split; [exact Hd |]. split; [exact Hc |].
    eapply Forall2_impl; [exact Hf |]. simpl.
    intros period market (db' & Hm).
    apply medium_voltage_market_Ok in Hm as (Hentry & emission & Hem & Hex).
    exists loss. eexists. eexists. split; [exact Hloss |].
    split; [exact Hentry |]. rewrite Hex.
    split; [right; left |]. split; [repeat split |]. split; [reflexivity |].
    split.
    { intros Hsup. cbn [app].
      rewrite filter_cons_False by (vm_compute; discriminate).
      rewrite filter_cons_True by (vm_compute; reflexivity).
      rewrite filter_cons_False by (vm_compute; discriminate).
      rewrite filter_app, filter_cons.
      rewrite (filter_none _ (supply_exchanges _ _ _ _ _)).
      2:{ intros exc Hin Hf'. unfold from_high_voltage in Hf'.
          apply andb_true_iff in Hf' as [_ Hf']. apply bool_decide_eq_true in Hf'.
          refine (supply_exchanges_product self _ _ _ _ _ _
                    (fun key share => Hsup _ _ key share _) Hin Hf').
          left. }
      rewrite (filter_none _ (supply_exchanges _ _ _ _ _)).
      2:{ intros exc Hin Hf'. unfold from_high_voltage in Hf'.
          apply andb_true_iff in Hf' as [_ Hf']. apply bool_decide_eq_true in Hf'.
          refine (supply_exchanges_product self _ _ _ _ _ _
                    (fun key share => Hsup _ _ key share _) Hin Hf').
          right; left. }
      assert (Hf' : from_high_voltage emission = false).
      { unfold from_high_voltage. now rewrite Hem. }
      destruct (decide (from_high_voltage emission = true)) as [E|_];
        [congruence | reflexivity]. }
    split; [do 2 right; left |].
    split; [rewrite Hentry; repeat split |]. split; [reflexivity |].
    simpl. intros Hd' Ht. rewrite Hd'. split; [reflexivity | exact Ht].
Qed.

End MediumVoltage.

(** ** The dictionary of suppliers that a builder fills for a region *)

Section Resolution.

Variable self : Electricity.







End Resolution.

(** ** High voltage *)

Section HighVoltage.

Variable self : Electricity.




End HighVoltage.

Section HighVoltageBuilder.

Variable self : Electricity.




End HighVoltageBuilder.

(** ** Low voltage *)


Section LowVoltage.

Variable self : Electricity.





End LowVoltage.

(** ** The builders at concrete inputs *)


Lemma medium_voltage_market_inputs_witness :
  exists st' market high_input self_loop,
    create_new_markets_medium_voltage Scenario.EUR
      (State Scenario.inventory []) = Ok st'
    /\ database st' !! 4%nat = Some market
    /\ ledger_entry market = market_entry "medium voltage" "EUR" 0
    /\ filter (fun exc => from_high_voltage exc = true) (ds_exchanges market)
       = [high_input]
    /\ input_of high_input (market_entry "high voltage" "EUR" 0)
    /\ e_amount high_input == 105 # 100
    /\ self_loop ∈ ds_exchanges market
    /\ e_amount self_loop == 2 # 100.
Proof.
  destruct (medium_voltage_market_inputs Scenario.EUR
              (State Scenario.inventory [])) as (Htot & Hprop).
  assert (Hok : is_Ok (create_new_markets_medium_voltage Scenario.EUR
                         (State Scenario.inventory []))).
  { apply Htot.
    - simpl. lia.
    - eexists. vm_compute. reflexivity.
    - intros region Hr. apply list_elem_of_singleton in Hr as ->.
      exists Scenario.EUR_loss. vm_compute. reflexivity. }
  destruct (create_new_markets_medium_voltage _ _) as [st'|e] eqn:E;
    [| destruct Hok].
  destruct (Hprop _ eq_refl) as (new & Hd & _ & Hm).
  assert (Hr : regions Scenario.EUR = ["EUR"]) by reflexivity.
  assert (Hp : periods Scenario.EUR = [0; 20; 40; 60]%nat) by reflexivity.
  rewrite Hr, Hp in Hm. cbn [markets_of] in Hm.
  destruct Hm as (group & rest & -> & Hf & ->).
  inversion Hf
    as [|p market ps g
         (loss & high_input & self_loop & Hloss & Hentry & _ & Hhigh & _
          & Hsingle & Hself & _ & _ & Hnum) Hrest]; subst.
  assert (El : loss = Scenario.EUR_loss).
  { revert Hloss. vm_compute. now intros [= <-]. }
  subst loss.
  destruct Hnum as [H1 H2]; [reflexivity | reflexivity |].
  exists st', market, high_input, self_loop. split; [reflexivity |].
  split; [rewrite Hd; reflexivity |]. split; [exact Hentry |].
  split.
  { apply Hsingle. intros db' names key share Hnames Hkey.
    apply list_elem_of_In in Hnames. simpl in Hnames.
    destruct Hnames as [<-|[<-|[]]];
      apply list_elem_of_In in Hkey; simpl in Hkey;
      destruct Hkey as [[= <- _]|[]]; discriminate. }
  split; [exact Hhigh |]. split; [exact H1 |]. split; [exact Hself | exact H2].
Defined.


